(** * Workout Log backend: a shallow embedding of [WorkoutLogBackend.py]

    The Flask application keeps two tables ([users], [workouts]) and serves
    seven routes.  Every route is embedded as a function from the request
    data, the clock reading and the database to the new database and the
    HTTP result.  The external collaborators are embedded by their interface:

    - the relational store is a pair of row lists in primary-key order, with
      SQLite's rowid allocation ([max + 1]); it binds integers of 64 bits
      only, refuses a NaN in a NOT NULL REAL column, and gives -0.0 back as
      0.0;
    - bcrypt digests and HS256 tokens are kept symbolic (a digest remembers
      the salt and the 72 key bytes it was derived from, a token remembers
      the key and the claims it was signed with); bcrypt (5.0 and later)
      refuses a password of more than 72 bytes;
    - [Query.paginate] follows Flask-SQLAlchemy 3 with [error_out=False];
    - a [datetime] is the number of microseconds since the epoch;
    - [weight_kg] is a binary64 float, as Python and SQLite REAL have it.

    A request is one that reaches the view with a JSON body: an object whose
    values have the types of the columns (for the two authentication routes
    also [null]).  A string stands for the UTF-8 encoding of a text.  What
    Flask answers before the view runs to a request without a JSON body,
    and what the storage layer does with a value of another JSON type or
    with a text that has no UTF-8 encoding, is outside this development. *)

From Stdlib Require Import ZArith List Ascii String Bool Lia.
From Stdlib Require Import Sorting.Sorted Sorting.Permutation.
From Stdlib Require Import Floats.PrimFloat Floats.FloatOps Floats.SpecFloat.
From Stdlib Require Import Floats.FloatAxioms Numbers.Cyclic.Int63.Uint63.
From Stdlib Require Import QArith.
Import ListNotations.

Set Warnings "-register-all".
Local Open Scope string_scope.
Local Open Scope list_scope.
Local Open Scope Z_scope.

(** ** Python values that reach a JSON response *)

(** Python numbers: [int] is unbounded, [float] is binary64. *)
Inductive number :=
| PyInt (n : Z)
| PyFloat (x : float).

(** [int -> float] conversion as [int * float] performs it: round to nearest
    even.  The integers held by an INTEGER column are 64-bit, so the product
    of two of them is far inside the range where CPython converts rather
    than raising [OverflowError]. *)
Definition float_of_int (n : Z) : float :=
  SF2Prim (binary_normalize prec emax n 0 false).

(** [a * b] on numbers. *)
Definition py_mul (a b : number) : number :=
  match a, b with
  | PyInt m, PyInt n => PyInt (m * n)
  | PyInt m, PyFloat y => PyFloat (PrimFloat.mul (float_of_int m) y)
  | PyFloat x, PyInt n => PyFloat (PrimFloat.mul x (float_of_int n))
  | PyFloat x, PyFloat y => PyFloat (PrimFloat.mul x y)
  end.

(** A number read as the integer [z]: the response says [z] or [z.0]. *)
Definition number_is (v : number) (z : Z) : Prop :=
  v = PyInt z \/ v = PyFloat (float_of_int z).

(** ** Exceptions *)

(** Exceptions the routes can meet. *)
Inductive exn :=
| DecodeError
| InvalidSignatureError
| ExpiredSignatureError
| KeyError (key : string)
| AttributeError (msg : string)
| ValueError
| OverflowError
| IntegrityError.

(** [str(e)].  For a header that is no JWS the text depends on what is wrong
    with the string; the one given here is PyJWT's for a string without
    dots.  No statement below reads the text of a refused token. *)
Definition exn_str (e : exn) : string :=
  match e with
  | DecodeError => "Not enough segments"
  | InvalidSignatureError => "Signature verification failed"
  | ExpiredSignatureError => "Signature has expired"
  | KeyError k => ("'" ++ k ++ "'")%string
  | AttributeError m => m
  | ValueError => "password cannot be longer than 72 bytes"
  | OverflowError => "Python int too large to convert to SQLite INTEGER"
  | IntegrityError => "NOT NULL constraint failed: workouts.weight_kg"
  end.

(** ** Symbolic password digests and tokens *)

(** [n] bytes read from [rest] and then from [key], over and over. *)
Fixpoint cyclic (n : nat) (key rest : list ascii) : list ascii :=
  match n with
  | O => []
  | S n' =>
      match rest with
      | c :: rest' => c :: cyclic n' key rest'
      | [] =>
          match key with
          | c :: key' => c :: cyclic n' key key'
          | [] => []
          end
      end
  end.

(** What a digest depends on besides the salt: the 72 bytes that the
    Blowfish key schedule reads.  The key is the password with its
    terminating NUL, cut at 72 bytes; the schedule reads it cyclically. *)
Definition blowfish_key (password : string) : string :=
  let key := firstn 72%nat (list_ascii_of_string password ++ [Ascii.zero]) in
  string_of_list_ascii (cyclic 72%nat key key).

(** The digest of a password under a salt, kept as the pair it was computed
    from. *)
Record pwhash := Bcrypt { bcrypt_salt : string; bcrypt_key : string }.

(** [bcrypt.hashpw]: a password of more than 72 bytes is refused (releases
    before 5.0 cut it at 72 bytes instead). *)
Definition hashpw (salt password : string) : exn + pwhash :=
  if (72 <? String.length password)%nat then inl ValueError
  else inr (Bcrypt salt (blowfish_key password)).

(** [bcrypt.generate_password_hash(password)], under a fresh salt. *)
Definition generate_password_hash (salt password : string) : exn + pwhash :=
  hashpw salt password.

(** [bcrypt.check_password_hash(pw_hash, password)]: the candidate is hashed
    under the salt of the digest and the two digests are compared. *)
Definition check_password_hash (h : pwhash) (password : string) : exn + bool :=
  match hashpw (bcrypt_salt h) password with
  | inl e => inl e
  | inr candidate =>
      inr (String.eqb (bcrypt_key candidate) (bcrypt_key h))
  end.

(** The claims of a token.  [login] always sets both; a token from elsewhere
    may lack either. *)
Record claims := { claim_user_id : option Z; claim_exp : option Z }.

(** The value of the [x-access-token] header: either a string that is not a
    well-formed JWS, or the HS256 signature of some claims under some key. *)
Inductive token :=
| Raw (s : string)
| HS256 (key : string) (payload : claims).

Definition microsecond : Z := 1000000.

(** [timegm(dt.utctimetuple())]: whole seconds of a datetime. *)
Definition timegm (dt : Z) : Z := dt / microsecond.

Definition timedelta_hours (h : Z) : Z := h * 3600 * microsecond.

(** [jwt.encode(payload, key, algorithm="HS256")]; a datetime [exp] is
    stored as whole seconds. *)
Definition jwt_encode (user_id : Z) (exp : Z) (key : string) : token :=
  HS256 key {| claim_user_id := Some user_id; claim_exp := Some (timegm exp) |}.

(** [jwt.decode(token, key, algorithms=["HS256"])] at clock reading [now]:
    the claims, or the exception PyJWT raises.  A token is expired when
    [exp <= now]. *)
Definition jwt_decode (t : token) (key : string) (now : Z) : exn + claims :=
  match t with
  | Raw _ => inl DecodeError
  | HS256 k payload =>
      if negb (String.eqb k key) then inl InvalidSignatureError
      else match claim_exp payload with
           | Some exp => if exp <=? timegm now then inl ExpiredSignatureError
                         else inr payload
           | None => inr payload
           end
  end.

(** ** JSON *)

(** [JDateTime t] stands for the ISO-8601 string of the datetime [t], and
    [JToken t] for the compact serialization of the token [t]. *)
Inductive json :=
| JNull
| JBool (b : bool)
| JNum (n : number)
| JStr (s : string)
| JDateTime (t : Z)
| JToken (t : token)
| JList (l : list json)
| JObj (fields : list (string * json)).

Fixpoint assoc (k : string) (fields : list (string * json)) : option json :=
  match fields with
  | [] => None
  | (k', v) :: rest => if String.eqb k k' then Some v else assoc k rest
  end.

(** [d[k]] on a response object. *)
Definition json_get (k : string) (j : json) : option json :=
  match j with
  | JObj fields => assoc k fields
  | _ => None
  end.

(** What a view function produces: a JSON response with its status code, or
    an exception nobody catches, which Flask answers with status 500. *)
Inductive result :=
| Response (status : Z) (body : json)
| Unhandled (e : exn).

Definition status_code (r : result) : Z :=
  match r with
  | Response status _ => status
  | Unhandled _ => 500
  end.

Definition jsonify (body : json) : result := Response 200 body.

(** ** Database models *)

Module User.

Record t := mk {
  id : Z;
  username : string;
  password_hash : pwhash
}.

(** [User.__init__]; the primary key is assigned at insert. *)
Definition init (new_id : Z) (salt : string) (username password : string)
  : exn + t :=
  match generate_password_hash salt password with
  | inl e => inl e
  | inr digest =>
      inr {| id := new_id; username := username; password_hash := digest |}
  end.

Definition check_password (self : t) (password : string) : exn + bool :=
  check_password_hash (password_hash self) password.

End User.

Module Workout.

Record t := mk {
  id : Z;
  user_id : Z;
  exercise_name : string;
  muscle_group : string;
  is_cardio : bool;
  sets : Z;
  reps : Z;
  weight_kg : float;
  created_at : Z
}.

(** The [total_volume] property. *)
Definition total_volume (self : t) : number :=
  if is_cardio self then PyInt 0
  else py_mul (py_mul (PyInt (sets self)) (PyInt (reps self)))
              (PyFloat (weight_kg self)).

Definition to_dict (self : t) : json :=
  JObj [ ("id", JNum (PyInt (id self)));
         ("exercise_name", JStr (exercise_name self));
         ("muscle_group", JStr (muscle_group self));
         ("is_cardio", JBool (is_cardio self));
         ("sets", JNum (PyInt (sets self)));
         ("reps", JNum (PyInt (reps self)));
         ("weight_kg", JNum (PyFloat (weight_kg self)));
         ("total_volume", JNum (total_volume self));
         ("created_at", JDateTime (created_at self)) ].

End Workout.

(** ** The store *)

Record db := mkdb {
  users : list User.t;
  workouts : list Workout.t
}.

Definition empty_db : db := {| users := []; workouts := [] |}.

(** SQLite's rowid for a new row: one more than the largest in the table. *)
Definition next_id (ids : list Z) : Z := 1 + fold_right Z.max 0 ids.

(** [User.query.get(ident)]. *)
Definition user_get (s : db) (ident : Z) : option User.t :=
  find (fun u => User.id u =? ident) (users s).

(** [User.query.filter_by(username=name).first()]. *)
Definition user_by_username (s : db) (name : string) : option User.t :=
  find (fun u => String.eqb (User.username u) name) (users s).

(** [Workout.query.filter_by(id=workout_id, user_id=uid).first()]. *)
Definition workout_owned (s : db) (workout_id uid : Z) : option Workout.t :=
  find (fun w => (Workout.id w =? workout_id) && (Workout.user_id w =? uid))
       (workouts s).

(** [UPDATE workouts SET ... WHERE id = ?]. *)
Definition store_workout (w' : Workout.t) (rows : list Workout.t) : list Workout.t :=
  map (fun w => if Workout.id w =? Workout.id w' then w' else w) rows.

(** [DELETE FROM workouts WHERE id = ?]. *)
Definition delete_row (workout_id : Z) (rows : list Workout.t) : list Workout.t :=
  filter (fun w => negb (Workout.id w =? workout_id)) rows.

(** ** What the store can hold *)

Definition sqlite_max : Z := 2 ^ 63 - 1.

(** An integer that sqlite3 can bind: 64 bits, signed. *)
Definition fits (n : Z) : bool := (- 2 ^ 63 <=? n) && (n <=? sqlite_max).

(** A REAL column keeps a float without fraction as an integer: -0.0 comes
    back as 0.0, every other value as it went in. *)
Definition real_column (x : float) : float :=
  if PrimFloat.is_zero x then 0%float else x.

(** ** Ordering and pagination *)

(** [ORDER BY created_at DESC], as a stable insertion sort: rows with the
    same timestamp stay in table order. *)
Fixpoint insert_desc (w : Workout.t) (sorted : list Workout.t) : list Workout.t :=
  match sorted with
  | [] => [w]
  | x :: rest =>
      if Workout.created_at x <=? Workout.created_at w then w :: x :: rest
      else x :: insert_desc w rest
  end.

Definition order_by_created_at_desc (rows : list Workout.t) : list Workout.t :=
  fold_right insert_desc [] rows.

Module Pagination.

Record t := mk {
  items : list Workout.t;
  page : Z;
  per_page : Z;
  total : Z
}.

Definition pages (p : t) : Z :=
  if total p =? 0 then 0
  else (total p + per_page p - 1) / per_page p.

Definition has_next (p : t) : bool := page p <? pages p.

Definition has_prev (p : t) : bool := 1 <? page p.

End Pagination.

(** [query.paginate(page=page, per_page=per_page, error_out=False)].  The
    items are fetched with [LIMIT per_page OFFSET (page - 1) * per_page];
    binding either raises when it does not fit 64 bits. *)
Definition paginate (query : list Workout.t) (page per_page : Z)
  : exn + Pagination.t :=
  let page := if page <? 1 then 1 else page in
  let per_page := if per_page <? 1 then 20 else per_page in
  let offset := (page - 1) * per_page in
  if negb (fits per_page && fits offset) then inl OverflowError
  else
    inr {| Pagination.items :=
             firstn (Z.to_nat per_page) (skipn (Z.to_nat offset) query);
           Pagination.page := page;
           Pagination.per_page := per_page;
           Pagination.total := Z.of_nat (List.length query) |}.

(** ** Requests *)

Definition SECRET_KEY : string := "your-super-secret-key-for-jwt".

(** [d.get(k)] read for its truth value: a missing key and an empty string
    are both falsy. *)
Definition nonempty (v : option string) : option string :=
  match v with
  | Some "" => None
  | _ => v
  end.

(** [d.get(k, default)]. *)
Definition get {A : Type} (v : option A) (default : A) : A :=
  match v with
  | Some x => x
  | None => default
  end.

(** The JSON body of [/register] and [/login]. *)
Record credentials := {
  cred_username : option string;
  cred_password : option string
}.

(** The JSON body of [POST] and [PUT] on workouts: each key is present with
    a value of the column's type, or absent. *)
Record workout_fields := {
  f_exercise_name : option string;
  f_muscle_group : option string;
  f_is_cardio : option bool;
  f_sets : option Z;
  f_reps : option Z;
  f_weight_kg : option float
}.

(** The query string of [GET /api/workouts]; [None] is a parameter that is
    absent (or, for the two integers, one that [type=int] cannot read). *)
Record list_args := {
  arg_page : option Z;
  arg_per_page : option Z;
  arg_muscle_group : option string
}.

Definition message (m : string) : json := JObj [("message", JStr m)].

Definition no_attribute_id : exn :=
  AttributeError "'NoneType' object has no attribute 'id'".

(** [db.session.commit()] after the columns named in [data] were assigned
    from [data], and the reload that the next attribute access makes: the
    row as the table holds it, or the exception of the flush.  Binding an
    integer outside 64 bits raises; a NaN is stored as NULL, which the
    NOT NULL column refuses; the weight is read back as the REAL column
    holds it. *)
Definition flush (data : workout_fields) (row : Workout.t) : exn + Workout.t :=
  if negb (fits (get (f_sets data) 0) && fits (get (f_reps data) 0))
  then inl OverflowError
  else
    match f_weight_kg data with
    | Some x =>
        if PrimFloat.is_nan x then inl IntegrityError
        else
          inr {| Workout.id := Workout.id row;
                 Workout.user_id := Workout.user_id row;
                 Workout.exercise_name := Workout.exercise_name row;
                 Workout.muscle_group := Workout.muscle_group row;
                 Workout.is_cardio := Workout.is_cardio row;
                 Workout.sets := Workout.sets row;
                 Workout.reps := Workout.reps row;
                 Workout.weight_kg := real_column x;
                 Workout.created_at := Workout.created_at row |}
    | None => inr row
    end.

(** ** Token guard *)

(** The header value when it is present and truthy. *)
Definition token_given (header : option token) : option token :=
  match header with
  | Some (Raw "") => None
  | _ => header
  end.

Definition token_invalid (e : exn) : result :=
  Response 401 (JObj [("message", JStr "Token is invalid!");
                      ("error", JStr (exn_str e))]).

(** The [token_required] decorator around a view [f].  Only the decoding
    and the user lookup sit inside the [try]; [f] runs outside it, with
    whatever [User.query.get] returned. *)
Definition token_required (f : option User.t -> db -> db * result)
    (header : option token) (now : Z) (s : db) : db * result :=
  match token_given header with
  | None => (s, Response 401 (message "Token is missing!"))
  | Some token =>
      match jwt_decode token SECRET_KEY now with
      | inl e => (s, token_invalid e)
      | inr data =>
          match claim_user_id data with
          | None => (s, token_invalid (KeyError "user_id"))
          | Some ident => f (user_get s ident) s
          end
      end
  end.

(** ** Authentication routes *)

Definition register (data : option credentials) (salt : string) (s : db)
  : db * result :=
  match data with
  | None => (s, Response 400 (message "Username and password are required"))
  | Some data =>
      match nonempty (cred_username data), nonempty (cred_password data) with
      | Some username, Some password =>
          match user_by_username s username with
          | Some _ => (s, Response 409 (message "Username already exists"))
          | None =>
              match User.init (next_id (map User.id (users s)))
                              salt username password with
              | inl e => (s, Unhandled e)
              | inr new_user =>
                  ({| users := users s ++ [new_user]; workouts := workouts s |},
                   Response 201 (message "New user created!"))
              end
          end
      | _, _ => (s, Response 400 (message "Username and password are required"))
      end
  end.

Definition login (auth : option credentials) (now : Z) (s : db) : db * result :=
  match auth with
  | None => (s, Response 401 (message "Could not verify"))
  | Some auth =>
      match nonempty (cred_username auth), nonempty (cred_password auth) with
      | Some username, Some password =>
          match user_by_username s username with
          | None => (s, Response 401 (message "User not found"))
          | Some user =>
              match User.check_password user password with
              | inl e => (s, Unhandled e)
              | inr true =>
                  let token :=
                    jwt_encode (User.id user) (now + timedelta_hours 24) SECRET_KEY in
                  (s, jsonify (JObj [("token", JToken token)]))
              | inr false => (s, Response 401 (message "Wrong password"))
              end
          end
      | _, _ => (s, Response 401 (message "Could not verify"))
      end
  end.

(** ** Workout routes (the views under the decorator) *)

Definition create_workout (current_user : option User.t) (data : workout_fields)
    (now : Z) (s : db) : db * result :=
  match f_exercise_name data, f_muscle_group data, f_sets data,
        f_reps data, f_weight_kg data, f_is_cardio data with
  | Some exercise_name, Some muscle_group, Some sets,
    Some reps, Some weight_kg, Some is_cardio =>
      match current_user with
      | None => (s, Unhandled no_attribute_id)
      | Some user =>
          let new_workout :=
            {| Workout.id := next_id (map Workout.id (workouts s));
               Workout.user_id := User.id user;
               Workout.exercise_name := exercise_name;
               Workout.muscle_group := muscle_group;
               Workout.is_cardio := is_cardio;
               Workout.sets := sets;
               Workout.reps := reps;
               Workout.weight_kg := weight_kg;
               Workout.created_at := now |} in
          match flush data new_workout with
          | inl e => (s, Unhandled e)
          | inr new_workout =>
              ({| users := users s; workouts := workouts s ++ [new_workout] |},
               Response 201 (Workout.to_dict new_workout))
          end
      end
  | _, _, _, _, _, _ => (s, Response 400 (message "Missing required fields"))
  end.

(** The rows [get_workouts] pages over: the caller's, those of the muscle
    group when the filter is truthy, most recent first. *)
Definition workouts_query (uid : Z) (muscle_group_filter : option string) (s : db)
  : list Workout.t :=
  let query := filter (fun w => Workout.user_id w =? uid) (workouts s) in
  let query :=
    match nonempty muscle_group_filter with
    | Some g => filter (fun w => String.eqb (Workout.muscle_group w) g) query
    | None => query
    end in
  order_by_created_at_desc query.

Definition get_workouts (current_user : option User.t) (args : list_args) (s : db)
  : db * result :=
  let page := get (arg_page args) 1 in
  let per_page := get (arg_per_page args) 5 in
  let muscle_group_filter := arg_muscle_group args in
  match current_user with
  | None => (s, Unhandled no_attribute_id)
  | Some user =>
      let query := workouts_query (User.id user) muscle_group_filter s in
      match paginate query page per_page with
      | inl e => (s, Unhandled e)
      | inr paginated_workouts =>
          let workouts_list :=
            map Workout.to_dict (Pagination.items paginated_workouts) in
          (s, jsonify (JObj [
             ("workouts", JList workouts_list);
             ("total_pages", JNum (PyInt (Pagination.pages paginated_workouts)));
             ("current_page", JNum (PyInt (Pagination.page paginated_workouts)));
             ("has_next", JBool (Pagination.has_next paginated_workouts));
             ("has_prev", JBool (Pagination.has_prev paginated_workouts)) ]))
      end
  end.

Definition not_found : result :=
  Response 404 (message "Workout not found or unauthorized").

(** The six assignments of [update_workout]. *)
Definition apply_fields (data : workout_fields) (workout : Workout.t) : Workout.t :=
  {| Workout.id := Workout.id workout;
     Workout.user_id := Workout.user_id workout;
     Workout.exercise_name := get (f_exercise_name data) (Workout.exercise_name workout);
     Workout.muscle_group := get (f_muscle_group data) (Workout.muscle_group workout);
     Workout.is_cardio := get (f_is_cardio data) (Workout.is_cardio workout);
     Workout.sets := get (f_sets data) (Workout.sets workout);
     Workout.reps := get (f_reps data) (Workout.reps workout);
     Workout.weight_kg := get (f_weight_kg data) (Workout.weight_kg workout);
     Workout.created_at := Workout.created_at workout |}.

Definition update_workout (current_user : option User.t) (workout_id : Z)
    (data : workout_fields) (s : db) : db * result :=
  match current_user with
  | None => (s, Unhandled no_attribute_id)
  | Some user =>
      match workout_owned s workout_id (User.id user) with
      | None => (s, not_found)
      | Some workout =>
          let workout := apply_fields data workout in
          match flush data workout with
          | inl e => (s, Unhandled e)
          | inr workout =>
              ({| users := users s;
                  workouts := store_workout workout (workouts s) |},
               jsonify (Workout.to_dict workout))
          end
      end
  end.

Definition delete_workout (current_user : option User.t) (workout_id : Z) (s : db)
  : db * result :=
  match current_user with
  | None => (s, Unhandled no_attribute_id)
  | Some user =>
      match workout_owned s workout_id (User.id user) with
      | None => (s, not_found)
      | Some workout =>
          ({| users := users s;
              workouts := delete_row (Workout.id workout) (workouts s) |},
           jsonify (message "Workout deleted successfully"))
      end
  end.

(** ** The application *)

(** The requests that reach a view with a JSON body.  On the two
    authentication routes [None] is the body [null]; on the workout routes
    the body is an object.  A request without a JSON body is answered by
    Flask before the view runs, and a [null] body on a workout route makes
    the view raise before anything is written: neither changes the store,
    and neither is among the constructors. *)
Inductive request :=
| PostRegister (data : option credentials) (salt : string)
| PostLogin (auth : option credentials)
| PostWorkout (header : option token) (data : workout_fields)
| GetWorkouts (header : option token) (args : list_args)
| PutWorkout (header : option token) (workout_id : Z) (data : workout_fields)
| DeleteWorkout (header : option token) (workout_id : Z).

(** One request served at clock reading [now]. *)
Definition serve (r : request) (now : Z) (s : db) : db * result :=
  match r with
  | PostRegister data salt => register data salt s
  | PostLogin auth => login auth now s
  | PostWorkout header data =>
      token_required (fun u => create_workout u data now) header now s
  | GetWorkouts header args =>
      token_required (fun u => get_workouts u args) header now s
  | PutWorkout header workout_id data =>
      token_required (fun u => update_workout u workout_id data) header now s
  | DeleteWorkout header workout_id =>
      token_required (fun u => delete_workout u workout_id) header now s
  end.

(** The databases the application can build from an empty one. *)
Inductive reachable : db -> Prop :=
| reachable_empty : reachable empty_db
| reachable_serve r now s : reachable s -> reachable (fst (serve r now s)).

(** The databases built by requests served at strictly increasing clock
    readings; the index is the reading of the last request. *)
Inductive served_until : Z -> db -> Prop :=
| served_nothing t : served_until t empty_db
| served_next r now t s :
    served_until t s -> t < now -> served_until now (fst (serve r now s)).

(** ** Integrity constraints *)

(** Primary keys are unique and positive, usernames are unique, and every
    workout references a stored user. *)
Record db_ok (s : db) : Prop := {
  user_ids_unique : NoDup (map User.id (users s));
  usernames_unique : NoDup (map User.username (users s));
  workout_ids_unique : NoDup (map Workout.id (workouts s));
  owners_exist :
    forall w, In w (workouts s) -> In (Workout.user_id w) (map User.id (users s))
}.

(** The range the data model gives for the three numeric columns. *)
Definition nonneg_row (w : Workout.t) : Prop :=
  0 <= Workout.sets w /\ 0 <= Workout.reps w /\
  PrimFloat.leb 0 (Workout.weight_kg w) = true.

Definition nonneg_fields (data : workout_fields) : Prop :=
  (forall n, f_sets data = Some n -> 0 <= n) /\
  (forall n, f_reps data = Some n -> 0 <= n) /\
  (forall x, f_weight_kg data = Some x -> PrimFloat.leb 0 x = true).

Definition nonneg_db (s : db) : Prop := Forall nonneg_row (workouts s).

(** ** Vocabulary of the statements *)

(** The views receive either nobody or a stored user. *)
Definition known (s : db) (current_user : option User.t) : Prop :=
  forall u, current_user = Some u -> In u (users s).

(** A body key that is present overwrites the stored value; one that is
    absent leaves it. *)
Definition overwrites {A : Type} (field : option A) (old new : A) : Prop :=
  match field with
  | Some v => new = v
  | None => new = old
  end.

(** The body [{"weight_kg": x}]. *)
Definition only_weight_kg (x : float) : workout_fields :=
  {| f_exercise_name := None; f_muscle_group := None; f_is_cardio := None;
     f_sets := None; f_reps := None; f_weight_kg := Some x |}.

(** The pagination envelope of [get_workouts]. *)
Definition list_response (items : list Workout.t) (total_pages current_page : Z)
    (has_next has_prev : bool) : result :=
  Response 200 (JObj [
    ("workouts", JList (map Workout.to_dict items));
    ("total_pages", JNum (PyInt total_pages));
    ("current_page", JNum (PyInt current_page));
    ("has_next", JBool has_next);
    ("has_prev", JBool has_prev) ]).

(** Most recent first. *)
Definition desc (a b : Workout.t) : Prop :=
  Workout.created_at b <= Workout.created_at a.

Definition owned_by (uid : Z) (w : Workout.t) : bool := Workout.user_id w =? uid.

(** A password without a NUL byte. *)
Definition nul_free (password : string) : Prop :=
  ~ In Ascii.zero (list_ascii_of_string password).

(** The signed 64-bit range. *)
Definition int64 (n : Z) : Prop := - 2 ^ 63 <= n <= 2 ^ 63 - 1.

(** A body whose values the store can hold: sets and reps, when given, are
    64-bit integers, and the weight, when given, is not a NaN. *)
Definition storable (data : workout_fields) : Prop :=
  (forall n, f_sets data = Some n -> int64 n) /\
  (forall n, f_reps data = Some n -> int64 n) /\
  (forall x, f_weight_kg data = Some x -> PrimFloat.is_nan x = false).

(** The weight a row holds after an update with body [data]. *)
Definition stored_weight (data : workout_fields) (old : float) : float :=
  match f_weight_kg data with
  | Some x => real_column x
  | None => old
  end.

(** The row an update with a storable body [data] leaves of [w]: the body's
    values where it gives one, the weight as the REAL column holds it. *)
Definition updated (data : workout_fields) (w : Workout.t) : Workout.t :=
  Workout.mk (Workout.id w) (Workout.user_id w)
    (get (f_exercise_name data) (Workout.exercise_name w))
    (get (f_muscle_group data) (Workout.muscle_group w))
    (get (f_is_cardio data) (Workout.is_cardio w))
    (get (f_sets data) (Workout.sets w))
    (get (f_reps data) (Workout.reps w))
    (stored_weight data (Workout.weight_kg w))
    (Workout.created_at w).

(** The rational number a finite float stands for. *)
Definition float_value (x : float) : option Q :=
  match Prim2SF x with
  | S754_zero _ => Some 0%Q
  | S754_finite s m e =>
      Some (inject_Z (if s then Z.neg m else Z.pos m) * Qpower 2 e)%Q
  | _ => None
  end.

(** [v] is the product of the integer [n] and the float [w], as numbers. *)
Definition exact_product (v : number) (n : Z) (w : float) : Prop :=
  match v, float_value w with
  | PyFloat x, Some b =>
      match float_value x with
      | Some a => (a == inject_Z n * b)%Q
      | None => False
      end
  | PyInt k, Some b => (inject_Z k == inject_Z n * b)%Q
  | _, None => False
  end.

(** The page and the page size [paginate] works with. *)
Definition page_asked (page : option Z) : Z :=
  if get page 1 <? 1 then 1 else get page 1.

Definition size_asked (per_page : option Z) : Z :=
  if get per_page 5 <? 1 then 20 else get per_page 5.

(** [LIMIT] and [OFFSET] of the page fit 64 bits. *)
Definition bindable (page per_page : option Z) : Prop :=
  size_asked per_page <= sqlite_max /\
  (page_asked page - 1) * size_asked per_page <= sqlite_max.

(** The rows of page [page] with [size] rows a page. *)
Definition slice (page size : Z) (listing : list Workout.t) : list Workout.t :=
  firstn (Z.to_nat size) (skipn (Z.to_nat ((page - 1) * size)) listing).

(** The page [paginate] builds once both values are bound. *)
Definition page_built (query : list Workout.t) (page size : Z) : Pagination.t :=
  {| Pagination.items := slice page size query;
     Pagination.page := page;
     Pagination.per_page := size;
     Pagination.total := Z.of_nat (List.length query) |}.

(** ** A sample run *)

Definition body_of (username password : string) : option credentials :=
  Some {| cred_username := Some username; cred_password := Some password |}.

Definition entry (exercise_name muscle_group : string) (is_cardio : bool)
    (sets reps : Z) (weight_kg : float) : workout_fields :=
  {| f_exercise_name := Some exercise_name; f_muscle_group := Some muscle_group;
     f_is_cardio := Some is_cardio; f_sets := Some sets; f_reps := Some reps;
     f_weight_kg := Some weight_kg |}.

(** The token [login] hands to user [ident] at clock reading 0. *)
Definition token_of (ident : Z) : token :=
  jwt_encode ident (0 + timedelta_hours 24) SECRET_KEY.

Definition run (requests : list (request * Z)) (s : db) : db :=
  fold_left (fun s r => fst (serve (fst r) (snd r) s)) requests s.

Definition alice : User.t :=
  User.mk 1 "alice" (Bcrypt "salt-a" (blowfish_key "correct horse")).
Definition bob : User.t :=
  User.mk 2 "bob" (Bcrypt "salt-b" (blowfish_key "hunter2")).

(** Two users; alice logs a bench press, bob a treadmill session. *)
Definition gym : db :=
  run [ (PostRegister (body_of "alice" "correct horse") "salt-a", 10);
        (PostRegister (body_of "bob" "hunter2") "salt-b", 20);
        (PostWorkout (Some (token_of 1)) (entry "Bench Press" "Chest" false 3 10 40), 1000);
        (PostWorkout (Some (token_of 2)) (entry "Treadmill" "Cardio" true 3 10 0), 2000) ]
      empty_db.

Definition bench : Workout.t :=
  {| Workout.id := 1; Workout.user_id := 1;
     Workout.exercise_name := "Bench Press"; Workout.muscle_group := "Chest";
     Workout.is_cardio := false; Workout.sets := 3; Workout.reps := 10;
     Workout.weight_kg := 40; Workout.created_at := 1000 |}.

Definition treadmill : Workout.t :=
  {| Workout.id := 2; Workout.user_id := 2;
     Workout.exercise_name := "Treadmill"; Workout.muscle_group := "Cardio";
     Workout.is_cardio := true; Workout.sets := 3; Workout.reps := 10;
     Workout.weight_kg := 0; Workout.created_at := 2000 |}.

(** The double nearest to 0.1. *)
Definition tenth : float := 0x1.999999999999ap-4%float.

(** A password of 73 bytes. *)
Definition long_password : string :=
  "0123456789012345678901234567890123456789012345678901234567890123456789012".

(** Alice alone, with [n] squat sessions logged one second apart. *)
Definition squats (n : nat) : list (request * Z) :=
  map (fun k => (PostWorkout (Some (token_of 1))
                   (entry "Squat" "Legs" false 5 5 (float_of_int (Z.of_nat k))),
                 Z.of_nat k * microsecond))
      (seq 1 n).

Definition squat_log (n : nat) : db :=
  run ((PostRegister (body_of "alice" "correct horse") "salt-a", 10) :: squats n)
      empty_db.

(** ** The remaining route and the caller of a request *)

(** [GET /]: the health check; it reads neither the headers nor the store. *)
Definition index : result :=
  jsonify (JObj [("status", JStr "ok");
                 ("message", JStr "Workout Log API is running!")]).

(** The user id the guard looks up for a header at clock reading [now]: the
    [user_id] claim of a token that is present and decodes. *)
Definition authenticated (header : option token) (now : Z) : option Z :=
  match token_given header with
  | None => None
  | Some t =>
      match jwt_decode t SECRET_KEY now with
      | inl _ => None
      | inr data => claim_user_id data
      end
  end.

(** The header of a request to a guarded route. *)
Definition guarded (r : request) : option (option token) :=
  match r with
  | PostRegister _ _ | PostLogin _ => None
  | PostWorkout header _ | GetWorkouts header _
  | PutWorkout header _ _ | DeleteWorkout header _ => Some header
  end.

(** The user id a request acts for, if any. *)
Definition caller (r : request) (now : Z) : option Z :=
  match guarded r with
  | Some header => authenticated header now
  | None => None
  end.

(** A request to [POST /api/workouts], the one route that adds a workout. *)
Definition creates (r : request) : bool :=
  match r with
  | PostWorkout _ _ => true
  | _ => false
  end.

(** The body [{}]. *)
Definition empty_body : workout_fields :=
  {| f_exercise_name := None; f_muscle_group := None; f_is_cardio := None;
     f_sets := None; f_reps := None; f_weight_kg := None |}.

(** The answer of [login] that carries token [t]. *)
Definition token_response (t : token) : result :=
  Response 200 (JObj [("token", JToken t)]).

(** Table order: a later row has the larger id and the later creation time. *)
Definition older (a b : Workout.t) : Prop :=
  Workout.id a < Workout.id b /\ Workout.created_at a < Workout.created_at b.

(** * Properties *)

(** ** Lists and keys *)

Section Keys.

Context {A K : Type} (key : A -> K).

Lemma key_injective (rows : list A) (a b : A) :
  NoDup (map key rows) -> In a rows -> In b rows -> key a = key b -> a = b.
Proof.
  induction rows as [|r rows IH]; simpl; [tauto|].
  intros Hnd Ha Hb Hk. inversion Hnd as [|? ? Hnotin Hnd']; subst.
  destruct Ha as [->|Ha], Hb as [->|Hb]; auto.
  - exfalso. apply Hnotin. rewrite Hk. now apply in_map.
  - exfalso. apply Hnotin. rewrite <- Hk. now apply in_map.
Qed.

Lemma NoDup_keys_snoc (rows : list A) (a : A) :
  NoDup (map key rows) -> ~ In (key a) (map key rows) ->
  NoDup (map key (rows ++ [a])).
Proof.
  induction rows as [|r rows IH]; simpl; intros Hnd Hfresh.
  - constructor; [tauto | constructor].
  - inversion Hnd as [|? ? Hnotin Hnd']; subst. constructor.
    + rewrite map_app, in_app_iff. simpl. intros [Hin|[Heq|[]]]; [tauto|].
      apply Hfresh. now left.
    + apply IH; tauto.
Qed.

Lemma NoDup_keys_filter (p : A -> bool) (rows : list A) :
  NoDup (map key rows) -> NoDup (map key (filter p rows)).
Proof.
  induction rows as [|r rows IH]; simpl; intros Hnd; [constructor|].
  inversion Hnd as [|? ? Hnotin Hnd']; subst.
  destruct (p r); simpl; auto. constructor; auto.
  rewrite in_map_iff in *. intros (x & Hx & Hin).
  apply filter_In in Hin. apply Hnotin. exists x. tauto.
Qed.

End Keys.

Lemma max_id_bound (ids : list Z) (x : Z) :
  In x ids -> x <= fold_right Z.max 0 ids.
Proof.
  induction ids as [|i ids IH]; simpl; [tauto|].
  intros [->|Hin]; [lia|]. specialize (IH Hin). lia.
Qed.

Lemma next_id_fresh (ids : list Z) : ~ In (next_id ids) ids.
Proof.
  intros Hin. apply max_id_bound in Hin. unfold next_id in Hin. lia.
Qed.

(** ** Queries *)

Lemma user_get_In (s : db) (ident : Z) (u : User.t) :
  user_get s ident = Some u -> In u (users s) /\ User.id u = ident.
Proof.
  unfold user_get. intros H. apply find_some in H. now rewrite Z.eqb_eq in H.
Qed.

Lemma user_get_stored (s : db) (u : User.t) :
  NoDup (map User.id (users s)) -> In u (users s) ->
  user_get s (User.id u) = Some u.
Proof.
  intros Hnd Hin. unfold user_get.
  destruct (find _ (users s)) as [u'|] eqn:Hf.
  - apply find_some in Hf. destruct Hf as [Hin' Heq]. rewrite Z.eqb_eq in Heq.
    f_equal. now apply (key_injective User.id (users s)).
  - apply (find_none _ _ Hf) in Hin. now rewrite Z.eqb_refl in Hin.
Qed.

Lemma user_by_username_none (s : db) (name : string) :
  user_by_username s name = None -> ~ In name (map User.username (users s)).
Proof.
  unfold user_by_username. intros Hf Hin. apply in_map_iff in Hin.
  destruct Hin as (u & Hname & Hin). apply (find_none _ _ Hf) in Hin.
  rewrite Hname, String.eqb_refl in Hin. discriminate.
Qed.

Lemma user_by_username_some (s : db) (name : string) (u : User.t) :
  user_by_username s name = Some u -> In u (users s) /\ User.username u = name.
Proof.
  unfold user_by_username. intros H. apply find_some in H.
  now rewrite String.eqb_eq in H.
Qed.

Lemma workout_owned_some (s : db) (workout_id uid : Z) (w : Workout.t) :
  workout_owned s workout_id uid = Some w ->
  In w (workouts s) /\ Workout.id w = workout_id /\ Workout.user_id w = uid.
Proof.
  unfold workout_owned. intros H. apply find_some in H.
  rewrite andb_true_iff, !Z.eqb_eq in H. tauto.
Qed.

Lemma workout_owned_stored (s : db) (w : Workout.t) :
  NoDup (map Workout.id (workouts s)) -> In w (workouts s) ->
  workout_owned s (Workout.id w) (Workout.user_id w) = Some w.
Proof.
  intros Hnd Hin. unfold workout_owned.
  destruct (find _ (workouts s)) as [w'|] eqn:Hf.
  - apply find_some in Hf. destruct Hf as [Hin' Heq].
    rewrite andb_true_iff, !Z.eqb_eq in Heq. f_equal.
    apply (key_injective Workout.id (workouts s)); tauto.
  - apply (find_none _ _ Hf) in Hin. now rewrite !Z.eqb_refl in Hin.
Qed.


Lemma workout_owned_missing (s : db) (workout_id uid : Z) :
  ~ In workout_id (map Workout.id (workouts s)) ->
  workout_owned s workout_id uid = None.
Proof.
  intros Hnotin.
  destruct (workout_owned s workout_id uid) as [w'|] eqn:Hf; [|reflexivity].
  apply workout_owned_some in Hf. destruct Hf as (Hin' & Hid & _).
  exfalso. apply Hnotin. rewrite <- Hid. now apply in_map.
Qed.

(** ** Row updates *)

Lemma store_workout_ids (w' : Workout.t) (rows : list Workout.t) :
  map Workout.id (store_workout w' rows) = map Workout.id rows.
Proof.
  unfold store_workout. rewrite map_map. apply map_ext_in. intros w _.
  destruct (Workout.id w =? Workout.id w') eqn:E; [|reflexivity].
  symmetry. now apply Z.eqb_eq.
Qed.

Lemma store_workout_In (w' w : Workout.t) (rows : list Workout.t) :
  In w (store_workout w' rows) -> w = w' \/ In w rows.
Proof.
  unfold store_workout. rewrite in_map_iff. intros (x & Hx & Hin).
  destruct (Workout.id x =? Workout.id w'); subst; auto.
Qed.

(** With unique keys, storing a row rewrites that row and no other. *)
Lemma store_workout_split (w w' : Workout.t) (before after : list Workout.t) :
  Workout.id w' = Workout.id w ->
  NoDup (map Workout.id (before ++ w :: after)) ->
  store_workout w' (before ++ w :: after) = before ++ w' :: after.
Proof.
  intros Hid Hnd. unfold store_workout. rewrite map_app. simpl.
  rewrite Hid, Z.eqb_refl.
  rewrite map_app in Hnd. simpl in Hnd. apply NoDup_remove_2 in Hnd.
  rewrite in_app_iff in Hnd. f_equal; [|f_equal].
  - rewrite <- (map_id before) at 2. apply map_ext_in. intros x Hx.
    destruct (Workout.id x =? Workout.id w) eqn:E; [|reflexivity].
    exfalso. apply Hnd. left. apply Z.eqb_eq in E. rewrite <- E. now apply in_map.
  - rewrite <- (map_id after) at 2. apply map_ext_in. intros x Hx.
    destruct (Workout.id x =? Workout.id w) eqn:E; [|reflexivity].
    exfalso. apply Hnd. right. apply Z.eqb_eq in E. rewrite <- E. now apply in_map.
Qed.

(** With unique keys, deleting by id removes that row and no other. *)
Lemma delete_row_split (w : Workout.t) (before after : list Workout.t) :
  NoDup (map Workout.id (before ++ w :: after)) ->
  delete_row (Workout.id w) (before ++ w :: after) = before ++ after.
Proof.
  intros Hnd. unfold delete_row. rewrite filter_app. simpl.
  rewrite Z.eqb_refl. simpl.
  rewrite map_app in Hnd. simpl in Hnd. apply NoDup_remove_2 in Hnd.
  rewrite in_app_iff in Hnd. f_equal.
  - apply forallb_filter_id. apply forallb_forall. intros x Hx.
    destruct (Workout.id x =? Workout.id w) eqn:E; [|reflexivity].
    exfalso. apply Hnd. left. apply Z.eqb_eq in E. rewrite <- E. now apply in_map.
  - apply forallb_filter_id. apply forallb_forall. intros x Hx.
    destruct (Workout.id x =? Workout.id w) eqn:E; [|reflexivity].
    exfalso. apply Hnd. right. apply Z.eqb_eq in E. rewrite <- E. now apply in_map.
Qed.

(** ** What the writing routes do to the store *)

Lemma hashpw_ok (salt password : string) (h : pwhash) :
  hashpw salt password = inr h ->
  h = Bcrypt salt (blowfish_key password) /\
  (String.length password <= 72)%nat.
Proof.
  unfold hashpw. destruct (72 <? String.length password)%nat eqn:E;
    [discriminate|].
  intros H. injection H as <-. apply Nat.ltb_ge in E. now split.
Qed.

Lemma hashpw_short (salt password : string) :
  (String.length password <= 72)%nat ->
  hashpw salt password = inr (Bcrypt salt (blowfish_key password)).
Proof.
  intros Hlen. unfold hashpw. apply Nat.ltb_ge in Hlen. now rewrite Hlen.
Qed.

Lemma user_init_ok (new_id : Z) (salt username password : string) (u : User.t) :
  User.init new_id salt username password = inr u ->
  u = User.mk new_id username (Bcrypt salt (blowfish_key password)) /\
  (String.length password <= 72)%nat.
Proof.
  unfold User.init, generate_password_hash.
  destruct (hashpw salt password) as [e|h] eqn:Hh; [discriminate|].
  apply hashpw_ok in Hh. destruct Hh as [-> Hlen].
  intros H. injection H as <-. now split.
Qed.

(** A registration stores nothing, or appends one user under a new id and a
    username that was not stored. *)
Lemma register_cases (data : option credentials) (salt : string) (s : db) :
  fst (register data salt s) = s \/
  exists username password,
    (String.length password <= 72)%nat /\
    user_by_username s username = None /\
    register data salt s =
      ({| users := users s ++
                   [User.mk (next_id (map User.id (users s))) username
                            (Bcrypt salt (blowfish_key password))];
          workouts := workouts s |},
       Response 201 (message "New user created!")).
Proof.
  unfold register. destruct data as [data|]; [|now left].
  destruct (nonempty (cred_username data)) as [username|]; [|now left].
  destruct (nonempty (cred_password data)) as [password|]; [|now left].
  destruct (user_by_username s username) eqn:Hfind; [now left|].
  destruct (User.init _ salt username password) as [e|u] eqn:Hinit; [now left|].
  apply user_init_ok in Hinit. destruct Hinit as [-> Hlen].
  right. exists username, password. auto.
Qed.

(** What a flush that succeeds leaves of the row: everything but the
    weight, which is the body's as the REAL column holds it. *)
Lemma flush_ok (data : workout_fields) (row row' : Workout.t) :
  flush data row = inr row' ->
  fits (get (f_sets data) 0) = true /\ fits (get (f_reps data) 0) = true /\
  (forall x, f_weight_kg data = Some x -> PrimFloat.is_nan x = false) /\
  row' = Workout.mk (Workout.id row) (Workout.user_id row)
           (Workout.exercise_name row) (Workout.muscle_group row)
           (Workout.is_cardio row) (Workout.sets row) (Workout.reps row)
           match f_weight_kg data with
           | Some x => real_column x
           | None => Workout.weight_kg row
           end
           (Workout.created_at row).
Proof.
  unfold flush.
  destruct (fits (get (f_sets data) 0)) eqn:Hs; [|discriminate].
  destruct (fits (get (f_reps data) 0)) eqn:Hr; [|discriminate]. cbn [andb negb].
  destruct (f_weight_kg data) as [x|].
  - destruct (PrimFloat.is_nan x) eqn:Hx; [discriminate|].
    intros H. injection H as <-. repeat split. intros y Hy. now injection Hy as <-.
  - intros H. injection H as <-. repeat split; [discriminate|]. now destruct row.
Qed.

Lemma flush_keys (data : workout_fields) (row row' : Workout.t) :
  flush data row = inr row' ->
  Workout.id row' = Workout.id row /\
  Workout.user_id row' = Workout.user_id row /\
  Workout.created_at row' = Workout.created_at row.
Proof. intros H. apply flush_ok in H. destruct H as (_ & _ & _ & ->). now split. Qed.

(** A create stores nothing, or appends one row under a new id, owned by
    the caller and created at the clock reading. *)
Lemma create_workout_cases (u : option User.t) (data : workout_fields)
    (now : Z) (s : db) :
  fst (create_workout u data now s) = s \/
  exists user w,
    u = Some user /\
    Workout.id w = next_id (map Workout.id (workouts s)) /\
    Workout.user_id w = User.id user /\ Workout.created_at w = now /\
    create_workout u data now s =
      ({| users := users s; workouts := workouts s ++ [w] |},
       Response 201 (Workout.to_dict w)).
Proof.
  unfold create_workout.
  destruct (f_exercise_name data) as [name|]; [|now left].
  destruct (f_muscle_group data) as [group|]; [|now left].
  destruct (f_sets data) as [n|] eqn:Hn; [|now left].
  destruct (f_reps data) as [m|] eqn:Hm; [|now left].
  destruct (f_weight_kg data) as [x|] eqn:Hx; [|now left].
  destruct (f_is_cardio data) as [c|]; [|now left].
  destruct u as [user|]; [|now left].
  match goal with |- context [flush data ?row] =>
    destruct (flush data row) as [e|w] eqn:Hflush end; [now left|].
  right. exists user, w. apply flush_keys in Hflush.
  destruct Hflush as (-> & -> & ->). repeat split.
Qed.

(** An update stores nothing, or rewrites the row it found with a row of
    the same id, owner and creation time. *)
Lemma update_workout_cases (u : option User.t) (workout_id : Z)
    (data : workout_fields) (s : db) :
  fst (update_workout u workout_id data s) = s \/
  exists user w w',
    u = Some user /\
    workout_owned s workout_id (User.id user) = Some w /\
    flush data (apply_fields data w) = inr w' /\
    update_workout u workout_id data s =
      ({| users := users s; workouts := store_workout w' (workouts s) |},
       Response 200 (Workout.to_dict w')).
Proof.
  unfold update_workout. destruct u as [user|]; [|now left].
  destruct (workout_owned s workout_id (User.id user)) as [w|] eqn:Hf;
    [|now left].
  destruct (flush data (apply_fields data w)) as [e|w'] eqn:Hflush; [now left|].
  right. exists user, w, w'. repeat split; auto.
Qed.

Lemma update_keys (data : workout_fields) (w w' : Workout.t) :
  flush data (apply_fields data w) = inr w' ->
  Workout.id w' = Workout.id w /\
  Workout.user_id w' = Workout.user_id w /\
  Workout.created_at w' = Workout.created_at w.
Proof. intros H. apply flush_keys in H. exact H. Qed.

(** A delete stores nothing, or removes the row it found. *)
Lemma delete_workout_cases (u : option User.t) (workout_id : Z) (s : db) :
  fst (delete_workout u workout_id s) = s \/
  exists user w,
    u = Some user /\
    workout_owned s workout_id (User.id user) = Some w /\
    delete_workout u workout_id s =
      ({| users := users s; workouts := delete_row (Workout.id w) (workouts s) |},
       Response 200 (message "Workout deleted successfully")).
Proof.
  unfold delete_workout. destruct u as [user|]; [|now left].
  destruct (workout_owned s workout_id (User.id user)) as [w|] eqn:Hf;
    [|now left].
  right. exists user, w. repeat split; auto.
Qed.

(** ** The integrity constraints hold in every reachable database *)

Lemma db_ok_empty : db_ok empty_db.
Proof. split; simpl; try constructor. tauto. Qed.

Lemma register_db_ok (data : option credentials) (salt : string) (s : db) :
  db_ok s -> db_ok (fst (register data salt s)).
Proof.
  intros Hok.
  destruct (register_cases data salt s)
    as [->|(username & password & _ & Hfind & ->)]; [exact Hok|].
  destruct Hok as [Hu Hn Hw Ho]. split; simpl.
  - apply NoDup_keys_snoc; auto. apply next_id_fresh.
  - rewrite map_app. simpl.
    apply user_by_username_none in Hfind.
    clear - Hn Hfind. induction (map User.username (users s)) as [|x l IH]; simpl.
    + constructor; [tauto | constructor].
    + inversion Hn; subst. simpl in Hfind. constructor.
      * rewrite in_app_iff. simpl. intros [?|[?|[]]]; [tauto|]. subst. tauto.
      * apply IH; tauto.
  - exact Hw.
  - intros w Hin. rewrite map_app, in_app_iff. left. now apply Ho.
Qed.

Lemma login_unchanged (auth : option credentials) (now : Z) (s : db) :
  fst (login auth now s) = s.
Proof.
  unfold login. destruct auth as [auth|]; [|reflexivity].
  destruct (nonempty (cred_username auth)) as [username|]; [|reflexivity].
  destruct (nonempty (cred_password auth)) as [password|]; [|reflexivity].
  destruct (user_by_username s username) as [user|]; [|reflexivity].
  now destruct (User.check_password user password) as [e|[|]].
Qed.

Lemma get_workouts_unchanged (u : option User.t) (args : list_args) (s : db) :
  fst (get_workouts u args s) = s.
Proof.
  unfold get_workouts. destruct u as [user|]; [|reflexivity].
  now destruct (paginate _ _ _).
Qed.

Lemma create_workout_db_ok (u : option User.t) (data : workout_fields)
    (now : Z) (s : db) :
  known s u -> db_ok s -> db_ok (fst (create_workout u data now s)).
Proof.
  intros Hk Hok.
  destruct (create_workout_cases u data now s)
    as [->|(user & w & -> & Hid & Hown & _ & ->)]; [exact Hok|].
  destruct Hok as [Hu Hn Hw Ho]. split; simpl; auto.
  - apply NoDup_keys_snoc; auto. rewrite Hid. apply next_id_fresh.
  - intros w'. rewrite in_app_iff. simpl. intros [Hin|[<-|[]]]; auto.
    rewrite Hown. apply in_map. now apply Hk.
Qed.

Lemma update_workout_db_ok (u : option User.t) (workout_id : Z)
    (data : workout_fields) (s : db) :
  db_ok s -> db_ok (fst (update_workout u workout_id data s)).
Proof.
  intros Hok.
  destruct (update_workout_cases u workout_id data s)
    as [->|(user & w & w' & -> & Hf & Hflush & ->)]; [exact Hok|].
  destruct Hok as [Hu Hn Hw Ho].
  apply workout_owned_some in Hf. destruct Hf as (Hin & _ & _).
  apply update_keys in Hflush. destruct Hflush as (_ & Hown & _).
  split; simpl; auto.
  - now rewrite store_workout_ids.
  - intros x Hin'. apply store_workout_In in Hin'.
    destruct Hin' as [->|Hin']; auto. rewrite Hown. now apply Ho.
Qed.

Lemma delete_workout_db_ok (u : option User.t) (workout_id : Z) (s : db) :
  db_ok s -> db_ok (fst (delete_workout u workout_id s)).
Proof.
  intros Hok.
  destruct (delete_workout_cases u workout_id s)
    as [->|(user & w & -> & _ & ->)]; [exact Hok|].
  destruct Hok as [Hu Hn Hw Ho]. split; simpl; auto.
  - now apply NoDup_keys_filter.
  - intros w' Hin'. apply filter_In in Hin'. now apply Ho.
Qed.

(** What the decorator hands to the view, and when it answers itself. *)
Lemma token_required_cases (f : option User.t -> db -> db * result)
    (header : option token) (now : Z) (s : db) :
  (exists body, token_required f header now s = (s, Response 401 body)) \/
  (exists data ident,
      token_given header <> None /\
      (forall t, token_given header = Some t ->
                 jwt_decode t SECRET_KEY now = inr data) /\
      claim_user_id data = Some ident /\
      token_required f header now s = f (user_get s ident) s).
Proof.
  unfold token_required.
  destruct (token_given header) as [t|]; [|left; eexists; reflexivity].
  destruct (jwt_decode t SECRET_KEY now) as [e|data] eqn:Hd;
    [left; eexists; reflexivity|].
  destruct (claim_user_id data) as [ident|] eqn:Hc;
    [|left; eexists; reflexivity].
  right. exists data, ident. repeat split; congruence.
Qed.

Lemma user_get_known (s : db) (ident : Z) : known s (user_get s ident).
Proof. intros u Hu. now apply user_get_In in Hu. Qed.

Lemma serve_db_ok (r : request) (now : Z) (s : db) :
  db_ok s -> db_ok (fst (serve r now s)).
Proof.
  intros Hok. destruct r as [data salt|auth|h data|h args|h wid data|h wid]; simpl.
  - now apply register_db_ok.
  - now rewrite login_unchanged.
  - destruct (token_required_cases (fun u => create_workout u data now) h now s)
      as [[body ->]|(d & i & _ & _ & _ & ->)]; auto.
    apply create_workout_db_ok; auto using user_get_known.
  - destruct (token_required_cases (fun u => get_workouts u args) h now s)
      as [[body ->]|(d & i & _ & _ & _ & ->)]; auto.
    now rewrite get_workouts_unchanged.
  - destruct (token_required_cases (fun u => update_workout u wid data) h now s)
      as [[body ->]|(d & i & _ & _ & _ & ->)]; auto.
    now apply update_workout_db_ok.
  - destruct (token_required_cases (fun u => delete_workout u wid) h now s)
      as [[body ->]|(d & i & _ & _ & _ & ->)]; auto.
    now apply delete_workout_db_ok.
Qed.

Theorem reachable_db_ok (s : db) : reachable s -> db_ok s.
Proof.
  induction 1 as [|r now s _ IH]; [apply db_ok_empty | now apply serve_db_ok].
Qed.

(** No route removes or rewrites a user. *)
Lemma serve_users_grow (r : request) (now : Z) (s : db) :
  exists added, users (fst (serve r now s)) = users s ++ added.
Proof.
  assert (Hsame : forall s', users s' = users s -> exists added, users s' = users s ++ added)
    by (intros s' ->; exists []; now rewrite app_nil_r).
  destruct r as [data salt|auth|h data|h args|h wid data|h wid]; simpl.
  - destruct (register_cases data salt s) as [->|(un & pw & _ & _ & ->)]; auto.
    simpl. eauto.
  - now rewrite login_unchanged; auto.
  - destruct (token_required_cases (fun u => create_workout u data now) h now s)
      as [[body ->]|(d & i & _ & _ & _ & ->)]; auto.
    destruct (create_workout_cases (user_get s i) data now s)
      as [->|(user & w & _ & _ & _ & _ & ->)]; auto.
  - destruct (token_required_cases (fun u => get_workouts u args) h now s)
      as [[body ->]|(d & i & _ & _ & _ & ->)]; auto.
    rewrite get_workouts_unchanged; auto.
  - destruct (token_required_cases (fun u => update_workout u wid data) h now s)
      as [[body ->]|(d & i & _ & _ & _ & ->)]; auto.
    destruct (update_workout_cases (user_get s i) wid data s)
      as [->|(user & w & w' & _ & _ & _ & ->)]; auto.
  - destruct (token_required_cases (fun u => delete_workout u wid) h now s)
      as [[body ->]|(d & i & _ & _ & _ & ->)]; auto.
    destruct (delete_workout_cases (user_get s i) wid s)
      as [->|(user & w & _ & _ & ->)]; auto.
Qed.

(** What a request does to the workouts table: nothing, or what one view
    does for the user the token names. *)
Lemma serve_workouts (r : request) (now : Z) (s : db) :
  workouts (fst (serve r now s)) = workouts s \/
  exists user,
    caller r now = Some (User.id user) /\ In user (users s) /\
    ((exists w,
         Workout.id w = next_id (map Workout.id (workouts s)) /\
         Workout.user_id w = User.id user /\ Workout.created_at w = now /\
         workouts (fst (serve r now s)) = workouts s ++ [w]) \/
     (exists w w',
         In w (workouts s) /\ Workout.user_id w = User.id user /\
         Workout.id w' = Workout.id w /\
         Workout.user_id w' = Workout.user_id w /\
         Workout.created_at w' = Workout.created_at w /\
         workouts (fst (serve r now s)) = store_workout w' (workouts s)) \/
     (exists w,
         In w (workouts s) /\ Workout.user_id w = User.id user /\
         workouts (fst (serve r now s)) = delete_row (Workout.id w) (workouts s))).
Proof.
  assert (Hcaller : forall f h,
            guarded r = Some h ->
            (exists body, token_required f h now s = (s, Response 401 body)) \/
            (exists ident, caller r now = Some ident /\
                           token_required f h now s = f (user_get s ident) s)).
  { intros f h Hg. unfold caller, authenticated. rewrite Hg.
    unfold token_required.
    destruct (token_given h) as [t|]; [|left; eexists; reflexivity].
    destruct (jwt_decode t SECRET_KEY now) as [e|data];
      [left; eexists; reflexivity|].
    destruct (claim_user_id data) as [ident|]; [|left; eexists; reflexivity].
    right. now exists ident. }
  destruct r as [data salt|auth|h data|h args|h wid data|h wid]; simpl.
  - destruct (register_cases data salt s) as [->|(un & pw & _ & _ & ->)];
      now left.
  - rewrite login_unchanged. now left.
  - destruct (Hcaller (fun u => create_workout u data now) h eq_refl)
      as [[body ->]|(ident & Hc & ->)]; [now left|].
    destruct (create_workout_cases (user_get s ident) data now s)
      as [->|(user & w & Hu & Hid & Hown & Hat & ->)]; [now left|].
    right. exists user. apply user_get_In in Hu. destruct Hu as [Hin <-].
    split; [exact Hc|]. split; [exact Hin|]. left. exists w. auto.
  - destruct (Hcaller (fun u => get_workouts u args) h eq_refl)
      as [[body ->]|(ident & Hc & ->)]; [now left|].
    rewrite get_workouts_unchanged. now left.
  - destruct (Hcaller (fun u => update_workout u wid data) h eq_refl)
      as [[body ->]|(ident & Hc & ->)]; [now left|].
    destruct (update_workout_cases (user_get s ident) wid data s)
      as [->|(user & w & w' & Hu & Hf & Hflush & ->)]; [now left|].
    right. exists user. apply user_get_In in Hu. destruct Hu as [Hin <-].
    split; [exact Hc|]. split; [exact Hin|]. right. left. exists w, w'.
    apply workout_owned_some in Hf. apply update_keys in Hflush.
    cbn [fst workouts]. tauto.
  - destruct (Hcaller (fun u => delete_workout u wid) h eq_refl)
      as [[body ->]|(ident & Hc & ->)]; [now left|].
    destruct (delete_workout_cases (user_get s ident) wid s)
      as [->|(user & w & Hu & Hf & ->)]; [now left|].
    right. exists user. apply user_get_In in Hu. destruct Hu as [Hin <-].
    split; [exact Hc|]. split; [exact Hin|]. right. right. exists w.
    apply workout_owned_some in Hf. cbn [fst workouts]. tauto.
Qed.

(** ** The sample run *)

Lemma run_reachable (requests : list (request * Z)) (s : db) :
  reachable s -> reachable (run requests s).
Proof.
  revert s. induction requests as [|[r now] rest IH]; intros s Hs; simpl; auto.
  apply IH. now constructor.
Qed.

Lemma gym_contents : gym = {| users := [alice; bob]; workouts := [bench; treadmill] |}.
Proof. vm_compute. reflexivity. Qed.

Lemma gym_ok : db_ok gym.
Proof. apply reachable_db_ok, run_reachable. constructor. Qed.

(** ** Ownership: update and delete across users *)


Lemma store_workout_stored (w' w : Workout.t) (rows : list Workout.t) :
  In w rows -> Workout.id w' = Workout.id w -> In w' (store_workout w' rows).
Proof.
  intros Hin Heq. unfold store_workout. apply in_map_iff. exists w.
  split; [|exact Hin]. now rewrite Heq, Z.eqb_refl.
Qed.





(** ** Delete *)

(** C10.  When [w] is a workout of user [u], deleting [w.id] as [u] answers
    200 with the confirmation message, leaves the users table as it is, and
    turns the workouts table [before ++ w :: after] into [before ++ after]:
    [w] is gone and every other row, of [u] or of anybody else, is where and
    what it was. *)
Theorem delete_removes_exactly_one (s : db) (u : User.t) (w : Workout.t) :
  db_ok s -> In w (workouts s) -> Workout.user_id w = User.id u ->
  exists before after,
    workouts s = before ++ w :: after /\
    ~ In w (before ++ after) /\
    delete_workout (Some u) (Workout.id w) s =
      ({| users := users s; workouts := before ++ after |},
       Response 200 (message "Workout deleted successfully")).
Proof.
  intros Hok Hin Hown.
  pose proof (workout_ids_unique s Hok) as Hnd.
  destruct (in_split _ _ Hin) as (before & after & Hsplit).
  exists before, after. split; [exact Hsplit|]. split.
  - rewrite Hsplit, map_app in Hnd. simpl in Hnd. apply NoDup_remove_2 in Hnd.
    intros Hw. apply Hnd. rewrite <- map_app. now apply in_map.
  - unfold delete_workout. rewrite <- Hown, (workout_owned_stored s w Hnd Hin).
    unfold jsonify. do 2 f_equal. rewrite Hsplit. apply delete_row_split.
    now rewrite <- Hsplit.
Qed.

Lemma delete_removes_exactly_one_witness :
  db_ok gym /\ In bench (workouts gym) /\ Workout.user_id bench = User.id alice /\
  exists before after,
    workouts gym = before ++ bench :: after /\
    delete_workout (Some alice) 1 gym =
      ({| users := users gym; workouts := before ++ after |},
       Response 200 (message "Workout deleted successfully")).
Proof.
  assert (Hw : In bench (workouts gym)) by (rewrite gym_contents; simpl; tauto).
  assert (Hown : Workout.user_id bench = User.id alice) by reflexivity.
  split; [exact gym_ok|]. split; [exact Hw|]. split; [exact Hown|].
  destruct (delete_removes_exactly_one gym alice bench gym_ok Hw Hown)
    as (before & after & Hsplit & _ & Hdel).
  exists before, after. split; assumption.
Defined.

(** ** Bodies the store can hold *)

Lemma fits_int64 (n : Z) : fits n = true <-> int64 n.
Proof.
  unfold fits, int64, sqlite_max. rewrite andb_true_iff, !Z.leb_le. tauto.
Qed.

Lemma storable_flush (data : workout_fields) (row : Workout.t) :
  storable data ->
  flush data row =
    inr (Workout.mk (Workout.id row) (Workout.user_id row)
           (Workout.exercise_name row) (Workout.muscle_group row)
           (Workout.is_cardio row) (Workout.sets row) (Workout.reps row)
           (stored_weight data (Workout.weight_kg row))
           (Workout.created_at row)).
Proof.
  intros (Hs & Hr & Hw). unfold flush, stored_weight.
  assert (Hs' : fits (get (f_sets data) 0) = true).
  { apply fits_int64. destruct (f_sets data) as [n|]; [now apply Hs|].
    unfold int64. simpl. lia. }
  assert (Hr' : fits (get (f_reps data) 0) = true).
  { apply fits_int64. destruct (f_reps data) as [n|]; [now apply Hr|].
    unfold int64. simpl. lia. }
  rewrite Hs', Hr'. cbn [andb negb].
  destruct (f_weight_kg data) as [x|]; [|now destruct row].
  now rewrite (Hw x eq_refl).
Qed.

Lemma unstorable_flush (data : workout_fields) (row : Workout.t) :
  ~ storable data -> exists e, flush data row = inl e.
Proof.
  intros Hno. unfold flush.
  destruct (fits (get (f_sets data) 0)) eqn:Hs; [|eexists; reflexivity].
  destruct (fits (get (f_reps data) 0)) eqn:Hr; [|eexists; reflexivity].
  cbn [andb negb]. destruct (f_weight_kg data) as [x|] eqn:Hx.
  - destruct (PrimFloat.is_nan x) eqn:Hnan; [eexists; reflexivity|].
    exfalso. apply Hno. split; [|split].
    + intros n Hn. rewrite Hn in Hs. now apply fits_int64.
    + intros n Hn. rewrite Hn in Hr. now apply fits_int64.
    + intros y Hy. congruence.
  - exfalso. apply Hno. split; [|split].
    + intros n Hn. rewrite Hn in Hs. now apply fits_int64.
    + intros n Hn. rewrite Hn in Hr. now apply fits_int64.
    + intros y Hy. congruence.
Qed.

Lemma storable_only_weight_kg (x : float) :
  PrimFloat.is_nan x = false -> storable (only_weight_kg x).
Proof.
  intros Hx. split; [|split]; simpl; intros v Hv; try discriminate Hv.
  now injection Hv as <-.
Qed.

Lemma storable_update (data : workout_fields) (w : Workout.t) :
  storable data -> flush data (apply_fields data w) = inr (updated data w).
Proof.
  intros Hstorable. rewrite (storable_flush _ _ Hstorable). f_equal.
  unfold updated, stored_weight, apply_fields. cbn. now destruct (f_weight_kg data).
Qed.

(** The row an update stores. *)
Lemma update_workout_found (s : db) (u : User.t) (workout_id : Z)
    (data : workout_fields) (w w' : Workout.t) :
  workout_owned s workout_id (User.id u) = Some w ->
  flush data (apply_fields data w) = inr w' ->
  update_workout (Some u) workout_id data s =
    ({| users := users s; workouts := store_workout w' (workouts s) |},
     Response 200 (Workout.to_dict w')).
Proof. intros Hf Hflush. unfold update_workout. now rewrite Hf, Hflush. Qed.

(** An update the store refuses raises and changes nothing. *)
Lemma update_workout_refused (s : db) (u : User.t) (workout_id : Z)
    (data : workout_fields) (w : Workout.t) :
  workout_owned s workout_id (User.id u) = Some w -> ~ storable data ->
  exists e, update_workout (Some u) workout_id data s = (s, Unhandled e).
Proof.
  intros Hf Hno. unfold update_workout. rewrite Hf.
  destruct (unstorable_flush data (apply_fields data w) Hno) as [e ->].
  now exists e.
Qed.

(** ** Total volume *)

Lemma total_volume_formula (x : Workout.t) :
  Workout.total_volume x =
    if Workout.is_cardio x then PyInt 0
    else PyFloat (PrimFloat.mul (float_of_int (Workout.sets x * Workout.reps x))
                                (Workout.weight_kg x)).
Proof. unfold Workout.total_volume. now destruct (Workout.is_cardio x). Qed.

Lemma to_dict_total_volume (x : Workout.t) :
  json_get "total_volume" (Workout.to_dict x) = Some (JNum (Workout.total_volume x)).
Proof. reflexivity. Qed.

(** On the integers of 63 bits, [float_of_int] is the machine's conversion
    of an integer to a double. *)
Lemma float_of_int_machine (n : Z) :
  0 <= n < 2 ^ 63 -> float_of_int n = PrimFloat.of_uint63 (Uint63.of_Z n).
Proof.
  intros Hn. unfold float_of_int.
  rewrite <- (SF2Prim_Prim2SF (PrimFloat.of_uint63 (Uint63.of_Z n))). f_equal.
  rewrite of_uint63_spec, Uint63.of_Z_spec. f_equal.
  symmetry. apply Z.mod_small. exact Hn.
Qed.

(** C3, as stated, fails twice.  The volume is a binary64 product, not the
    exact one: for sets = 3, reps = 1 and the double nearest to 0.1 the
    serialized volume is 0.30000000000000004, which is not three times that
    weight.  And an update the store cannot hold changes no volume: with
    sets = 2^63, or with a NaN weight, the update raises and the row stays
    as it was. *)
Lemma total_volume_is_rounded_and_updates_can_fail :
  (let x := Workout.mk 3 1 "Curl" "Arms" false 3 1 tenth 3000 in
   json_get "total_volume" (Workout.to_dict x) =
     Some (JNum (PyFloat 0x1.3333333333334p-2%float)) /\
   ~ exact_product (PyFloat 0x1.3333333333334p-2%float) (3 * 1) tenth) /\
  workout_owned gym 1 (User.id alice) = Some bench /\
  update_workout (Some alice) 1
    {| f_exercise_name := None; f_muscle_group := None; f_is_cardio := None;
       f_sets := Some (2 ^ 63); f_reps := None; f_weight_kg := None |} gym =
    (gym, Unhandled OverflowError) /\
  update_workout (Some alice) 1 (only_weight_kg PrimFloat.nan) gym =
    (gym, Unhandled IntegrityError).
Proof.
  split; [split|].
  - vm_compute. reflexivity.
  - unfold exact_product. vm_compute. discriminate.
  - rewrite gym_contents. repeat split; vm_compute; reflexivity.
Qed.

(** C3 (amended).  The serialized [total_volume] of every workout is the
    integer 0 when [is_cardio] is true, whatever sets, reps and weight are,
    and the binary64 product of [float(sets * reps)] and [weight_kg] when it
    is false: for a product [sets * reps] of 63 bits this is the machine
    conversion of the integer and the IEEE-754 product of the two doubles,
    which is rounded, and exact where the product is representable, as
    3 * 10 * 50 = 1500 is.  The volume is no column; each serialization
    computes it from the row.  An update whose values the store can hold
    (64-bit integers, a weight that is no NaN; -0.0 is stored as 0.0)
    answers 200 with the volume of the new values, and stores them. *)
Theorem total_volume_derived_on_serialization
    (s : db) (u : User.t) (workout_id : Z) (data : workout_fields) (w : Workout.t) :
  workout_owned s workout_id (User.id u) = Some w -> storable data ->
  (forall x : Workout.t,
      Workout.is_cardio x = true ->
      json_get "total_volume" (Workout.to_dict x) = Some (JNum (PyInt 0))) /\
  (forall x : Workout.t,
      Workout.is_cardio x = false ->
      json_get "total_volume" (Workout.to_dict x) =
        Some (JNum (PyFloat (PrimFloat.mul
                               (float_of_int (Workout.sets x * Workout.reps x))
                               (Workout.weight_kg x))))) /\
  (forall (n : Z) (y : float),
      0 <= n < 2 ^ 63 ->
      float_of_int n = PrimFloat.of_uint63 (Uint63.of_Z n) /\
      Prim2SF (PrimFloat.mul (float_of_int n) y) =
        SF64mul (binary_normalize prec emax n 0 false) (Prim2SF y)) /\
  (forall x : Workout.t,
      Workout.is_cardio x = false -> Workout.sets x = 3 ->
      Workout.reps x = 10 -> Workout.weight_kg x = 50%float ->
      Workout.total_volume x = PyFloat 1500 /\
      exact_product (Workout.total_volume x) (3 * 10) 50) /\
  (exists s' w',
      update_workout (Some u) workout_id data s =
        (s', Response 200 (Workout.to_dict w')) /\
      In w' (workouts s') /\
      Workout.id w' = Workout.id w /\
      Workout.is_cardio w' = get (f_is_cardio data) (Workout.is_cardio w) /\
      Workout.sets w' = get (f_sets data) (Workout.sets w) /\
      Workout.reps w' = get (f_reps data) (Workout.reps w) /\
      Workout.weight_kg w' = stored_weight data (Workout.weight_kg w) /\
      json_get "total_volume" (Workout.to_dict w') =
        Some (JNum (if get (f_is_cardio data) (Workout.is_cardio w) then PyInt 0
                    else PyFloat (PrimFloat.mul
                                    (float_of_int
                                       (get (f_sets data) (Workout.sets w) *
                                        get (f_reps data) (Workout.reps w)))
                                    (stored_weight data (Workout.weight_kg w)))))).
Proof.
  intros Hf Hstorable. split; [|split; [|split; [|split]]].
  - intros x Hc. now rewrite to_dict_total_volume, total_volume_formula, Hc.
  - intros x Hc. now rewrite to_dict_total_volume, total_volume_formula, Hc.
  - intros n y Hn. split; [now apply float_of_int_machine|].
    rewrite FloatAxioms.mul_spec. f_equal. rewrite (float_of_int_machine n Hn).
    rewrite FloatAxioms.of_uint63_spec, Uint63.of_Z_spec. f_equal.
    now apply Z.mod_small.
  - intros x Hc Hs Hr Hw. rewrite total_volume_formula, Hc, Hs, Hr, Hw.
    split; [vm_compute; reflexivity|]. unfold exact_product. vm_compute.
    reflexivity.
  - pose proof (storable_update data w Hstorable) as Hflush.
    eexists. eexists.
    split; [exact (update_workout_found _ _ _ _ _ _ Hf Hflush)|].
    split.
    { cbn [workouts]. apply workout_owned_some in Hf.
      apply (store_workout_stored _ w); [tauto | reflexivity]. }
    repeat (split; [reflexivity|]).
    now rewrite to_dict_total_volume, total_volume_formula.
Qed.

Lemma total_volume_derived_on_serialization_witness :
  workout_owned gym 1 (User.id alice) = Some bench /\
  storable (only_weight_kg 50) /\
  exists s' w',
    update_workout (Some alice) 1 (only_weight_kg 50) gym =
      (s', Response 200 (Workout.to_dict w')) /\
    json_get "total_volume" (Workout.to_dict w') = Some (JNum (PyFloat 1500)).
Proof.
  assert (Hf : workout_owned gym 1 (User.id alice) = Some bench)
    by (vm_compute; reflexivity).
  assert (Hst : storable (only_weight_kg 50))
    by now apply storable_only_weight_kg.
  split; [exact Hf|]. split; [exact Hst|].
  destruct (total_volume_derived_on_serialization
              gym alice 1 (only_weight_kg 50) bench Hf Hst)
    as (_ & _ & _ & _ & s' & w' & Hupd & _ & _ & _ & _ & _ & _ & Hvol).
  exists s', w'. split; [exact Hupd|]. rewrite Hvol. vm_compute. reflexivity.
Defined.

(** ** Partial update *)

(** C4, as stated, fails.  The example does not hold on a cardio workout:
    bob's treadmill session has sets = 3 and reps = 10, and updating it with
    only [{"weight_kg": 50}] answers with total_volume 0, which is not 1500.
    And a present field does not always overwrite the stored value: with
    sets = 2^63 the update raises and stores nothing, and a weight of -0.0
    is stored and returned as 0.0. *)
Lemma partial_update_counterexamples :
  (In treadmill (workouts gym) /\
   Workout.user_id treadmill = User.id bob /\
   Workout.sets treadmill = 3 /\ Workout.reps treadmill = 10 /\
   exists s' body,
     update_workout (Some bob) (Workout.id treadmill) (only_weight_kg 50) gym =
       (s', Response 200 body) /\
     json_get "total_volume" body = Some (JNum (PyInt 0)) /\
     ~ number_is (PyInt 0) 1500) /\
  update_workout (Some alice) 1
    {| f_exercise_name := None; f_muscle_group := None; f_is_cardio := None;
       f_sets := Some (2 ^ 63); f_reps := None; f_weight_kg := None |} gym =
    (gym, Unhandled OverflowError) /\
  (exists s' body,
      update_workout (Some alice) 1 (only_weight_kg PrimFloat.neg_zero) gym =
        (s', Response 200 body) /\
      json_get "weight_kg" body = Some (JNum (PyFloat 0)) /\
      PyFloat 0 <> PyFloat PrimFloat.neg_zero).
Proof.
  rewrite gym_contents. split; [|split].
  - repeat split; simpl; auto.
    eexists. eexists. split; [vm_compute; reflexivity|].
    split; [reflexivity|]. intros [H|H]; discriminate H.
  - vm_compute. reflexivity.
  - eexists. eexists. split; [vm_compute; reflexivity|].
    split; [reflexivity|]. intros H.
    apply (f_equal (fun v => match v with
                             | PyFloat x => PrimFloat.get_sign x
                             | PyInt _ => false
                             end)) in H.
    vm_compute in H. discriminate H.
Qed.

(** C4 (amended).  For a workout [w] owned by the caller and a body whose
    values the store can hold (sets and reps of 64 bits, a weight that is no
    NaN), an update rewrites the row of [w] in place and answers 200 with
    the new row serialized: each of the six fields takes the body's value
    when the key is present (the weight as the REAL column holds it, -0.0
    as 0.0) and keeps the stored one when it is absent; id, user_id and
    created_at never change.  With only [{"weight_kg": 50}] on a workout
    that has sets = 3, reps = 10 and is not cardio, the answer carries
    total_volume = 1500 and the stored exercise_name and muscle_group.  A
    body the store cannot hold makes the update raise and change nothing. *)
Theorem partial_update_overwrites_present_fields
    (s : db) (u : User.t) (workout_id : Z) (data : workout_fields) (w : Workout.t) :
  db_ok s -> workout_owned s workout_id (User.id u) = Some w ->
  (storable data ->
   exists w' before after,
     workouts s = before ++ w :: after /\
     update_workout (Some u) workout_id data s =
       ({| users := users s; workouts := before ++ w' :: after |},
        Response 200 (Workout.to_dict w')) /\
     overwrites (f_exercise_name data) (Workout.exercise_name w) (Workout.exercise_name w') /\
     overwrites (f_muscle_group data) (Workout.muscle_group w) (Workout.muscle_group w') /\
     overwrites (f_is_cardio data) (Workout.is_cardio w) (Workout.is_cardio w') /\
     overwrites (f_sets data) (Workout.sets w) (Workout.sets w') /\
     overwrites (f_reps data) (Workout.reps w) (Workout.reps w') /\
     overwrites (option_map real_column (f_weight_kg data))
                (Workout.weight_kg w) (Workout.weight_kg w') /\
     Workout.id w' = Workout.id w /\
     Workout.user_id w' = Workout.user_id w /\
     Workout.created_at w' = Workout.created_at w /\
     (data = only_weight_kg 50 ->
      Workout.sets w = 3 -> Workout.reps w = 10 -> Workout.is_cardio w = false ->
      json_get "total_volume" (Workout.to_dict w') = Some (JNum (PyFloat 1500)) /\
      Workout.exercise_name w' = Workout.exercise_name w /\
      Workout.muscle_group w' = Workout.muscle_group w)) /\
  (~ storable data ->
   exists e, update_workout (Some u) workout_id data s = (s, Unhandled e)).
Proof.
  intros Hok Hf. split; [|now apply (update_workout_refused s u workout_id data w)].
  intros Hstorable. pose proof (workout_ids_unique s Hok) as Hnd.
  destruct (workout_owned_some _ _ _ _ Hf) as (Hin & _ & _).
  destruct (in_split _ _ Hin) as (before & after & Hsplit).
  pose proof (storable_update data w Hstorable) as Hflush.
  exists (updated data w), before, after.
  split; [exact Hsplit|]. split.
  { rewrite (update_workout_found _ _ _ _ _ _ Hf Hflush). do 2 f_equal.
    rewrite Hsplit. apply store_workout_split; [reflexivity|].
    now rewrite <- Hsplit. }
  unfold updated.
  cbn [Workout.exercise_name Workout.muscle_group Workout.is_cardio Workout.sets
       Workout.reps Workout.weight_kg Workout.id Workout.user_id
       Workout.created_at].
  repeat match goal with
         | |- overwrites ?f _ _ /\ _ => split; [now destruct f|]
         end.
  split; [unfold stored_weight; now destruct (f_weight_kg data)|].
  repeat (split; [reflexivity|]).
  intros -> Hs Hr Hc.
  rewrite to_dict_total_volume, total_volume_formula.
  cbn [Workout.exercise_name Workout.muscle_group Workout.is_cardio Workout.sets
       Workout.reps Workout.weight_kg only_weight_kg get
       f_exercise_name f_muscle_group f_is_cardio f_sets f_reps f_weight_kg
       stored_weight].
  rewrite Hs, Hr, Hc. repeat split.
Qed.

Lemma partial_update_overwrites_present_fields_witness :
  db_ok gym /\ workout_owned gym 1 (User.id alice) = Some bench /\
  storable (only_weight_kg 50) /\
  exists w',
    snd (update_workout (Some alice) 1 (only_weight_kg 50) gym) =
      Response 200 (Workout.to_dict w') /\
    json_get "total_volume" (Workout.to_dict w') = Some (JNum (PyFloat 1500)) /\
    Workout.exercise_name w' = "Bench Press" /\
    Workout.muscle_group w' = "Chest".
Proof.
  assert (Hf : workout_owned gym 1 (User.id alice) = Some bench)
    by (vm_compute; reflexivity).
  assert (Hst : storable (only_weight_kg 50))
    by now apply storable_only_weight_kg.
  split; [exact gym_ok|]. split; [exact Hf|]. split; [exact Hst|].
  destruct (proj1 (partial_update_overwrites_present_fields
                     gym alice 1 (only_weight_kg 50) bench gym_ok Hf) Hst)
    as (w' & before & after & _ & Hupd & _ & _ & _ & _ & _ & _ & _ & _ & _ & Hex).
  destruct (Hex eq_refl eq_refl eq_refl eq_refl) as (Hvol & Hname & Hgroup).
  exists w'. rewrite Hupd. repeat split; assumption.
Defined.

(** ** Range of sets, reps and weight *)

Lemma real_column_nonneg (x : float) :
  PrimFloat.leb 0 x = true -> PrimFloat.leb 0 (real_column x) = true.
Proof. intros Hx. unfold real_column. now destruct (PrimFloat.is_zero x). Qed.

Lemma flush_nonneg (data : workout_fields) (row row' : Workout.t) :
  nonneg_fields data -> nonneg_row row -> flush data row = inr row' ->
  nonneg_row row'.
Proof.
  intros (_ & _ & Hw) (Hs & Hr & Hx) Hflush.
  apply flush_ok in Hflush. destruct Hflush as (_ & _ & _ & ->).
  unfold nonneg_row. cbn [Workout.sets Workout.reps Workout.weight_kg].
  repeat split; auto. destruct (f_weight_kg data) as [x|]; [|exact Hx].
  apply real_column_nonneg. now apply Hw.
Qed.

Lemma apply_fields_nonneg (data : workout_fields) (w : Workout.t) :
  nonneg_fields data -> nonneg_row w -> nonneg_row (apply_fields data w).
Proof.
  intros (Hs & Hr & Hw) (Hs' & Hr' & Hw'). unfold nonneg_row. simpl.
  destruct (f_sets data) as [n|], (f_reps data) as [m|], (f_weight_kg data) as [x|];
    simpl; repeat split; auto.
Qed.

(** C7, as stated, fails: nothing in [create_workout] or [update_workout]
    looks at the range of a value.  In a database whose rows are all in
    range, a create with sets = -1 persists a row with sets = -1, and an
    update with weight_kg = -2.5 persists that weight. *)
Lemma out_of_range_values_are_persisted :
  nonneg_db gym /\
  (exists s' body,
      create_workout (Some alice) (entry "Bench Press" "Chest" false (-1) 10 40)
                     3000 gym = (s', Response 201 body) /\
      json_get "sets" body = Some (JNum (PyInt (-1))) /\
      ~ nonneg_db s') /\
  (exists s' body,
      update_workout (Some alice) 1 (only_weight_kg (-2.5)) gym =
        (s', Response 200 body) /\
      json_get "weight_kg" body = Some (JNum (PyFloat (-2.5))) /\
      ~ nonneg_db s').
Proof.
  rewrite gym_contents. split; [|split].
  - repeat constructor; simpl; lia.
  - eexists. eexists. split; [vm_compute; reflexivity|].
    split; [reflexivity|].
    intros H. unfold nonneg_db in H. rewrite Forall_forall in H.
    assert (Hrow : nonneg_row
              (Workout.mk 3 1 "Bench Press" "Chest" false (-1) 10 40 3000))
      by (apply H; simpl; tauto).
    destruct Hrow as (Hsets & _). simpl in Hsets. lia.
  - eexists. eexists. split; [vm_compute; reflexivity|].
    split; [reflexivity|].
    intros H. unfold nonneg_db in H. rewrite Forall_forall in H.
    assert (Hrow : nonneg_row
              (Workout.mk 1 1 "Bench Press" "Chest" false 3 10 (-2.5) 1000))
      by (apply H; simpl; tauto).
    destruct Hrow as (_ & _ & Hweight). vm_compute in Hweight. discriminate.
Qed.

(** C7 (amended).  Create and update persist the sets, reps and weight_kg
    of the body without a range check.  A complete body the store can hold
    is stored by a create as it is given (the weight as the REAL column
    holds it, -0.0 as 0.0), negative values included; an update stores the
    given ones and keeps the others; a body the store cannot hold (an
    integer outside 64 bits, a NaN weight) is answered by an exception and
    stores nothing.  So when every stored row has sets >= 0, reps >= 0 and
    weight_kg >= 0 and the values present in the body are >= 0, every row
    stored after a create or an update is in range again; a delete keeps
    the range whatever it removes. *)
Theorem range_kept_by_nonneg_bodies
    (s : db) (u : option User.t) (workout_id : Z) (data : workout_fields) (now : Z) :
  (forall user exercise_name muscle_group is_cardio sets reps weight_kg,
      data = entry exercise_name muscle_group is_cardio sets reps weight_kg ->
      (storable data ->
       create_workout (Some user) data now s =
         ({| users := users s;
             workouts := workouts s ++
               [Workout.mk (next_id (map Workout.id (workouts s))) (User.id user)
                  exercise_name muscle_group is_cardio sets reps
                  (real_column weight_kg) now] |},
          Response 201
            (Workout.to_dict
               (Workout.mk (next_id (map Workout.id (workouts s))) (User.id user)
                  exercise_name muscle_group is_cardio sets reps
                  (real_column weight_kg) now)))) /\
      (~ storable data ->
       exists e, create_workout (Some user) data now s = (s, Unhandled e))) /\
  (forall user w,
      workout_owned s workout_id (User.id user) = Some w ->
      (storable data ->
       exists s' w',
         update_workout (Some user) workout_id data s =
           (s', Response 200 (Workout.to_dict w')) /\
         In w' (workouts s') /\
         Workout.id w' = Workout.id w /\
         Workout.sets w' = get (f_sets data) (Workout.sets w) /\
         Workout.reps w' = get (f_reps data) (Workout.reps w) /\
         Workout.weight_kg w' = stored_weight data (Workout.weight_kg w)) /\
      (~ storable data ->
       exists e, update_workout (Some user) workout_id data s = (s, Unhandled e))) /\
  (nonneg_db s -> nonneg_fields data ->
   nonneg_db (fst (create_workout u data now s)) /\
   nonneg_db (fst (update_workout u workout_id data s)) /\
   nonneg_db (fst (delete_workout u workout_id s))).
Proof.
  split; [|split].
  - intros user name group cardio n m x ->. split.
    + intros Hstorable. unfold create_workout.
      cbn [entry f_exercise_name f_muscle_group f_sets f_reps f_weight_kg
           f_is_cardio].
      now rewrite (storable_flush _ _ Hstorable).
    + intros Hno. unfold create_workout.
      cbn [entry f_exercise_name f_muscle_group f_sets f_reps f_weight_kg
           f_is_cardio].
      match goal with |- context [flush ?d ?row] =>
        destruct (unstorable_flush d row Hno) as [e ->] end.
      now exists e.
  - intros user w Hf.
    split; [|now apply (update_workout_refused s user workout_id data w)].
    intros Hstorable.
    pose proof (storable_update data w Hstorable) as Hflush.
    eexists. eexists.
    split; [exact (update_workout_found _ _ _ _ _ _ Hf Hflush)|].
    split; [|repeat split].
    cbn [workouts]. apply workout_owned_some in Hf.
    apply (store_workout_stored _ w); [tauto | reflexivity].
  - intros Hdb Hdata. unfold nonneg_db in *. split; [|split].
    + destruct (create_workout_cases u data now s)
        as [->|(user & w & _ & _ & _ & _ & Hcreate)]; [exact Hdb|].
      rewrite Hcreate. cbn [fst workouts].
      apply Forall_app. split; [exact Hdb|]. constructor; [|constructor].
      revert Hcreate. unfold create_workout.
      destruct (f_exercise_name data) as [name|]; [|discriminate].
      destruct (f_muscle_group data) as [group|]; [|discriminate].
      destruct (f_sets data) as [n|] eqn:Hn; [|discriminate].
      destruct (f_reps data) as [m|] eqn:Hm; [|discriminate].
      destruct (f_weight_kg data) as [x|] eqn:Hx; [|discriminate].
      destruct (f_is_cardio data) as [c|]; [|discriminate].
      destruct u as [user'|]; [|discriminate].
      match goal with |- context [flush data ?row] =>
        destruct (flush data row) as [e|w0] eqn:Hflush end; [discriminate|].
      intros H. injection H as Hw. apply app_inv_head in Hw. injection Hw as ->.
      apply (flush_nonneg _ _ _ Hdata) in Hflush; [exact Hflush|].
      destruct Hdata as (Hs & Hr & Hw). repeat split; simpl; auto.
    + destruct (update_workout_cases u workout_id data s)
        as [->|(user & w & w' & _ & Hf & Hflush & ->)]; [exact Hdb|].
      cbn [fst workouts]. rewrite Forall_forall in *. intros x Hx.
      apply store_workout_In in Hx. destruct Hx as [->|Hx]; auto.
      apply (flush_nonneg _ _ _ Hdata) in Hflush; [exact Hflush|].
      apply apply_fields_nonneg; auto. apply Hdb.
      now apply workout_owned_some in Hf.
    + destruct (delete_workout_cases u workout_id s)
        as [->|(user & w & _ & _ & ->)]; [exact Hdb|].
      cbn [fst workouts]. rewrite Forall_forall in *. intros x Hx.
      apply filter_In in Hx. now apply Hdb.
Qed.

Lemma range_kept_by_nonneg_bodies_witness :
  nonneg_db gym /\ nonneg_fields (only_weight_kg 50) /\
  nonneg_db (fst (update_workout (Some alice) 1 (only_weight_kg 50) gym)).
Proof.
  assert (Hdb : nonneg_db gym).
  { rewrite gym_contents. repeat constructor; simpl; lia. }
  assert (Hdata : nonneg_fields (only_weight_kg 50)).
  { repeat split; simpl; intros v Hv; try discriminate Hv.
    injection Hv as <-. reflexivity. }
  split; [exact Hdb|]. split; [exact Hdata|].
  exact (proj1 (proj2 (proj2 (proj2 (range_kept_by_nonneg_bodies
                         gym (Some alice) 1 (only_weight_kg 50) 0)) Hdb Hdata))).
Defined.

(** ** Login *)




(** ** Registration *)

Lemma user_by_username_stored (s : db) (name : string) :
  In name (map User.username (users s)) ->
  exists u, user_by_username s name = Some u.
Proof.
  intros Hin. destruct (user_by_username s name) as [u|] eqn:Hf; [eauto|].
  now apply user_by_username_none in Hf.
Qed.

Lemma nonempty_some (v : string) : v <> "" -> nonempty (Some v) = Some v.
Proof. destruct v; [contradiction | reflexivity]. Qed.

Lemma register_taken (s : db) (username password salt : string) :
  username <> "" -> password <> "" ->
  In username (map User.username (users s)) ->
  register (body_of username password) salt s =
    (s, Response 409 (message "Username already exists")).
Proof.
  intros Hu Hp Hin. unfold register, body_of. cbn [cred_username cred_password].
  rewrite (nonempty_some _ Hu), (nonempty_some _ Hp).
  destruct (user_by_username_stored s username Hin) as [u ->]. reflexivity.
Qed.

Lemma register_new (s : db) (username password salt : string) :
  username <> "" -> password <> "" -> (String.length password <= 72)%nat ->
  ~ In username (map User.username (users s)) ->
  register (body_of username password) salt s =
    ({| users := users s ++
                 [User.mk (next_id (map User.id (users s))) username
                          (Bcrypt salt (blowfish_key password))];
        workouts := workouts s |},
     Response 201 (message "New user created!")).
Proof.
  intros Hu Hp Hlen Hfresh. unfold register, body_of.
  cbn [cred_username cred_password].
  rewrite (nonempty_some _ Hu), (nonempty_some _ Hp).
  destruct (user_by_username s username) as [u|] eqn:Hf.
  - apply user_by_username_some in Hf. exfalso. apply Hfresh.
    destruct Hf as [Hin <-]. now apply in_map.
  - unfold User.init, generate_password_hash.
    now rewrite (hashpw_short salt password Hlen).
Qed.

Lemma length_list_ascii_of_string (v : string) :
  List.length (list_ascii_of_string v) = String.length v.
Proof. induction v as [|c v IH]; simpl; [reflexivity | now rewrite IH]. Qed.

Lemma cyclic_app (a b key : list ascii) (n : nat) :
  (List.length a <= n)%nat ->
  cyclic n key (a ++ b) = a ++ cyclic (n - List.length a) key b.
Proof.
  revert n. induction a as [|c a IH]; intros n Hlen; simpl in *.
  - now rewrite Nat.sub_0_r.
  - destruct n as [|n]; [lia|]. simpl. now rewrite IH by lia.
Qed.

(** The key bytes of a password of at most 72 bytes begin with the
    password; what follows, if anything, begins with the NUL. *)
Lemma blowfish_key_bytes (password : string) :
  (String.length password <= 72)%nat ->
  exists rest,
    list_ascii_of_string (blowfish_key password) =
      list_ascii_of_string password ++ rest /\
    (rest = [] \/ exists more, rest = Ascii.zero :: more).
Proof.
  intros Hlen. unfold blowfish_key.
  rewrite list_ascii_of_string_of_list_ascii.
  pose proof (length_list_ascii_of_string password) as Hl.
  set (bytes := list_ascii_of_string password) in *.
  destruct (Nat.eq_dec (List.length bytes) 72) as [Hfull|Hshort].
  - exists []. split; [|now left].
    assert (Hkey : firstn 72 (bytes ++ [Ascii.zero]) = bytes).
    { rewrite firstn_app, Hfull, Nat.sub_diag.
      change (firstn 0 [Ascii.zero]) with (@nil ascii).
      rewrite app_nil_r. apply firstn_all2. lia. }
    rewrite Hkey.
    pose proof (cyclic_app bytes [] bytes 72 ltac:(lia)) as Hc.
    rewrite app_nil_r in Hc. rewrite Hc, Hfull, Nat.sub_diag. reflexivity.
  - rewrite firstn_all2 by (rewrite length_app; simpl; lia).
    rewrite cyclic_app by lia.
    destruct (72 - List.length bytes)%nat as [|n] eqn:Hn; [lia|].
    cbn [cyclic]. eexists. split; [reflexivity|]. right. now eexists.
Qed.

Lemma nul_splits_once (a b rest rest' : list ascii) :
  ~ In Ascii.zero a -> ~ In Ascii.zero b ->
  (rest = [] \/ exists more, rest = Ascii.zero :: more) ->
  (rest' = [] \/ exists more, rest' = Ascii.zero :: more) ->
  a ++ rest = b ++ rest' -> a = b.
Proof.
  revert b. induction a as [|c a IH]; intros [|d b] Ha Hb Hr Hr' Heq;
    simpl in *.
  - reflexivity.
  - exfalso. destruct Hr as [->|[more ->]]; [discriminate|].
    injection Heq as <- _. tauto.
  - exfalso. destruct Hr' as [->|[more ->]]; [discriminate|].
    injection Heq as -> _. tauto.
  - injection Heq as -> Heq. f_equal. apply (IH b); tauto.
Qed.

(** Two passwords of at most 72 bytes and without a NUL byte that have the
    same key bytes are the same password. *)
Lemma blowfish_key_injective (p q : string) :
  (String.length p <= 72)%nat -> (String.length q <= 72)%nat ->
  nul_free p -> nul_free q ->
  blowfish_key p = blowfish_key q -> p = q.
Proof.
  intros Hp Hq Hnp Hnq Hkey.
  destruct (blowfish_key_bytes p Hp) as (rest & Hbytes & Hrest).
  destruct (blowfish_key_bytes q Hq) as (rest' & Hbytes' & Hrest').
  rewrite Hkey, Hbytes' in Hbytes.
  rewrite <- (string_of_list_ascii_of_string p),
          <- (string_of_list_ascii_of_string q).
  f_equal. symmetry. exact (nul_splits_once _ _ _ _ Hnq Hnp Hrest' Hrest Hbytes).
Qed.

(** C8, as stated, fails on a long password: a registration with a new
    username and a password of 73 bytes is neither refused with 400 or 409
    nor answered 201.  The digest cannot be computed, the view raises, and
    no user is stored. *)
Lemma long_password_is_not_registered :
  String.length long_password = 73%nat /\
  ~ In "carol" (map User.username (users gym)) /\
  register (body_of "carol" long_password) "salt-c" gym =
    (gym, Unhandled ValueError) /\
  status_code (Unhandled ValueError) = 500.
Proof.
  rewrite gym_contents. repeat split.
  simpl. intros [H|[H|[]]]; discriminate H.
Qed.

(** C8 (amended).  A registration whose JSON body is null, or whose
    username or password is absent, is answered 400 and stores nothing.
    With both present (and non-empty), a username that is already stored is
    answered 409 and stores nothing; a new username with a password of at
    most 72 bytes is answered 201 with the message alone (no token), and
    the users table gains one row holding the username and the digest of
    the password, which verifies that password and (for passwords without
    a NUL byte) no other password of at most 72 bytes; the workouts are
    untouched.  After such a registration, registering the same username
    again, with any password, is answered 409. *)
Theorem register_outcomes
    (s : db) (username password password' salt salt' : string) :
  username <> "" -> password <> "" -> password' <> "" ->
  register None salt s =
    (s, Response 400 (message "Username and password are required")) /\
  (forall data,
      cred_username data = None \/ cred_password data = None ->
      register (Some data) salt s =
        (s, Response 400 (message "Username and password are required"))) /\
  (In username (map User.username (users s)) ->
   register (body_of username password) salt s =
     (s, Response 409 (message "Username already exists"))) /\
  (~ In username (map User.username (users s)) ->
   (String.length password <= 72)%nat ->
   exists new_user s',
     register (body_of username password) salt s =
       (s', Response 201 (message "New user created!")) /\
     users s' = users s ++ [new_user] /\
     workouts s' = workouts s /\
     User.username new_user = username /\
     generate_password_hash salt password = inr (User.password_hash new_user) /\
     User.check_password new_user password = inr true /\
     (forall other,
         other <> password -> (String.length other <= 72)%nat ->
         nul_free password -> nul_free other ->
         User.check_password new_user other = inr false) /\
     json_get "token" (message "New user created!") = None /\
     register (body_of username password') salt' s' =
       (s', Response 409 (message "Username already exists"))).
Proof.
  intros Hu Hp Hp'. split; [reflexivity|]. split; [|split].
  - intros data Habsent. unfold register.
    destruct Habsent as [-> | ->]; simpl; [reflexivity|].
    now destruct (nonempty (cred_username data)).
  - now apply register_taken.
  - intros Hfresh Hlen.
    eexists. eexists. split; [now apply register_new|].
    cbn [users workouts User.username User.password_hash].
    repeat (split; [reflexivity|]). split; [|split; [|split; [|split]]].
    + unfold generate_password_hash. now apply hashpw_short.
    + unfold User.check_password, check_password_hash.
      cbn [User.password_hash bcrypt_salt bcrypt_key].
      rewrite (hashpw_short _ _ Hlen). cbn [bcrypt_key].
      now rewrite String.eqb_refl.
    + intros other Hne Hlen' Hnul Hnul'.
      unfold User.check_password, check_password_hash.
      cbn [User.password_hash bcrypt_salt bcrypt_key].
      rewrite (hashpw_short _ _ Hlen'). cbn [bcrypt_key].
      destruct (String.eqb (blowfish_key other) (blowfish_key password)) eqn:E;
        [|reflexivity].
      apply String.eqb_eq in E.
      now apply blowfish_key_injective in E.
    + reflexivity.
    + apply register_taken; auto. cbn [users]. rewrite map_app, in_app_iff.
      right. simpl. now left.
Qed.

Lemma register_outcomes_witness :
  "carol" <> "" /\ "s3cret" <> "" /\ "other" <> "" /\
  ~ In "carol" (map User.username (users gym)) /\
  (String.length "s3cret" <= 72)%nat /\
  exists new_user s',
    register (body_of "carol" "s3cret") "salt-c" gym =
      (s', Response 201 (message "New user created!")) /\
    users s' = users gym ++ [new_user] /\
    register (body_of "carol" "other") "salt-d" s' =
      (s', Response 409 (message "Username already exists")).
Proof.
  assert (Hc : "carol" <> "") by discriminate.
  assert (Hs : "s3cret" <> "") by discriminate.
  assert (Ho : "other" <> "") by discriminate.
  assert (Hfresh : ~ In "carol" (map User.username (users gym))).
  { rewrite gym_contents. simpl. intros [H|[H|[]]]; discriminate H. }
  assert (Hlen : (String.length "s3cret" <= 72)%nat) by (simpl; lia).
  repeat (split; [assumption|]).
  destruct (register_outcomes gym "carol" "s3cret" "other" "salt-c" "salt-d" Hc Hs Ho)
    as (_ & _ & _ & Hnew).
  destruct (Hnew Hfresh Hlen)
    as (new_user & s' & Hreg & Husers & _ & _ & _ & _ & _ & _ & Hagain).
  exists new_user, s'. repeat split; assumption.
Defined.

(** ** Token verification *)

(** A missing or empty header, and every token that [jwt.decode] refuses or
    that names no user, is answered 401 before the view runs. *)
Lemma token_required_rejects (f : option User.t -> db -> db * result)
    (header : option token) (now : Z) (s : db) :
  (token_given header = None \/
   exists t, token_given header = Some t /\
             (exists e, jwt_decode t SECRET_KEY now = inl e)) ->
  fst (token_required f header now s) = s /\
  status_code (snd (token_required f header now s)) = 401.
Proof.
  unfold token_required. intros [->|(t & -> & e & ->)]; split; reflexivity.
Qed.

(** Refused tokens: a string that is no JWS, a signature under another key,
    and an expiry that is not after the clock. *)
Lemma jwt_decode_refuses (key : string) (payload : claims) (raw : string)
    (exp now : Z) :
  jwt_decode (Raw raw) SECRET_KEY now = inl DecodeError /\
  (key <> SECRET_KEY ->
   jwt_decode (HS256 key payload) SECRET_KEY now = inl InvalidSignatureError) /\
  (claim_exp payload = Some exp -> exp <= timegm now ->
   jwt_decode (HS256 SECRET_KEY payload) SECRET_KEY now = inl ExpiredSignatureError).
Proof.
  split; [reflexivity|]. split.
  - intros Hk. unfold jwt_decode. apply String.eqb_neq in Hk. now rewrite Hk.
  - intros He Hle. unfold jwt_decode. rewrite String.eqb_refl, He. simpl.
    apply Z.leb_le in Hle. now rewrite Hle.
Qed.

(** The token of a successful login names the user, is accepted by the guard
    while the clock is before the expiry (24 hours after the second of
    issuance) and is refused with 401 from the expiry on. *)
Lemma login_token_lifetime (s : db) (auth : option credentials) (issued now : Z)
    (t : token) (f : option User.t -> db -> db * result) :
  db_ok s ->
  login auth issued s = (s, Response 200 (JObj [("token", JToken t)])) ->
  exists user,
    In user (users s) /\
    (now < (timegm issued + 24 * 3600) * microsecond ->
     token_required f (Some t) now s = f (Some user) s) /\
    ((timegm issued + 24 * 3600) * microsecond <= now ->
     fst (token_required f (Some t) now s) = s /\
     status_code (snd (token_required f (Some t) now s)) = 401).
Proof.
  intros Hok. unfold login. destruct auth as [auth|]; [|discriminate].
  destruct (nonempty (cred_username auth)) as [username|]; [|discriminate].
  destruct (nonempty (cred_password auth)) as [password|]; [|discriminate].
  destruct (user_by_username s username) as [user|] eqn:Hf; [|discriminate].
  destruct (User.check_password user password) as [e|[|]]; try discriminate.
  intros H. injection H as <-.
  apply user_by_username_some in Hf. destruct Hf as [Hin _].
  set (expiry := (timegm issued + 24 * 3600) * microsecond).
  assert (Hexp : timegm (issued + timedelta_hours 24) = timegm issued + 24 * 3600).
  { unfold timegm, timedelta_hours, microsecond.
    replace (issued + 24 * 3600 * 1000000) with (issued + (24 * 3600) * 1000000) by lia.
    now rewrite Z.div_add. }
  assert (Hcmp : timegm issued + 24 * 3600 <= timegm now <-> expiry <= now).
  { unfold expiry, timegm, microsecond. split; intros Hle.
    - pose proof (Z.mul_div_le now 1000000). nia.
    - apply Z.div_le_lower_bound; lia. }
  unfold token_required, jwt_encode. cbn [token_given jwt_decode claim_exp].
  rewrite String.eqb_refl, Hexp. cbn [negb].
  exists user. split; [exact Hin|]. split.
  - intros Hlt. destruct (timegm issued + 24 * 3600 <=? timegm now) eqn:E.
    + apply Z.leb_le, Hcmp in E. lia.
    + cbn [claim_user_id].
      now rewrite (user_get_stored s user (user_ids_unique s Hok) Hin).
  - intros Hle. apply Hcmp, Z.leb_le in Hle. now rewrite Hle.
Qed.

(** With a token that decodes but names a user id that is in no row, the
    guard hands [None] to the view, and each view then raises on
    [current_user.id]. *)
Lemma token_required_unknown_user (f : option User.t -> db -> db * result)
    (t : token) (data : claims) (ident now : Z) (s : db) :
  token_given (Some t) = Some t ->
  jwt_decode t SECRET_KEY now = inr data -> claim_user_id data = Some ident ->
  user_get s ident = None ->
  token_required f (Some t) now s = f None s.
Proof.
  intros Hg Hd Hc Hu. unfold token_required. now rewrite Hg, Hd, Hc, Hu.
Qed.

(** C2.  A token signed with the application key, not expired, whose
    user_id 7 is in no row of the users table: the guard does not answer
    401.  It calls the view with no user, the view raises AttributeError,
    and the request ends with status 500; this is so for the list, update
    and delete routes, and for a create whose body is complete. *)
Theorem valid_token_of_missing_user_is_not_rejected :
  jwt_decode (token_of 7) SECRET_KEY 1000 =
    inr {| claim_user_id := Some 7; claim_exp := Some 86400 |} /\
  user_get gym 7 = None /\
  serve (DeleteWorkout (Some (token_of 7)) 1) 1000 gym =
    (gym, Unhandled no_attribute_id) /\
  serve (PutWorkout (Some (token_of 7)) 1 (only_weight_kg 50)) 1000 gym =
    (gym, Unhandled no_attribute_id) /\
  serve (GetWorkouts (Some (token_of 7))
           {| arg_page := None; arg_per_page := None; arg_muscle_group := None |})
        1000 gym = (gym, Unhandled no_attribute_id) /\
  serve (PostWorkout (Some (token_of 7)) (entry "Squat" "Legs" false 5 5 60))
        1000 gym = (gym, Unhandled no_attribute_id) /\
  status_code (Unhandled no_attribute_id) = 500 /\
  status_code (Unhandled no_attribute_id) <> 401.
Proof.
  rewrite gym_contents. repeat split; try (vm_compute; reflexivity).
  vm_compute. discriminate.
Qed.

(** ** Ordering *)

Lemma insert_desc_perm (w : Workout.t) (rows : list Workout.t) :
  Permutation (insert_desc w rows) (w :: rows).
Proof.
  induction rows as [|x rows IH]; simpl; [reflexivity|].
  destruct (Workout.created_at x <=? Workout.created_at w); [reflexivity|].
  rewrite IH. apply perm_swap.
Qed.

Lemma order_by_perm (rows : list Workout.t) :
  Permutation (order_by_created_at_desc rows) rows.
Proof.
  induction rows as [|x rows IH]; simpl; [reflexivity|].
  unfold order_by_created_at_desc in *. simpl.
  rewrite insert_desc_perm. now constructor.
Qed.

Lemma insert_desc_sorted (w : Workout.t) (rows : list Workout.t) :
  StronglySorted desc rows -> StronglySorted desc (insert_desc w rows).
Proof.
  induction 1 as [|x rows Hsorted IH Hall]; simpl.
  - repeat constructor.
  - destruct (Workout.created_at x <=? Workout.created_at w) eqn:E.
    + apply Z.leb_le in E. constructor; [now constructor|].
      constructor; [exact E|]. rewrite Forall_forall in *. intros y Hy.
      specialize (Hall y Hy). unfold desc in *. lia.
    + apply Z.leb_gt in E. constructor; [exact IH|].
      rewrite Forall_forall in *. intros y Hy.
      apply (Permutation_in _ (insert_desc_perm w rows)) in Hy.
      destruct Hy as [<-|Hy]; [unfold desc; lia | now apply Hall].
Qed.

Lemma order_by_sorted (rows : list Workout.t) :
  StronglySorted desc (order_by_created_at_desc rows).
Proof.
  induction rows as [|x rows IH]; simpl; [constructor|].
  now apply insert_desc_sorted.
Qed.

(** A row later than all the others goes to the front. *)
Lemma order_by_newest_last (rows acc : list Workout.t) (w : Workout.t) :
  (forall x, In x rows -> Workout.created_at x < Workout.created_at w) ->
  fold_right insert_desc (w :: acc) rows = w :: fold_right insert_desc acc rows.
Proof.
  induction rows as [|x rows IH]; intros Hlt; simpl; [reflexivity|].
  rewrite IH by (intros y Hy; apply Hlt; now right). simpl.
  assert (Workout.created_at x < Workout.created_at w) by (apply Hlt; now left).
  destruct (Workout.created_at w <=? Workout.created_at x) eqn:E; [|reflexivity].
  apply Z.leb_le in E. lia.
Qed.

Section Slices.

Context {A : Type} (R : A -> A -> Prop).

Lemma StronglySorted_skipn (n : nat) (l : list A) :
  StronglySorted R l -> StronglySorted R (skipn n l).
Proof.
  revert l. induction n as [|n IH]; intros l Hl; simpl; [exact Hl|].
  destruct l as [|a l]; [constructor|]. inversion Hl; subst. now apply IH.
Qed.

Lemma Forall_firstn_of (P : A -> Prop) (n : nat) (l : list A) :
  Forall P l -> Forall P (firstn n l).
Proof.
  revert l. induction n as [|n IH]; intros l Hl; simpl; [constructor|].
  destruct l as [|a l]; [constructor|]. inversion Hl; subst.
  constructor; auto.
Qed.

Lemma Forall_skipn_of (P : A -> Prop) (n : nat) (l : list A) :
  Forall P l -> Forall P (skipn n l).
Proof.
  revert l. induction n as [|n IH]; intros l Hl; simpl; [exact Hl|].
  destruct l as [|a l]; [constructor|]. inversion Hl; subst. now apply IH.
Qed.

Lemma StronglySorted_firstn (n : nat) (l : list A) :
  StronglySorted R l -> StronglySorted R (firstn n l).
Proof.
  revert l. induction n as [|n IH]; intros l Hl; simpl; [constructor|].
  destruct l as [|a l]; [constructor|]. inversion Hl; subst.
  constructor; [now apply IH | now apply Forall_firstn_of].
Qed.

End Slices.

(** ** The listing *)

(** The rows a listing ranges over: the caller's, and of the muscle group
    when a non-empty filter is given. *)
Lemma workouts_query_rows (uid : Z) (muscle_group_filter : option string) (s : db) :
  let rows := workouts_query uid muscle_group_filter s in
  StronglySorted desc rows /\
  Permutation rows
    (filter (fun w =>
               owned_by uid w &&
               match nonempty muscle_group_filter with
               | Some g => String.eqb (Workout.muscle_group w) g
               | None => true
               end) (workouts s)).
Proof.
  unfold workouts_query. split; [apply order_by_sorted|].
  rewrite order_by_perm. unfold owned_by.
  destruct (nonempty muscle_group_filter) as [g|].
  - induction (workouts s) as [|w rows IH]; simpl; [reflexivity|].
    destruct (Workout.user_id w =? uid); simpl; [|exact IH].
    destruct (String.eqb (Workout.muscle_group w) g); [now constructor | exact IH].
  - induction (workouts s) as [|w rows IH]; simpl; [reflexivity|].
    destruct (Workout.user_id w =? uid); simpl; [now constructor | exact IH].
Qed.

Lemma workouts_query_owned (uid : Z) (muscle_group_filter : option string) (s : db) :
  Forall (fun w => Workout.user_id w = uid)
         (workouts_query uid muscle_group_filter s).
Proof.
  destruct (workouts_query_rows uid muscle_group_filter s) as [_ Hperm].
  rewrite Forall_forall. intros w Hw.
  apply (Permutation_in _ Hperm), filter_In in Hw. destruct Hw as [_ Hw].
  apply andb_true_iff in Hw. now apply Z.eqb_eq.
Qed.

Lemma workouts_query_group (uid : Z) (g : string) (s : db) :
  g <> "" ->
  Forall (fun w => Workout.muscle_group w = g) (workouts_query uid (Some g) s).
Proof.
  intros Hg. destruct (workouts_query_rows uid (Some g) s) as [_ Hperm].
  rewrite (nonempty_some _ Hg) in Hperm.
  rewrite Forall_forall. intros w Hw.
  apply (Permutation_in _ Hperm), filter_In in Hw. destruct Hw as [_ Hw].
  apply andb_true_iff in Hw. now apply String.eqb_eq.
Qed.

(** ** Pagination *)

Lemma page_asked_pos (page : option Z) : 1 <= page_asked page.
Proof.
  unfold page_asked. destruct (get page 1 <? 1) eqn:E; [lia|].
  apply Z.ltb_ge in E. lia.
Qed.

Lemma size_asked_pos (per_page : option Z) : 1 <= size_asked per_page.
Proof.
  unfold size_asked. destruct (get per_page 5 <? 1) eqn:E; [lia|].
  apply Z.ltb_ge in E. lia.
Qed.

Lemma bindable_fits (page per_page : option Z) :
  bindable page per_page <->
  fits (size_asked per_page) &&
  fits ((page_asked page - 1) * size_asked per_page) = true.
Proof.
  pose proof (page_asked_pos page). pose proof (size_asked_pos per_page).
  unfold bindable, fits, sqlite_max. rewrite !andb_true_iff, !Z.leb_le.
  split; [|tauto]. intros [H1 H2]. repeat split; try assumption; nia.
Qed.

Lemma paginate_bindable (query : list Workout.t) (page per_page : option Z) :
  bindable page per_page ->
  paginate query (get page 1) (get per_page 5) =
    inr (page_built query (page_asked page) (size_asked per_page)).
Proof.
  intros Hb. apply bindable_fits in Hb. unfold paginate.
  fold (page_asked page). fold (size_asked per_page). now rewrite Hb.
Qed.

Lemma paginate_unbindable (query : list Workout.t) (page per_page : option Z) :
  ~ bindable page per_page ->
  paginate query (get page 1) (get per_page 5) = inl OverflowError.
Proof.
  intros Hb. unfold paginate.
  fold (page_asked page). fold (size_asked per_page).
  destruct (fits (size_asked per_page) &&
            fits ((page_asked page - 1) * size_asked per_page)) eqn:E;
    [|reflexivity].
  now apply bindable_fits in E.
Qed.

Lemma pages_cover (total per_page : Z) :
  0 <= total -> 1 <= per_page ->
  total <= (if total =? 0 then 0 else (total + per_page - 1) / per_page) * per_page.
Proof.
  intros Ht Hp. destruct (total =? 0) eqn:E; [apply Z.eqb_eq in E; lia|].
  pose proof (Z.div_mod (total + per_page - 1) per_page ltac:(lia)) as Hdm.
  pose proof (Z.mod_pos_bound (total + per_page - 1) per_page ltac:(lia)) as Hr.
  nia.
Qed.

(** Past the last page there is nothing. *)
Lemma page_past_the_end (query : list Workout.t) (page size : Z) :
  1 <= page -> 1 <= size ->
  Pagination.pages (page_built query page size) < page ->
  slice page size query = [].
Proof.
  unfold page_built, Pagination.pages, slice.
  cbn [Pagination.per_page Pagination.total]. intros Hpg Hpp Hlt.
  pose proof (pages_cover (Z.of_nat (List.length query)) size ltac:(lia) Hpp)
    as Hcover.
  rewrite skipn_all2; [now rewrite firstn_nil|]. nia.
Qed.

Lemma get_workouts_answer (s : db) (u : User.t) (args : list_args) :
  bindable (arg_page args) (arg_per_page args) ->
  let p := page_built (workouts_query (User.id u) (arg_muscle_group args) s)
                      (page_asked (arg_page args))
                      (size_asked (arg_per_page args)) in
  get_workouts (Some u) args s =
    (s, list_response (Pagination.items p) (Pagination.pages p) (Pagination.page p)
                      (Pagination.has_next p) (Pagination.has_prev p)).
Proof.
  intros Hb p. unfold get_workouts. now rewrite (paginate_bindable _ _ _ Hb).
Qed.

Lemma get_workouts_overflow (s : db) (u : User.t) (args : list_args) :
  ~ bindable (arg_page args) (arg_per_page args) ->
  get_workouts (Some u) args s = (s, Unhandled OverflowError).
Proof.
  intros Hb. unfold get_workouts. now rewrite (paginate_unbindable _ _ _ Hb).
Qed.

Lemma twelve_by_five (query : list Workout.t) :
  List.length query = 12%nat ->
  let first := page_built query 1 5 in
  let third := page_built query 3 5 in
  Pagination.pages first = 3 /\ Pagination.page first = 1 /\
  Pagination.has_prev first = false /\ Pagination.has_next first = true /\
  Pagination.pages third = 3 /\ Pagination.page third = 3 /\
  Pagination.has_prev third = true /\ Pagination.has_next third = false /\
  List.length (Pagination.items third) = 2%nat.
Proof.
  intros Hlen.
  unfold page_built, slice, Pagination.pages, Pagination.has_next,
    Pagination.has_prev.
  cbn [Pagination.items Pagination.page Pagination.per_page Pagination.total].
  rewrite Hlen. repeat split.
  change (Z.to_nat 5) with 5%nat. change (Z.to_nat ((3 - 1) * 5)) with 10%nat.
  rewrite length_firstn, length_skipn, Hlen. reflexivity.
Qed.

(** C6, as stated, fails on a page far out of range.  Alice has one workout,
    so there is one page; page 2 is answered with an empty list, but page
    2^63 is answered with an exception: the offset does not fit the 64 bits
    the store binds. *)
Lemma page_beyond_64_bits_is_an_error :
  get_workouts (Some alice)
    {| arg_page := Some 2; arg_per_page := None; arg_muscle_group := None |} gym =
    (gym, list_response [] 1 2 false true) /\
  get_workouts (Some alice)
    {| arg_page := Some (2 ^ 63); arg_per_page := None;
       arg_muscle_group := None |} gym =
    (gym, Unhandled OverflowError) /\
  status_code (Unhandled OverflowError) = 500.
Proof. rewrite gym_contents. repeat split; vm_compute; reflexivity. Qed.

(** C6 (amended).  Absent [page] and [per_page] are read as 1 and 5.  When
    the page size and the offset [(page - 1) * per_page] fit 64 bits, a
    listing for user [u] answers 200 and leaves the database as it is; the
    items are one page (the run of at most [per_page] rows that starts
    after [(page - 1) * per_page] rows) of the listing, which holds exactly
    the rows of [u] (those whose muscle group is the filter, when a
    non-empty filter is given) ordered by creation time, most recent first;
    a page past the last one has no items.  When they do not fit, the
    listing raises.  With 12 workouts of [u], no filter and per_page = 5
    there are 3 pages: page 1 has no previous and has a next page, page 3
    has 2 items and no next page. *)
Theorem list_workouts_pagination
    (s : db) (u : User.t) (muscle_group_filter : option string)
    (page per_page : option Z) :
  let args := {| arg_page := page; arg_per_page := per_page;
                 arg_muscle_group := muscle_group_filter |} in
  let listing := workouts_query (User.id u) muscle_group_filter s in
  get_workouts (Some u) {| arg_page := None; arg_per_page := None;
                           arg_muscle_group := muscle_group_filter |} s =
    get_workouts (Some u) {| arg_page := Some 1; arg_per_page := Some 5;
                             arg_muscle_group := muscle_group_filter |} s /\
  (bindable page per_page ->
   exists items total_pages has_next has_prev,
      get_workouts (Some u) args s =
        (s, list_response items total_pages (page_asked page) has_next has_prev) /\
      (1 <= get page 1 -> page_asked page = get page 1) /\
      (1 <= get per_page 5 -> size_asked per_page = get per_page 5) /\
      items = slice (page_asked page) (size_asked per_page) listing /\
      Permutation listing
        (filter (fun w =>
                   owned_by (User.id u) w &&
                   match nonempty muscle_group_filter with
                   | Some g => String.eqb (Workout.muscle_group w) g
                   | None => true
                   end) (workouts s)) /\
      StronglySorted desc listing /\
      Forall (fun w => Workout.user_id w = User.id u) items /\
      (forall g, muscle_group_filter = Some g -> g <> "" ->
                 Forall (fun w => Workout.muscle_group w = g) items) /\
      StronglySorted desc items /\
      (total_pages < page_asked page -> items = [])) /\
  (~ bindable page per_page ->
   get_workouts (Some u) args s = (s, Unhandled OverflowError)) /\
  (List.length (filter (owned_by (User.id u)) (workouts s)) = 12%nat ->
   (exists items,
       get_workouts (Some u) {| arg_page := Some 1; arg_per_page := Some 5;
                                arg_muscle_group := None |} s =
         (s, list_response items 3 1 true false)) /\
   (exists items,
       get_workouts (Some u) {| arg_page := Some 3; arg_per_page := Some 5;
                                arg_muscle_group := None |} s =
         (s, list_response items 3 3 false true) /\
       List.length items = 2%nat)).
Proof.
  intros args listing. split; [reflexivity|]. split; [|split].
  - intros Hb.
    set (p := page_built listing (page_asked page) (size_asked per_page)).
    exists (Pagination.items p), (Pagination.pages p),
      (Pagination.has_next p), (Pagination.has_prev p).
    destruct (workouts_query_rows (User.id u) muscle_group_filter s)
      as [Hsorted Hperm].
    split; [exact (get_workouts_answer s u args Hb)|].
    split; [|split; [|split; [reflexivity|]]].
    + intros Hpage. unfold page_asked.
      destruct (get page 1 <? 1) eqn:E; [apply Z.ltb_lt in E; lia | reflexivity].
    + intros Hsize. unfold size_asked.
      destruct (get per_page 5 <? 1) eqn:E; [apply Z.ltb_lt in E; lia | reflexivity].
    + split; [exact Hperm|]. split; [exact Hsorted|].
      cbn [p page_built Pagination.items]. unfold slice.
      split; [|split; [|split]].
      * apply Forall_firstn_of, Forall_skipn_of. apply workouts_query_owned.
      * intros g -> Hg. apply Forall_firstn_of, Forall_skipn_of.
        now apply workouts_query_group.
      * now apply StronglySorted_firstn, StronglySorted_skipn.
      * apply page_past_the_end; [apply page_asked_pos | apply size_asked_pos].
  - exact (get_workouts_overflow s u args).
  - intros Hlen.
    assert (Hq : List.length (workouts_query (User.id u) None s) = 12%nat).
    { unfold workouts_query. cbn [nonempty].
      now rewrite (Permutation_length (order_by_perm _)). }
    destruct (twelve_by_five _ Hq)
      as (H1 & H2 & H3 & H4 & H5 & H6 & H7 & H8 & H9).
    assert (Hb : forall k, k = 1 \/ k = 3 -> bindable (Some k) (Some 5)).
    { intros k [-> | ->]; unfold bindable, sqlite_max; vm_compute;
        split; discriminate. }
    split.
    + eexists. rewrite get_workouts_answer by (apply Hb; now left).
      cbn [arg_page arg_per_page arg_muscle_group].
      change (page_asked (Some 1)) with 1. change (size_asked (Some 5)) with 5.
      now rewrite H1, H2, H3, H4.
    + eexists. rewrite get_workouts_answer by (apply Hb; now right).
      cbn [arg_page arg_per_page arg_muscle_group].
      change (page_asked (Some 3)) with 3. change (size_asked (Some 5)) with 5.
      rewrite H5, H6, H7, H8. split; [reflexivity | exact H9].
Qed.

Lemma list_workouts_pagination_witness :
  List.length (filter (owned_by (User.id alice)) (workouts (squat_log 12))) = 12%nat /\
  (exists items,
      get_workouts (Some alice) {| arg_page := Some 1; arg_per_page := Some 5;
                                   arg_muscle_group := None |} (squat_log 12) =
        (squat_log 12, list_response items 3 1 true false)) /\
  (exists items,
      get_workouts (Some alice) {| arg_page := Some 3; arg_per_page := Some 5;
                                   arg_muscle_group := None |} (squat_log 12) =
        (squat_log 12, list_response items 3 3 false true) /\
      List.length items = 2%nat).
Proof.
  assert (Hlen : List.length (filter (owned_by (User.id alice))
                                (workouts (squat_log 12))) = 12%nat)
    by (vm_compute; reflexivity).
  split; [exact Hlen|].
  exact (proj2 (proj2 (proj2 (list_workouts_pagination
                                (squat_log 12) alice None None None)))
           Hlen).
Defined.

(** ** Create, then list *)

Lemma create_workout_created (s : db) (u : User.t) (data : workout_fields)
    (now : Z) (s' : db) (created : json) :
  create_workout (Some u) data now s = (s', Response 201 created) ->
  exists w,
    s' = {| users := users s; workouts := workouts s ++ [w] |} /\
    created = Workout.to_dict w /\
    Workout.user_id w = User.id u /\ Workout.created_at w = now /\
    Workout.id w = next_id (map Workout.id (workouts s)).
Proof.
  intros Hcreate.
  destruct (create_workout_cases (Some u) data now s)
    as [Hsame|(user & w & Hu & Hid & Hown & Hat & Heq)].
  - exfalso. revert Hcreate Hsame. unfold create_workout.
    destruct (f_exercise_name data), (f_muscle_group data), (f_sets data),
      (f_reps data), (f_weight_kg data), (f_is_cardio data);
      try discriminate.
    match goal with |- context [flush data ?row] =>
      destruct (flush data row) as [e|w] end; [discriminate|].
    intros _ Hsame. cbn [fst] in Hsame.
    apply (f_equal (fun d => List.length (workouts d))) in Hsame.
    cbn [workouts] in Hsame. rewrite length_app in Hsame. simpl in Hsame. lia.
  - injection Hu as <-. rewrite Heq in Hcreate. injection Hcreate as <- <-.
    exists w. auto.
Qed.

(** Every row after a request is the row created by it, or carries the
    creation time of a row that was there before. *)
Lemma serve_created_at (r : request) (now : Z) (s : db) (w : Workout.t) :
  In w (workouts (fst (serve r now s))) ->
  Workout.created_at w = now \/
  exists w0, In w0 (workouts s) /\ Workout.created_at w0 = Workout.created_at w.
Proof.
  destruct (serve_workouts r now s)
    as [->|(user & _ & _ &
            [(x & _ & _ & Hat & ->)|[(x & x' & Hx & _ & _ & _ & Hat & ->)|
                                     (x & _ & _ & ->)]])].
  - intros Hin. right. now exists w.
  - rewrite in_app_iff. simpl. intros [Hin|[<-|[]]]; [right; now exists w | now left].
  - intros Hin. apply store_workout_In in Hin.
    destruct Hin as [->|Hin]; right; [now exists x | now exists w].
  - intros Hin. apply filter_In in Hin. right. exists w. tauto.
Qed.

(** On an advancing clock no stored row is later than the last request, so
    a create served after it is later than every stored row. *)
Lemma served_until_timestamps (t : Z) (s : db) :
  served_until t s ->
  forall w, In w (workouts s) -> Workout.created_at w <= t.
Proof.
  induction 1 as [t|r now t s _ IH Hlt]; intros w Hin; [contradiction|].
  apply serve_created_at in Hin. destruct Hin as [->|(w0 & Hin0 & <-)]; [lia|].
  specialize (IH w0 Hin0). lia.
Qed.

(** C9, as stated, fails when the clock does not advance or the page size
    does not bind.  Alice's bench press was created at clock 1000; a
    deadlift created at the same reading is listed second, after the bench
    press.  And with per_page = 2^63 the list of page 1 raises. *)
Lemma created_workout_is_not_always_first :
  exists s' created,
    create_workout (Some alice) (entry "Deadlift" "Back" false 5 3 100) 1000 gym =
      (s', Response 201 created) /\
    get_workouts (Some alice)
      {| arg_page := Some 1; arg_per_page := None; arg_muscle_group := None |} s' =
      (s', Response 200 (JObj [
         ("workouts", JList [Workout.to_dict bench; created]);
         ("total_pages", JNum (PyInt 1));
         ("current_page", JNum (PyInt 1));
         ("has_next", JBool false);
         ("has_prev", JBool false) ])) /\
    created <> Workout.to_dict bench /\
    get_workouts (Some alice)
      {| arg_page := Some 1; arg_per_page := Some (2 ^ 63);
         arg_muscle_group := None |} s' =
      (s', Unhandled OverflowError).
Proof.
  rewrite gym_contents. eexists. eexists.
  split; [vm_compute; reflexivity|].
  split; [vm_compute; reflexivity|].
  split; [discriminate | vm_compute; reflexivity].
Qed.

(** C9 (amended).  When a create is answered 201 at a clock reading later
    than the creation times of the caller's stored workouts, the list of
    page 1 without a filter, asked right after it with a page size that
    fits 64 bits, answers 200 with the created workout as its first item,
    serialized exactly as in the answer to the create. *)
Theorem create_then_list_returns_created_first
    (s s' : db) (u : User.t) (data : workout_fields) (now : Z) (created : json)
    (page per_page : option Z) :
  (forall w, In w (workouts s) -> Workout.user_id w = User.id u ->
             Workout.created_at w < now) ->
  size_asked per_page <= sqlite_max ->
  create_workout (Some u) data now s = (s', Response 201 created) ->
  get page 1 = 1 ->
  exists rest total_pages has_next,
    get_workouts (Some u) {| arg_page := page; arg_per_page := per_page;
                             arg_muscle_group := None |} s' =
      (s', Response 200 (JObj [
         ("workouts", JList (created :: rest));
         ("total_pages", JNum (PyInt total_pages));
         ("current_page", JNum (PyInt 1));
         ("has_next", JBool has_next);
         ("has_prev", JBool false) ])).
Proof.
  intros Hclock Hsize Hcreate Hpage.
  destruct (create_workout_created _ _ _ _ _ _ Hcreate)
    as (w & -> & -> & Hown & Hat & _).
  assert (Hone : page_asked page = 1) by (unfold page_asked; now rewrite Hpage).
  assert (Hb : bindable page per_page).
  { unfold bindable. rewrite Hone. split; [exact Hsize|].
    unfold sqlite_max. lia. }
  rewrite (get_workouts_answer _ u
             {| arg_page := page; arg_per_page := per_page;
                arg_muscle_group := None |} Hb).
  cbn [arg_page arg_per_page arg_muscle_group]. rewrite Hone.
  assert (Hq : exists older,
             workouts_query (User.id u) None
               {| users := users s; workouts := workouts s ++ [w] |} = w :: older).
  { unfold workouts_query. cbn [nonempty workouts].
    rewrite filter_app. simpl. rewrite Hown, Z.eqb_refl.
    unfold order_by_created_at_desc. rewrite fold_right_app. simpl.
    eexists. apply order_by_newest_last.
    intros x Hx. apply filter_In in Hx. destruct Hx as [Hx Hu].
    apply Z.eqb_eq in Hu. rewrite Hat. now apply Hclock. }
  destruct Hq as [older ->].
  unfold page_built, slice, list_response, Pagination.has_prev.
  cbn [Pagination.items Pagination.page Pagination.per_page Pagination.total].
  change (1 <? 1) with false.
  pose proof (size_asked_pos per_page) as Hpos.
  assert (Hsucc : exists n, Z.to_nat (size_asked per_page) = S n).
  { exists (Nat.pred (Z.to_nat (size_asked per_page))). lia. }
  destruct Hsucc as [n Hn].
  change (Z.to_nat ((1 - 1) * size_asked per_page))
    with (Z.to_nat (0 * size_asked per_page)).
  rewrite Z.mul_0_l. change (Z.to_nat 0) with 0%nat. rewrite Hn. simpl firstn.
  simpl map. do 3 eexists. reflexivity.
Qed.

Lemma create_then_list_returns_created_first_witness :
  (forall w, In w (workouts gym) -> Workout.user_id w = User.id alice ->
             Workout.created_at w < 3000) /\
  size_asked None <= sqlite_max /\
  exists s' created rest total_pages has_next,
    create_workout (Some alice) (entry "Deadlift" "Back" false 5 3 100) 3000 gym =
      (s', Response 201 created) /\
    get_workouts (Some alice)
      {| arg_page := None; arg_per_page := None; arg_muscle_group := None |} s' =
      (s', Response 200 (JObj [
         ("workouts", JList (created :: rest));
         ("total_pages", JNum (PyInt total_pages));
         ("current_page", JNum (PyInt 1));
         ("has_next", JBool has_next);
         ("has_prev", JBool false) ])).
Proof.
  assert (Hclock : forall w, In w (workouts gym) ->
                             Workout.user_id w = User.id alice ->
                             Workout.created_at w < 3000).
  { rewrite gym_contents. simpl. intros w [<-|[<-|[]]] _; simpl; lia. }
  assert (Hsize : size_asked None <= sqlite_max) by (vm_compute; discriminate).
  split; [exact Hclock|]. split; [exact Hsize|].
  assert (Hcreate : exists s' created,
             create_workout (Some alice) (entry "Deadlift" "Back" false 5 3 100)
               3000 gym = (s', Response 201 created)).
  { rewrite gym_contents. eexists. eexists. vm_compute. reflexivity. }
  destruct Hcreate as (s' & created & Hcreate).
  destruct (create_then_list_returns_created_first
              gym s' alice _ 3000 created None None Hclock Hsize Hcreate eq_refl)
    as (rest & total_pages & has_next & Hlist).
  exists s', created, rest, total_pages, has_next. split; assumption.
Defined.

(** * Further properties of the routes *)

(** ** Runs *)

Lemma run_db_ok (requests : list (request * Z)) (s : db) :
  db_ok s -> db_ok (run requests s).
Proof.
  revert s. induction requests as [|[r now] rest IH]; intros s Hs; simpl; auto.
  apply IH. now apply serve_db_ok.
Qed.

Lemma run_users_grow (requests : list (request * Z)) (s : db) :
  exists added, users (run requests s) = users s ++ added.
Proof.
  revert s. induction requests as [|[r now] rest IH]; intros s; simpl.
  - exists []. now rewrite app_nil_r.
  - destruct (IH (fst (serve r now s))) as [added2 ->].
    destruct (serve_users_grow r now s) as [added1 ->].
    exists (added1 ++ added2). now rewrite app_assoc.
Qed.

Lemma find_app_found {A : Type} (p : A -> bool) (l l' : list A) (a : A) :
  find p l = Some a -> find p (l ++ l') = Some a.
Proof.
  induction l as [|x l IH]; simpl; [discriminate|].
  destruct (p x); auto.
Qed.

Lemma user_by_username_kept (requests : list (request * Z)) (s : db)
    (name : string) (u : User.t) :
  user_by_username s name = Some u ->
  user_by_username (run requests s) name = Some u.
Proof.
  intros Hf. unfold user_by_username in *.
  destruct (run_users_grow requests s) as [added ->]. now apply find_app_found.
Qed.

(** ** Integrity *)

(** X1.  In every database the application can build from an empty one,
    user ids, usernames and workout ids are unique, and the owner of every
    workout is a stored user that [User.query.get] finds. *)
Theorem reachable_database_integrity (s : db) :
  reachable s ->
  NoDup (map User.id (users s)) /\
  NoDup (map User.username (users s)) /\
  NoDup (map Workout.id (workouts s)) /\
  (forall w, In w (workouts s) ->
             exists u, user_get s (Workout.user_id w) = Some u /\ In u (users s)).
Proof.
  intros Hr. destruct (reachable_db_ok s Hr) as [Hu Hn Hw Ho].
  repeat split; auto. intros w Hin. apply Ho, in_map_iff in Hin.
  destruct Hin as (u & Hid & Hin). exists u. split; [|exact Hin].
  rewrite <- Hid. now apply user_get_stored.
Qed.

Lemma reachable_database_integrity_witness :
  reachable gym /\
  NoDup (map Workout.id (workouts gym)) /\
  exists u, user_get gym (Workout.user_id treadmill) = Some u /\ In u (users gym).
Proof.
  assert (Hr : reachable gym) by (apply run_reachable; constructor).
  split; [exact Hr|].
  destruct (reachable_database_integrity gym Hr) as (_ & _ & Hw & Ho).
  split; [exact Hw|]. apply Ho. rewrite gym_contents. simpl. tauto.
Defined.

(** ** The guard *)

Lemma token_required_authenticated (f : option User.t -> db -> db * result)
    (header : option token) (now ident : Z) (s : db) :
  authenticated header now = Some ident ->
  token_required f header now s = f (user_get s ident) s.
Proof.
  unfold authenticated, token_required.
  destruct (token_given header) as [t|]; [|discriminate].
  destruct (jwt_decode t SECRET_KEY now) as [e|data]; [discriminate|].
  now intros ->.
Qed.

Lemma token_required_unauthenticated (f : option User.t -> db -> db * result)
    (header : option token) (now : Z) (s : db) :
  authenticated header now = None ->
  exists body, token_required f header now s = (s, Response 401 body).
Proof.
  unfold authenticated, token_required.
  destruct (token_given header) as [t|]; [|eexists; reflexivity].
  destruct (jwt_decode t SECRET_KEY now) as [e|data]; [eexists; reflexivity|].
  intros ->. eexists; reflexivity.
Qed.

Lemma serve_guarded (r : request) (header : option token) (now : Z) (s : db) :
  guarded r = Some header ->
  exists f, serve r now s = token_required f header now s /\
            forall u, f u s = match r with
                              | PostWorkout _ data => create_workout u data now s
                              | GetWorkouts _ args => get_workouts u args s
                              | PutWorkout _ wid data => update_workout u wid data s
                              | DeleteWorkout _ wid => delete_workout u wid s
                              | _ => (s, index)
                              end.
Proof.
  destruct r; simpl; intros H; try discriminate H; injection H as <-;
    eexists; split; reflexivity.
Qed.

(** X2.  The four workout routes fail closed.  When the [x-access-token]
    header is missing, is a string that is no well-formed token (the empty
    string included), is signed with another key, has expired, or carries
    no [user_id], the request is answered 401 and the database is left as
    it is, whatever the route and its arguments. *)
Theorem guarded_routes_fail_closed
    (r : request) (header : option token) (now : Z) (s : db) :
  guarded r = Some header ->
  (header = None \/
   (exists raw, header = Some (Raw raw)) \/
   (exists key payload, header = Some (HS256 key payload) /\
      (key <> SECRET_KEY \/
       (exists exp, claim_exp payload = Some exp /\ exp <= timegm now) \/
       claim_user_id payload = None))) ->
  exists body, serve r now s = (s, Response 401 body).
Proof.
  intros Hg Hbad. destruct (serve_guarded r header now s Hg) as (f & -> & _).
  apply token_required_unauthenticated. unfold authenticated.
  destruct Hbad as [->|[[raw ->]|(key & payload & -> & Hwhy)]];
    try reflexivity.
  - destruct raw; reflexivity.
  - cbn [token_given jwt_decode].
    destruct (String.eqb key SECRET_KEY) eqn:Hk; [|reflexivity]. cbn [negb].
    destruct Hwhy as [Hne|[(exp & -> & Hle)|Hnone]].
    + apply String.eqb_eq in Hk. contradiction.
    + apply Z.leb_le in Hle. now rewrite Hle.
    + destruct (claim_exp payload) as [exp|]; [|exact Hnone].
      now destruct (exp <=? timegm now).
Qed.

Lemma guarded_routes_fail_closed_witness :
  guarded (DeleteWorkout (Some (HS256 "guessed-key"
             {| claim_user_id := Some 1; claim_exp := None |})) 1) =
    Some (Some (HS256 "guessed-key" {| claim_user_id := Some 1; claim_exp := None |})) /\
  exists body,
    serve (DeleteWorkout (Some (HS256 "guessed-key"
             {| claim_user_id := Some 1; claim_exp := None |})) 1) 1000 gym =
      (gym, Response 401 body).
Proof.
  split; [reflexivity|].
  apply (guarded_routes_fail_closed
           (DeleteWorkout (Some (HS256 "guessed-key"
              {| claim_user_id := Some 1; claim_exp := None |})) 1)
           (Some (HS256 "guessed-key" {| claim_user_id := Some 1; claim_exp := None |}))
           1000 gym eq_refl).
  right. right. eexists. eexists. split; [reflexivity|].
  left. discriminate.
Defined.

(** ** Tokens of a login *)

Lemma nonempty_given (v : option string) (x : string) :
  nonempty v = Some x -> v = Some x /\ x <> "".
Proof.
  destruct v as [[|c v]|]; simpl; intros H; try discriminate H.
  injection H as <-. split; [reflexivity | discriminate].
Qed.

(** A login that hands out a token found the user under the name of the
    credentials, checked the password against that user, and signed that
    user's id. *)
Lemma login_success (s : db) (auth : option credentials) (issued : Z) (t : token) :
  login auth issued s = (s, token_response t) ->
  exists creds user password,
    auth = Some creds /\
    cred_username creds = Some (User.username user) /\
    cred_password creds = Some password /\
    user_by_username s (User.username user) = Some user /\
    User.check_password user password = inr true /\
    t = jwt_encode (User.id user) (issued + timedelta_hours 24) SECRET_KEY.
Proof.
  unfold login, token_response. destruct auth as [auth|]; [|discriminate].
  destruct (nonempty (cred_username auth)) as [username|] eqn:Hu; [|discriminate].
  destruct (nonempty (cred_password auth)) as [password|] eqn:Hp; [|discriminate].
  destruct (user_by_username s username) as [user|] eqn:Hf; [|discriminate].
  destruct (User.check_password user password) as [e|[|]] eqn:Hc;
    try discriminate.
  intros H. injection H as <-.
  destruct (user_by_username_some _ _ _ Hf) as [_ Hname]. subst username.
  exists auth, user, password.
  split; [reflexivity|]. split; [exact (proj1 (nonempty_given _ _ Hu))|].
  split; [exact (proj1 (nonempty_given _ _ Hp))|]. auto.
Qed.

Lemma timegm_expiry (issued : Z) :
  timegm (issued + timedelta_hours 24) = timegm issued + 24 * 3600.
Proof.
  unfold timegm, timedelta_hours, microsecond.
  replace (issued + 24 * 3600 * 1000000) with (issued + (24 * 3600) * 1000000) by lia.
  now rewrite Z.div_add.
Qed.

Lemma timegm_le (seconds now : Z) :
  seconds <= timegm now <-> seconds * microsecond <= now.
Proof.
  unfold timegm, microsecond. split; intros Hle.
  - pose proof (Z.mul_div_le now 1000000). nia.
  - apply Z.div_le_lower_bound; lia.
Qed.

(** X3.  The token of a successful login stays good through later requests.
    The login succeeded for the credentials of one user: the stored user
    with the username of the body, against whom the password of the body
    checks, and who stays the only user of that name.  After any further
    requests, and until 24 hours after the second of issuance, the guard
    accepts the token and hands the view that very user; from that moment
    on it answers 401 and changes nothing. *)
Theorem login_token_accepted_until_expiry
    (s : db) (auth : option credentials) (issued now : Z) (t : token)
    (later : list (request * Z)) (f : option User.t -> db -> db * result) :
  db_ok s ->
  login auth issued s = (s, token_response t) ->
  exists creds user password,
    auth = Some creds /\
    cred_username creds = Some (User.username user) /\
    cred_password creds = Some password /\
    In user (users s) /\
    User.check_password user password = inr true /\
    (forall other, In other (users (run later s)) ->
                   User.username other = User.username user -> other = user) /\
    (now < (timegm issued + 24 * 3600) * microsecond ->
     token_required f (Some t) now (run later s) = f (Some user) (run later s)) /\
    ((timegm issued + 24 * 3600) * microsecond <= now ->
     exists body,
       token_required f (Some t) now (run later s) = (run later s, Response 401 body)).
Proof.
  intros Hok Hlogin.
  destruct (login_success _ _ _ _ Hlogin)
    as (creds & user & password & Hauth & Hname & Hpw & Hf & Hcheck & ->).
  destruct (user_by_username_some _ _ _ Hf) as [Hin _].
  exists creds, user, password.
  split; [exact Hauth|]. split; [exact Hname|]. split; [exact Hpw|].
  split; [exact Hin|]. split; [exact Hcheck|].
  assert (Hin' : In user (users (run later s))).
  { destruct (run_users_grow later s) as [added ->]. apply in_app_iff. now left. }
  pose proof (run_db_ok later s Hok) as Hok'.
  pose proof (user_ids_unique _ Hok') as Hnd.
  split; [|split].
  - intros other Hother Hsame.
    exact (key_injective User.username _ other user
             (usernames_unique _ Hok') Hother Hin' Hsame).
  - intros Hlt. rewrite (token_required_authenticated _ _ _ (User.id user)).
    + now rewrite (user_get_stored _ user Hnd Hin').
    + unfold authenticated, jwt_encode. cbn [token_given jwt_decode claim_exp].
      rewrite String.eqb_refl, timegm_expiry. cbn [negb].
      destruct (timegm issued + 24 * 3600 <=? timegm now) eqn:E; [|reflexivity].
      apply Z.leb_le, timegm_le in E. lia.
  - intros Hle. apply token_required_unauthenticated.
    unfold authenticated, jwt_encode. cbn [token_given jwt_decode claim_exp].
    rewrite String.eqb_refl, timegm_expiry. cbn [negb].
    apply timegm_le, Z.leb_le in Hle. now rewrite Hle.
Qed.

Lemma login_token_accepted_until_expiry_witness :
  db_ok gym /\
  login (body_of "bob" "hunter2") 0 gym = (gym, token_response (token_of 2)) /\
  exists user,
    User.username user = "bob" /\
    In user (users gym) /\
    token_required (fun u => delete_workout u 2) (Some (token_of 2)) 5000
      (run [(PostRegister (body_of "carol" "s3cret") "salt-c", 4000)] gym) =
    delete_workout (Some user) 2
      (run [(PostRegister (body_of "carol" "s3cret") "salt-c", 4000)] gym).
Proof.
  assert (Hlogin : login (body_of "bob" "hunter2") 0 gym =
                     (gym, token_response (token_of 2)))
    by (rewrite gym_contents; vm_compute; reflexivity).
  split; [exact gym_ok|]. split; [exact Hlogin|].
  destruct (login_token_accepted_until_expiry
              gym _ 0 5000 (token_of 2)
              [(PostRegister (body_of "carol" "s3cret") "salt-c", 4000)]
              (fun u => delete_workout u 2) gym_ok Hlogin)
    as (creds & user & password & Hauth & Hname & _ & Hin & _ & _ & Hbefore & _).
  exists user. injection Hauth as <-. injection Hname as Hname.
  split; [now symmetry|]. split; [exact Hin|].
  apply Hbefore. vm_compute. reflexivity.
Defined.

(** ** Register, then log in *)

Lemma find_app_new {A : Type} (p : A -> bool) (l : list A) (a : A) :
  find p l = None -> p a = true -> find p (l ++ [a]) = Some a.
Proof.
  induction l as [|x l IH]; simpl; intros Hf Hp; [now rewrite Hp|].
  destruct (p x); [discriminate | auto].
Qed.

(** X4.  After a registration answered 201 for a password of at most 72
    bytes, a login with the same username and password, at any time,
    answers 200 with a token that carries the id given to the new user and
    expires 24 hours later; a login with the same username and any other
    non-empty password of at most 72 bytes answers 401 "Wrong password",
    both passwords being without a NUL byte (the digest reads the password
    as a NUL-terminated key that it repeats, so passwords with NUL bytes
    can share a digest).  Neither login changes the database. *)
Theorem register_then_login
    (s s' : db) (username password other salt : string) (now : Z) :
  other <> "" -> other <> password ->
  (String.length password <= 72)%nat -> (String.length other <= 72)%nat ->
  nul_free password -> nul_free other ->
  register (body_of username password) salt s =
    (s', Response 201 (message "New user created!")) ->
  login (body_of username password) now s' =
    (s', token_response
           (HS256 SECRET_KEY
              {| claim_user_id := Some (next_id (map User.id (users s)));
                 claim_exp := Some (timegm now + 24 * 3600) |})) /\
  login (body_of username other) now s' =
    (s', Response 401 (message "Wrong password")).
Proof.
  intros Ho Hne Hshort Hshort' Hnul Hnul'. unfold register, body_of.
  cbn [cred_username cred_password].
  destruct (nonempty (Some username)) as [un|] eqn:Hun; [|discriminate].
  destruct (nonempty (Some password)) as [pw|] eqn:Hpw; [|discriminate].
  assert (un = username) by (destruct username; [discriminate|]; now injection Hun).
  assert (pw = password) by (destruct password; [discriminate|]; now injection Hpw).
  subst un pw.
  destruct (user_by_username s username) as [u|] eqn:Hf; [discriminate|].
  unfold User.init, generate_password_hash.
  rewrite (hashpw_short _ _ Hshort).
  intros H. injection H as <-.
  set (new_user := User.mk (next_id (map User.id (users s))) username
                     (Bcrypt salt (blowfish_key password))).
  assert (Hfound : user_by_username
                     {| users := users s ++ [new_user]; workouts := workouts s |}
                     username = Some new_user).
  { unfold user_by_username. cbn [users].
    apply find_app_new; [exact Hf | apply String.eqb_refl]. }
  unfold login. cbn [cred_username cred_password].
  rewrite Hun, Hpw, (nonempty_some _ Ho), Hfound.
  unfold User.check_password, check_password_hash, new_user.
  cbn [User.password_hash User.id bcrypt_key bcrypt_salt].
  rewrite (hashpw_short _ _ Hshort), (hashpw_short _ _ Hshort').
  cbn [bcrypt_key].
  split.
  - rewrite String.eqb_refl. unfold token_response, jsonify, jwt_encode.
    now rewrite timegm_expiry.
  - destruct (String.eqb (blowfish_key other) (blowfish_key password)) eqn:E;
      [|reflexivity].
    apply String.eqb_eq in E.
    now apply blowfish_key_injective in E.
Qed.

Lemma register_then_login_witness :
  "guess" <> "" /\ "guess" <> "s3cret" /\
  (String.length "s3cret" <= 72)%nat /\ (String.length "guess" <= 72)%nat /\
  nul_free "s3cret" /\ nul_free "guess" /\
  exists s',
    register (body_of "carol" "s3cret") "salt-c" gym =
      (s', Response 201 (message "New user created!")) /\
    login (body_of "carol" "s3cret") 7000000 s' =
      (s', token_response
             (HS256 SECRET_KEY
                {| claim_user_id := Some 3; claim_exp := Some 86407 |})) /\
    login (body_of "carol" "guess") 7000000 s' =
      (s', Response 401 (message "Wrong password")).
Proof.
  assert (H1 : "guess" <> "") by discriminate.
  assert (H2 : "guess" <> "s3cret") by discriminate.
  assert (H3 : (String.length "s3cret" <= 72)%nat) by (vm_compute; lia).
  assert (H4 : (String.length "guess" <= 72)%nat) by (vm_compute; lia).
  assert (H5 : nul_free "s3cret").
  { unfold nul_free. simpl. intros H. repeat destruct H as [H|H]; discriminate H || exact H. }
  assert (H6 : nul_free "guess").
  { unfold nul_free. simpl. intros H. repeat destruct H as [H|H]; discriminate H || exact H. }
  split; [exact H1|]. split; [exact H2|]. split; [exact H3|]. split; [exact H4|].
  split; [exact H5|]. split; [exact H6|].
  assert (Hreg : exists s', register (body_of "carol" "s3cret") "salt-c" gym =
                              (s', Response 201 (message "New user created!")))
    by (rewrite gym_contents; eexists; vm_compute; reflexivity).
  destruct Hreg as [s' Hreg]. exists s'. split; [exact Hreg|].
  pose proof (register_then_login gym s' "carol" "s3cret" "guess" "salt-c"
                7000000 H1 H2 H3 H4 H5 H6 Hreg) as Hlogin.
  rewrite gym_contents in Hlogin. exact Hlogin.
Defined.

(** X5.  No request takes a login away: when a login succeeds against a
    database, the same credentials get the same answer after any further
    requests, because no route removes or rewrites a stored user. *)
Theorem login_survives_later_requests
    (s : db) (auth : option credentials) (now : Z) (t : token)
    (later : list (request * Z)) :
  login auth now s = (s, token_response t) ->
  login auth now (run later s) = (run later s, token_response t).
Proof.
  unfold login, token_response. destruct auth as [auth|]; [|discriminate].
  destruct (nonempty (cred_username auth)) as [username|]; [|discriminate].
  destruct (nonempty (cred_password auth)) as [password|]; [|discriminate].
  destruct (user_by_username s username) as [user|] eqn:Hf; [|discriminate].
  rewrite (user_by_username_kept later s username user Hf).
  destruct (User.check_password user password) as [e|[|]]; try discriminate.
  intros H. now injection H as <-.
Qed.

Lemma login_survives_later_requests_witness :
  login (body_of "alice" "correct horse") 0 gym = (gym, token_response (token_of 1)) /\
  snd (login (body_of "alice" "correct horse") 0
         (run [(DeleteWorkout (Some (token_of 1)) 1, 3000);
               (PostRegister (body_of "carol" "s3cret") "salt-c", 4000)] gym)) =
    token_response (token_of 1).
Proof.
  assert (Hlogin : login (body_of "alice" "correct horse") 0 gym =
                     (gym, token_response (token_of 1)))
    by (rewrite gym_contents; vm_compute; reflexivity).
  split; [exact Hlogin|].
  now rewrite (login_survives_later_requests gym _ 0 (token_of 1) _ Hlogin).
Defined.

(** ** Create *)

(** X6.  A create whose body lacks any of the six required keys is answered
    400 and stores nothing, whoever the caller is.  With all six present
    and values the store can hold (sets and reps within 64 bits, a weight
    that is not a NaN), a create for user [u] answers 201 with the
    serialized new row and appends exactly that row: its id is new and
    larger than every stored id, it is owned by [u], carries the values of
    the body (the weight as the REAL column holds it: -0.0 is kept as 0.0)
    and the clock reading as creation time; the users table is untouched.
    With a value the store cannot hold the create raises and stores
    nothing. *)
Theorem create_workout_outcomes
    (s : db) (u : User.t) (data : workout_fields) (now : Z) :
  ((f_exercise_name data = None \/ f_muscle_group data = None \/
    f_sets data = None \/ f_reps data = None \/
    f_weight_kg data = None \/ f_is_cardio data = None) ->
   forall current_user,
     create_workout current_user data now s =
       (s, Response 400 (message "Missing required fields"))) /\
  (forall exercise_name muscle_group is_cardio sets reps weight_kg,
      data = entry exercise_name muscle_group is_cardio sets reps weight_kg ->
      (int64 sets /\ int64 reps /\ PrimFloat.is_nan weight_kg = false ->
       exists new_id,
         create_workout (Some u) data now s =
           ({| users := users s;
               workouts := workouts s ++
                 [Workout.mk new_id (User.id u) exercise_name muscle_group
                             is_cardio sets reps (real_column weight_kg) now] |},
            Response 201
              (Workout.to_dict
                 (Workout.mk new_id (User.id u) exercise_name muscle_group
                             is_cardio sets reps (real_column weight_kg) now))) /\
         (forall w, In w (workouts s) -> Workout.id w < new_id) /\
         (PrimFloat.is_zero weight_kg = false ->
          real_column weight_kg = weight_kg)) /\
      (~ (int64 sets /\ int64 reps /\ PrimFloat.is_nan weight_kg = false) ->
       exists e,
         create_workout (Some u) data now s = (s, Unhandled e) /\
         status_code (Unhandled e) = 500)).
Proof.
  split.
  - intros Hmissing current_user. unfold create_workout.
    destruct (f_exercise_name data), (f_muscle_group data), (f_sets data),
      (f_reps data), (f_weight_kg data), (f_is_cardio data);
      try reflexivity.
    destruct Hmissing as [H|[H|[H|[H|[H|H]]]]]; discriminate H.
  - intros exercise_name muscle_group is_cardio sets reps weight_kg ->.
    assert (Hst : storable (entry exercise_name muscle_group is_cardio
                              sets reps weight_kg) <->
                  int64 sets /\ int64 reps /\ PrimFloat.is_nan weight_kg = false).
    { unfold storable, entry. cbn [f_sets f_reps f_weight_kg]. split.
      - intros (Hs & Hr & Hw). auto.
      - intros (Hs & Hr & Hw). split; [|split]; intros v Hv;
          injection Hv as <-; assumption. }
    split.
    + intros Hfit. apply Hst in Hfit.
      exists (next_id (map Workout.id (workouts s))).
      split; [|split].
      * unfold create_workout. cbn [entry f_exercise_name f_muscle_group f_sets
                                     f_reps f_weight_kg f_is_cardio].
        fold (entry exercise_name muscle_group is_cardio sets reps weight_kg).
        now rewrite (storable_flush _ _ Hfit).
      * intros w Hin. unfold next_id.
        pose proof (max_id_bound (map Workout.id (workouts s)) (Workout.id w)
                      (in_map _ _ _ Hin)). lia.
      * unfold real_column. now intros ->.
    + intros Hbad. unfold create_workout.
      cbn [entry f_exercise_name f_muscle_group f_sets
             f_reps f_weight_kg f_is_cardio].
      fold (entry exercise_name muscle_group is_cardio sets reps weight_kg).
      match goal with |- context [flush ?d ?row] =>
        destruct (unstorable_flush d row) as [e ->] end.
      * intros Hfit. apply Hbad. now apply Hst.
      * exists e. split; reflexivity.
Qed.

Lemma create_workout_outcomes_witness :
  create_workout None (only_weight_kg 50) 3000 gym =
    (gym, Response 400 (message "Missing required fields")) /\
  (exists new_id s' body,
      create_workout (Some alice) (entry "Deadlift" "Back" false 5 3 100) 3000 gym =
        (s', Response 201 body) /\
      json_get "id" body = Some (JNum (PyInt new_id)) /\
      Workout.id bench < new_id /\ Workout.id treadmill < new_id) /\
  (exists e,
      create_workout (Some alice) (entry "Deadlift" "Back" false (2 ^ 63) 3 100)
        3000 gym = (gym, Unhandled e)).
Proof.
  destruct (create_workout_outcomes gym alice (only_weight_kg 50) 3000)
    as [Hmissing _].
  split; [apply Hmissing; now left|]. split.
  - destruct (create_workout_outcomes gym alice
                (entry "Deadlift" "Back" false 5 3 100) 3000) as [_ Hfull].
    destruct (Hfull _ _ _ _ _ _ eq_refl) as [Hgood _].
    destruct Hgood as (new_id & Hcreate & Hfresh & _).
    { unfold int64. repeat split; try lia; try reflexivity. }
    exists new_id. eexists. eexists. split; [exact Hcreate|].
    split; [reflexivity|].
    split; apply Hfresh; rewrite gym_contents; simpl; tauto.
  - destruct (create_workout_outcomes gym alice
                (entry "Deadlift" "Back" false (2 ^ 63) 3 100) 3000) as [_ Hfull].
    destruct (Hfull _ _ _ _ _ _ eq_refl) as [_ Hbad].
    destruct Hbad as (e & Hcreate & _).
    { unfold int64. intros [[_ H] _]. revert H. vm_compute. intros H. now apply H. }
    exists e. exact Hcreate.
Defined.

(** ** Update and delete, composed *)

Lemma get_idempotent {A : Type} (field : option A) (stored : A) :
  get field (get field stored) = get field stored.
Proof. now destruct field. Qed.

Lemma apply_fields_idempotent (data : workout_fields) (w : Workout.t) :
  apply_fields data (apply_fields data w) = apply_fields data w.
Proof. unfold apply_fields. simpl. now rewrite !get_idempotent. Qed.

Lemma apply_fields_empty (w : Workout.t) : apply_fields empty_body w = w.
Proof. now destruct w. Qed.

Lemma store_workout_twice (w' : Workout.t) (rows : list Workout.t) :
  store_workout w' (store_workout w' rows) = store_workout w' rows.
Proof.
  unfold store_workout. rewrite map_map. apply map_ext. intros x.
  destruct (Workout.id x =? Workout.id w') eqn:E; [|now rewrite E].
  now rewrite Z.eqb_refl.
Qed.

Lemma store_workout_same (w : Workout.t) (rows : list Workout.t) :
  NoDup (map Workout.id rows) -> In w rows -> store_workout w rows = rows.
Proof.
  intros Hnd Hin. unfold store_workout. rewrite <- (map_id rows) at 2.
  apply map_ext_in. intros x Hx.
  destruct (Workout.id x =? Workout.id w) eqn:E; [|reflexivity].
  apply Z.eqb_eq in E. symmetry. now apply (key_injective Workout.id rows).
Qed.

Lemma db_eta (s : db) : {| users := users s; workouts := workouts s |} = s.
Proof. now destruct s. Qed.

(** X7.  An update with an empty body changes nothing: for a workout of the
    caller it answers 200 with the stored record and leaves the database
    exactly as it was. *)
Theorem update_with_empty_body_changes_nothing
    (s : db) (u : User.t) (workout_id : Z) (w : Workout.t) :
  db_ok s -> workout_owned s workout_id (User.id u) = Some w ->
  update_workout (Some u) workout_id empty_body s =
    (s, Response 200 (Workout.to_dict w)).
Proof.
  intros Hok Hf.
  rewrite (update_workout_found _ _ _ _ w w Hf)
    by (now rewrite apply_fields_empty).
  rewrite store_workout_same, db_eta; auto.
  - now apply workout_ids_unique.
  - now apply workout_owned_some in Hf.
Qed.

Lemma update_with_empty_body_changes_nothing_witness :
  db_ok gym /\ workout_owned gym 1 (User.id alice) = Some bench /\
  update_workout (Some alice) 1 empty_body gym =
    (gym, Response 200 (Workout.to_dict bench)).
Proof.
  assert (Hf : workout_owned gym 1 (User.id alice) = Some bench)
    by (vm_compute; reflexivity).
  split; [exact gym_ok|]. split; [exact Hf|].
  exact (update_with_empty_body_changes_nothing gym alice 1 bench gym_ok Hf).
Defined.

Lemma workout_owned_after_update (s : db) (uid workout_id : Z)
    (w w' : Workout.t) :
  db_ok s -> workout_owned s workout_id uid = Some w ->
  Workout.id w' = Workout.id w -> Workout.user_id w' = Workout.user_id w ->
  workout_owned {| users := users s; workouts := store_workout w' (workouts s) |}
                workout_id uid = Some w'.
Proof.
  intros Hok Hf Hid Hown.
  destruct (workout_owned_some _ _ _ _ Hf) as (Hin & Hwid & Huid).
  pose proof (workout_ids_unique s Hok) as Hnd.
  rewrite <- Hwid, <- Hid, <- Huid, <- Hown.
  apply workout_owned_stored; cbn [workouts].
  - now rewrite store_workout_ids.
  - now apply (store_workout_stored _ w).
Qed.

Lemma update_again (data : workout_fields) (w w' : Workout.t) :
  flush data (apply_fields data w) = inr w' ->
  flush data (apply_fields data w') = inr w'.
Proof.
  intros Hflush. pose proof (flush_ok _ _ _ Hflush) as (Hs & Hr & Hw & ->).
  unfold flush. rewrite Hs, Hr. cbn [andb negb].
  unfold apply_fields.
  cbn [Workout.id Workout.user_id Workout.exercise_name Workout.muscle_group
       Workout.is_cardio Workout.sets Workout.reps Workout.weight_kg
       Workout.created_at].
  rewrite !get_idempotent.
  destruct (f_weight_kg data) as [x|]; [|reflexivity].
  now rewrite (Hw x eq_refl).
Qed.

(** X8.  Updating twice with the same body is the same as updating once:
    the second update finds the row, answers with the same record and
    leaves the database as the first update left it. *)
Theorem update_twice_is_update_once
    (s s1 : db) (u : User.t) (workout_id : Z) (data : workout_fields)
    (w : Workout.t) (r1 : result) :
  db_ok s -> workout_owned s workout_id (User.id u) = Some w ->
  update_workout (Some u) workout_id data s = (s1, r1) ->
  update_workout (Some u) workout_id data s1 = (s1, r1).
Proof.
  intros Hok Hf.
  destruct (flush data (apply_fields data w)) as [e|w'] eqn:Hflush.
  - unfold update_workout at 1. rewrite Hf, Hflush.
    intros H. injection H as <- <-.
    unfold update_workout. now rewrite Hf, Hflush.
  - rewrite (update_workout_found _ _ _ _ w w' Hf Hflush).
    intros H. injection H as <- <-.
    destruct (update_keys _ _ _ Hflush) as (Hid & Hown & _).
    rewrite (update_workout_found _ _ _ _ w' w').
    + cbn [users workouts]. now rewrite store_workout_twice.
    + now apply (workout_owned_after_update s _ _ w).
    + now apply (update_again data w).
Qed.

Lemma update_twice_is_update_once_witness :
  db_ok gym /\ workout_owned gym 1 (User.id alice) = Some bench /\
  exists s1 r1,
    update_workout (Some alice) 1 (only_weight_kg 50) gym = (s1, r1) /\
    update_workout (Some alice) 1 (only_weight_kg 50) s1 = (s1, r1).
Proof.
  assert (Hf : workout_owned gym 1 (User.id alice) = Some bench)
    by (vm_compute; reflexivity).
  split; [exact gym_ok|]. split; [exact Hf|].
  destruct (update_workout (Some alice) 1 (only_weight_kg 50) gym)
    as [s1 r1] eqn:Hupd.
  exists s1, r1. split; [reflexivity|].
  exact (update_twice_is_update_once gym s1 alice 1 _ bench r1 gym_ok Hf Hupd).
Defined.

Lemma delete_row_ids (workout_id : Z) (rows : list Workout.t) (x : Z) :
  In x (map Workout.id (delete_row workout_id rows)) ->
  In x (map Workout.id rows) /\ x <> workout_id.
Proof.
  rewrite !in_map_iff. intros (r & <- & Hin). apply filter_In in Hin.
  destruct Hin as [Hin Hneq]. apply negb_true_iff, Z.eqb_neq in Hneq.
  split; [now exists r | exact Hneq].
Qed.

(** Only a create brings an id into the table. *)
Lemma serve_ids (r : request) (now : Z) (s : db) (x : Z) :
  creates r = false ->
  In x (map Workout.id (workouts (fst (serve r now s)))) ->
  In x (map Workout.id (workouts s)).
Proof.
  intros Hr.
  assert (Hview : forall f header,
             (forall u, In x (map Workout.id (workouts (fst (f u s)))) ->
                        In x (map Workout.id (workouts s))) ->
             In x (map Workout.id
                     (workouts (fst (token_required f header now s)))) ->
             In x (map Workout.id (workouts s))).
  { intros f header Hf.
    destruct (token_required_cases f header now s)
      as [[body ->]|(data & ident & _ & _ & _ & ->)]; [trivial | apply Hf]. }
  destruct r as [data salt|auth|header data|header args|header wid data|header wid];
    cbn [serve]; try discriminate Hr.
  - destruct (register_cases data salt s) as [->|(un & pw & _ & _ & ->)]; trivial.
  - now rewrite login_unchanged.
  - apply Hview. intros u. now rewrite get_workouts_unchanged.
  - apply Hview. intros u.
    destruct (update_workout_cases u wid data s)
      as [->|(user & w & w' & _ & _ & _ & ->)]; [trivial|].
    cbn [fst workouts]. now rewrite store_workout_ids.
  - apply Hview. intros u.
    destruct (delete_workout_cases u wid s)
      as [->|(user & w & _ & _ & ->)]; [trivial|].
    cbn [fst workouts]. intros Hin. now apply delete_row_ids in Hin.
Qed.

Lemma run_ids (later : list (request * Z)) (s : db) (x : Z) :
  Forall (fun r => creates (fst r) = false) later ->
  In x (map Workout.id (workouts (run later s))) ->
  In x (map Workout.id (workouts s)).
Proof.
  revert s. induction later as [|[r now] rest IH]; intros s Hall; simpl; [trivial|].
  inversion Hall as [|? ? Hr Hrest]; subst. intros Hin.
  apply (serve_ids r now s x Hr). now apply IH.
Qed.

(** X9.  A deleted workout is gone for everybody until a create hands its
    id out again.  After the owner's delete is answered 200, and after any
    further requests none of which is a create, no row carries the id, the
    owner's listing has no such row under any filter, and every update or
    delete of the id, by any user, is answered 404 and changes nothing. *)
Theorem deleted_workout_is_gone
    (s : db) (u : User.t) (workout_id : Z) (w : Workout.t) :
  db_ok s -> workout_owned s workout_id (User.id u) = Some w ->
  exists s',
    delete_workout (Some u) workout_id s =
      (s', Response 200 (message "Workout deleted successfully")) /\
    forall later,
      Forall (fun r => creates (fst r) = false) later ->
      ~ In workout_id (map Workout.id (workouts (run later s'))) /\
      (forall g x, In x (workouts_query (User.id u) g (run later s')) ->
                   Workout.id x <> workout_id) /\
      (forall v data,
          update_workout (Some v) workout_id data (run later s') =
            (run later s', not_found)) /\
      (forall v,
          delete_workout (Some v) workout_id (run later s') =
            (run later s', not_found)).
Proof.
  intros Hok Hf.
  destruct (workout_owned_some _ _ _ _ Hf) as (Hin & Hid & _).
  exists {| users := users s; workouts := delete_row (Workout.id w) (workouts s) |}.
  split; [unfold delete_workout; now rewrite Hf|].
  intros later Hlater.
  set (s'' := run later _).
  assert (Hgone : ~ In workout_id (map Workout.id (workouts s''))).
  { intros Hx. apply (run_ids later _ _ Hlater) in Hx. cbn [workouts] in Hx.
    apply delete_row_ids in Hx. destruct Hx as [_ Hx]. congruence. }
  split; [exact Hgone|]. split; [|split].
  - intros g x Hx Heq. apply Hgone. rewrite <- Heq. apply in_map.
    destruct (workouts_query_rows (User.id u) g s'') as [_ Hperm].
    apply (Permutation_in _ Hperm), filter_In in Hx. tauto.
  - intros v data. unfold update_workout.
    now rewrite (workout_owned_missing s'' workout_id (User.id v) Hgone).
  - intros v. unfold delete_workout.
    now rewrite (workout_owned_missing s'' workout_id (User.id v) Hgone).
Qed.

Lemma deleted_workout_is_gone_witness :
  db_ok gym /\ workout_owned gym 1 (User.id alice) = Some bench /\
  exists s',
    delete_workout (Some alice) 1 gym =
      (s', Response 200 (message "Workout deleted successfully")) /\
    let later := [(PutWorkout (Some (token_of 2)) 2 (only_weight_kg 5), 3000);
                  (PostRegister (body_of "carol" "s3cret") "salt-c", 4000)] in
    update_workout (Some bob) 1 (only_weight_kg 50) (run later s') =
      (run later s', not_found) /\
    delete_workout (Some alice) 1 (run later s') = (run later s', not_found).
Proof.
  assert (Hf : workout_owned gym 1 (User.id alice) = Some bench)
    by (vm_compute; reflexivity).
  split; [exact gym_ok|]. split; [exact Hf|].
  destruct (deleted_workout_is_gone gym alice 1 bench gym_ok Hf)
    as (s' & Hdel & Hlater).
  exists s'. split; [exact Hdel|]. intros later.
  destruct (Hlater later) as (_ & _ & Hupd & Hdel').
  { repeat constructor. }
  split; [apply Hupd | apply Hdel'].
Defined.

(** ** Requests and the rows of other users *)

Lemma filter_store_workout_other (p : Workout.t -> bool) (w' : Workout.t)
    (rows : list Workout.t) :
  p w' = false ->
  (forall x, In x rows -> Workout.id x = Workout.id w' -> p x = false) ->
  filter p (store_workout w' rows) = filter p rows.
Proof.
  intros Hp. induction rows as [|x rows IH]; intros Hrows; simpl; [reflexivity|].
  rewrite IH by (intros y Hy; apply Hrows; now right).
  destruct (Workout.id x =? Workout.id w') eqn:E; [|reflexivity].
  apply Z.eqb_eq in E. now rewrite Hp, (Hrows x (or_introl eq_refl) E).
Qed.

Lemma filter_delete_row_other (p : Workout.t -> bool) (workout_id : Z)
    (rows : list Workout.t) :
  (forall x, In x rows -> Workout.id x = workout_id -> p x = false) ->
  filter p (delete_row workout_id rows) = filter p rows.
Proof.
  induction rows as [|x rows IH]; intros Hrows; simpl; [reflexivity|].
  specialize (IH (fun y Hy => Hrows y (or_intror Hy))).
  destruct (Workout.id x =? workout_id) eqn:E; simpl.
  - apply Z.eqb_eq in E. now rewrite (Hrows x (or_introl eq_refl) E).
  - now rewrite IH.
Qed.

Lemma get_workouts_same_rows (s s' : db) (u : User.t) (args : list_args) :
  filter (owned_by (User.id u)) (workouts s') =
    filter (owned_by (User.id u)) (workouts s) ->
  snd (get_workouts (Some u) args s') = snd (get_workouts (Some u) args s).
Proof.
  intros Hrows.
  assert (Hq : workouts_query (User.id u) (arg_muscle_group args) s' =
               workouts_query (User.id u) (arg_muscle_group args) s).
  { unfold workouts_query. unfold owned_by in Hrows. now rewrite Hrows. }
  unfold get_workouts. rewrite Hq.
  now destruct (paginate _ _ _).
Qed.

(** X10.  A request changes only the rows of the user it acts for.  Unless
    its token names user [u], a request of any kind (registration and login
    included) leaves the rows of [u] as they are, in the same order, and
    every listing of [u], on any page and under any filter, gets the answer
    it got before. *)
Theorem requests_touch_only_the_callers_rows
    (r : request) (now : Z) (s : db) (u : User.t) :
  db_ok s -> caller r now <> Some (User.id u) ->
  filter (owned_by (User.id u)) (workouts (fst (serve r now s))) =
    filter (owned_by (User.id u)) (workouts s) /\
  (forall args,
      snd (get_workouts (Some u) args (fst (serve r now s))) =
        snd (get_workouts (Some u) args s)).
Proof.
  intros Hok Hcaller. pose proof (workout_ids_unique s Hok) as Hnd.
  assert (Hrows : filter (owned_by (User.id u)) (workouts (fst (serve r now s))) =
                    filter (owned_by (User.id u)) (workouts s)).
  { destruct (serve_workouts r now s)
      as [->|(user & Hc & _ &
              [(x & _ & Hown & _ & ->)|
               [(x & x' & Hx & Hown & Hid & Hown' & _ & ->)|
                (x & Hx & Hown & ->)]])]; [reflexivity| | |].
    - assert (Hno : owned_by (User.id u) x = false).
      { unfold owned_by. rewrite Hown. apply Z.eqb_neq. congruence. }
      rewrite filter_app. cbn [filter]. rewrite Hno. apply app_nil_r.
    - assert (Hno : owned_by (User.id u) x = false).
      { unfold owned_by. rewrite Hown. apply Z.eqb_neq. congruence. }
      apply filter_store_workout_other.
      + unfold owned_by in *. now rewrite Hown'.
      + intros y Hy Heq. rewrite Hid in Heq.
        now rewrite (key_injective Workout.id (workouts s) y x Hnd Hy Hx Heq).
    - assert (Hno : owned_by (User.id u) x = false).
      { unfold owned_by. rewrite Hown. apply Z.eqb_neq. congruence. }
      apply filter_delete_row_other. intros y Hy Heq.
      now rewrite (key_injective Workout.id (workouts s) y x Hnd Hy Hx Heq). }
  split; [exact Hrows|]. intros args. now apply get_workouts_same_rows.
Qed.

Lemma requests_touch_only_the_callers_rows_witness :
  db_ok gym /\
  caller (PutWorkout (Some (token_of 1)) 2 (only_weight_kg 50)) 3000 <>
    Some (User.id bob) /\
  caller (DeleteWorkout (Some (token_of 1)) 1) 3000 <> Some (User.id bob) /\
  filter (owned_by (User.id bob))
    (workouts (fst (serve (DeleteWorkout (Some (token_of 1)) 1) 3000 gym))) =
    [treadmill].
Proof.
  assert (H1 : caller (PutWorkout (Some (token_of 1)) 2 (only_weight_kg 50)) 3000 <>
               Some (User.id bob)) by (vm_compute; discriminate).
  assert (H2 : caller (DeleteWorkout (Some (token_of 1)) 1) 3000 <>
               Some (User.id bob)) by (vm_compute; discriminate).
  split; [exact gym_ok|]. split; [exact H1|]. split; [exact H2|].
  rewrite (proj1 (requests_touch_only_the_callers_rows
                    (DeleteWorkout (Some (token_of 1)) 1) 3000 gym bob gym_ok H2)).
  rewrite gym_contents. reflexivity.
Defined.

(** X11.  No request changes the id, the owner or the creation time of a
    stored workout.  Every row found after a request either has the id,
    owner and creation time of a row that was there before, or is the row
    the request created: then its creation time is the clock reading, its
    id is larger than every id stored before, and its owner is the user the
    token names. *)
Theorem requests_keep_id_owner_and_creation_time
    (r : request) (now : Z) (s : db) (w' : Workout.t) :
  In w' (workouts (fst (serve r now s))) ->
  (exists w, In w (workouts s) /\ Workout.id w = Workout.id w' /\
             Workout.user_id w = Workout.user_id w' /\
             Workout.created_at w = Workout.created_at w') \/
  (Workout.created_at w' = now /\
   (forall w, In w (workouts s) -> Workout.id w < Workout.id w') /\
   caller r now = Some (Workout.user_id w')).
Proof.
  destruct (serve_workouts r now s)
    as [->|(user & Hc & _ &
            [(x & Hid & Hown & Hat & ->)|
             [(x & x' & Hx & _ & Hid & Hown' & Hat & ->)|
              (x & _ & _ & ->)]])].
  - intros Hin. left. exists w'. tauto.
  - rewrite in_app_iff. intros [Hin|[<-|[]]]; [left; exists w'; tauto|].
    right. split; [exact Hat|]. split; [|now rewrite Hown].
    intros w Hw. rewrite Hid. unfold next_id.
    pose proof (max_id_bound _ _ (in_map Workout.id _ _ Hw)). lia.
  - intros Hin. apply store_workout_In in Hin.
    destruct Hin as [->|Hin]; left; [|exists w'; tauto].
    exists x. auto.
  - intros Hin. apply filter_In in Hin. left. exists w'. tauto.
Qed.

Lemma requests_keep_id_owner_and_creation_time_witness :
  In (apply_fields (only_weight_kg 50) bench)
     (workouts (fst (serve (PutWorkout (Some (token_of 1)) 1 (only_weight_kg 50))
                           3000 gym))) /\
  exists w, In w (workouts gym) /\ Workout.id w = 1 /\
            Workout.user_id w = 1 /\ Workout.created_at w = 1000.
Proof.
  assert (Hin : In (apply_fields (only_weight_kg 50) bench)
                  (workouts (fst (serve (PutWorkout (Some (token_of 1)) 1
                                           (only_weight_kg 50)) 3000 gym))))
    by (rewrite gym_contents; vm_compute; tauto).
  split; [exact Hin|].
  destruct (requests_keep_id_owner_and_creation_time _ _ _ _ Hin)
    as [(w & Hw & Hid & Hown & Hat)|(Hat & _)].
  - exists w. repeat split; assumption.
  - vm_compute in Hat. discriminate Hat.
Defined.

(** ** Walking the pages *)

Lemma firstn_add {A : Type} (a b : nat) (l : list A) :
  firstn (a + b) l = firstn a l ++ firstn b (skipn a l).
Proof.
  revert l. induction a as [|a IH]; intros l; simpl; [reflexivity|].
  destruct l as [|x l]; simpl; [now rewrite firstn_nil | now rewrite IH].
Qed.

Lemma page_asked_given (page : Z) : 1 <= page -> page_asked (Some page) = page.
Proof.
  intros Hp. unfold page_asked. cbn [get].
  destruct (page <? 1) eqn:E; [apply Z.ltb_lt in E; lia | reflexivity].
Qed.

Lemma size_asked_given (size : Z) : 1 <= size -> size_asked (Some size) = size.
Proof.
  intros Hp. unfold size_asked. cbn [get].
  destruct (size <? 1) eqn:E; [apply Z.ltb_lt in E; lia | reflexivity].
Qed.

Lemma slice_run (query : list Workout.t) (k : nat) (size : Z) :
  1 <= size ->
  slice (Z.of_nat (S k)) size query =
    firstn (Z.to_nat size) (skipn (k * Z.to_nat size) query).
Proof.
  intros Hpp. unfold slice.
  do 2 f_equal. rewrite Z2Nat.inj_mul by lia. f_equal. lia.
Qed.

Lemma slices_concat (query : list Workout.t) (size : Z) (n : nat) :
  1 <= size ->
  flat_map (fun k => slice (Z.of_nat k) size query) (seq 1 n) =
    firstn (n * Z.to_nat size) query.
Proof.
  intros Hpp. induction n as [|n IH]; [reflexivity|].
  rewrite seq_S, flat_map_app, IH. cbn [flat_map]. rewrite app_nil_r.
  change (1 + n)%nat with (S n). rewrite (slice_run query n size Hpp).
  change (S n * Z.to_nat size)%nat
    with (Z.to_nat size + n * Z.to_nat size)%nat.
  now rewrite Nat.add_comm, firstn_add.
Qed.

(** The offset of every page up to the last one is below the number of
    rows. *)
Lemma offset_within (total size k : Z) :
  0 <= total -> 1 <= size ->
  1 <= k <= (if total =? 0 then 0 else (total + size - 1) / size) ->
  (k - 1) * size <= total.
Proof.
  intros Ht Hs Hk. destruct (total =? 0); [lia|].
  pose proof (Z.mul_div_le (total + size - 1) size ltac:(lia)). nia.
Qed.

(** X12.  Walking the pages shows every workout once.  For a page size
    between 1 and 2^63 - 1, the answer to page [k >= 1], when its offset
    [(k - 1) * per_page] fits 64 bits, carries the [k]-th run of [per_page]
    rows with the same page count whatever [k] is; every page from 1 to
    [total_pages] of a listing that the store can count is answered so; no
    page has more than [per_page] items, and the items of pages 1 to
    [total_pages], one after the other, are exactly the caller's listing. *)
Theorem pages_partition_the_listing
    (s : db) (u : User.t) (muscle_group_filter : option string) (per_page : Z) :
  1 <= per_page <= sqlite_max ->
  let listing := workouts_query (User.id u) muscle_group_filter s in
  let items k := slice (Z.of_nat k) per_page listing in
  let total_pages := Pagination.pages (page_built listing 1 per_page) in
  let answer k :=
    get_workouts (Some u)
      {| arg_page := Some (Z.of_nat k); arg_per_page := Some per_page;
         arg_muscle_group := muscle_group_filter |} s in
  (forall k, (1 <= k)%nat -> (Z.of_nat k - 1) * per_page <= sqlite_max ->
     answer k =
       (s, list_response (items k) total_pages (Z.of_nat k)
                         (Z.of_nat k <? total_pages) (1 <? Z.of_nat k))) /\
  (Z.of_nat (List.length listing) <= sqlite_max ->
   forall k, (1 <= k <= Z.to_nat total_pages)%nat ->
     answer k =
       (s, list_response (items k) total_pages (Z.of_nat k)
                         (Z.of_nat k <? total_pages) (1 <? Z.of_nat k))) /\
  (forall k, (List.length (items k) <= Z.to_nat per_page)%nat) /\
  flat_map items (seq 1 (Z.to_nat total_pages)) = listing.
Proof.
  intros Hpp listing items total_pages answer.
  assert (Hanswer : forall k, (1 <= k)%nat ->
            (Z.of_nat k - 1) * per_page <= sqlite_max ->
            answer k =
              (s, list_response (items k) total_pages (Z.of_nat k)
                                (Z.of_nat k <? total_pages) (1 <? Z.of_nat k))).
  { intros k Hk Hoff. unfold answer.
    rewrite get_workouts_answer;
      cbn [arg_page arg_per_page arg_muscle_group];
      rewrite ?page_asked_given, ?size_asked_given by lia.
    - reflexivity.
    - unfold bindable. rewrite page_asked_given, size_asked_given by lia. lia. }
  assert (Hpages : total_pages =
            if Z.of_nat (List.length listing) =? 0 then 0
            else (Z.of_nat (List.length listing) + per_page - 1) / per_page)
    by reflexivity.
  split; [exact Hanswer|]. split; [|split].
  - intros Hcount k Hk. apply Hanswer; [lia|].
    pose proof (offset_within (Z.of_nat (List.length listing)) per_page
                  (Z.of_nat k) ltac:(lia) ltac:(lia)) as Hoff.
    rewrite <- Hpages in Hoff. lia.
  - intros k. unfold items, slice. rewrite length_firstn. apply Nat.le_min_l.
  - unfold items. rewrite (slices_concat listing per_page _ ltac:(lia)).
    apply firstn_all2.
    pose proof (pages_cover (Z.of_nat (List.length listing)) per_page
                  ltac:(lia) ltac:(lia)) as Hcover.
    rewrite <- Hpages in Hcover.
    assert (0 <= total_pages).
    { rewrite Hpages. destruct (Z.of_nat (List.length listing) =? 0); [lia|].
      apply Z.div_pos; lia. }
    apply Nat2Z.inj_le. rewrite Nat2Z.inj_mul, !Z2Nat.id by lia. exact Hcover.
Qed.

Lemma pages_partition_the_listing_witness :
  1 <= 5 <= sqlite_max /\
  flat_map (fun k => slice (Z.of_nat k) 5
                       (workouts_query (User.id alice) None (squat_log 12)))
           (seq 1 3) =
    workouts_query (User.id alice) None (squat_log 12).
Proof.
  assert (Hpp : 1 <= 5 <= sqlite_max) by (unfold sqlite_max; lia).
  split; [exact Hpp|].
  destruct (pages_partition_the_listing (squat_log 12) alice None 5 Hpp)
    as (_ & _ & _ & Hall).
  assert (Hpages : Z.to_nat (Pagination.pages
                     (page_built (workouts_query (User.id alice) None (squat_log 12))
                                 1 5)) = 3%nat) by (vm_compute; reflexivity).
  rewrite Hpages in Hall. exact Hall.
Defined.

(** ** An update in the listing *)

Lemma insert_desc_map (f : Workout.t -> Workout.t) (w : Workout.t)
    (rows : list Workout.t) :
  (forall x, In x (w :: rows) -> Workout.created_at (f x) = Workout.created_at x) ->
  insert_desc (f w) (map f rows) = map f (insert_desc w rows).
Proof.
  induction rows as [|x rows IH]; intros Hf; simpl; [reflexivity|].
  rewrite (Hf w), (Hf x) by (simpl; tauto).
  destruct (Workout.created_at x <=? Workout.created_at w); simpl; [reflexivity|].
  rewrite IH; [reflexivity|]. intros y Hy. apply Hf. simpl in *. tauto.
Qed.

Lemma order_by_map (f : Workout.t -> Workout.t) (rows : list Workout.t) :
  (forall x, In x rows -> Workout.created_at (f x) = Workout.created_at x) ->
  order_by_created_at_desc (map f rows) = map f (order_by_created_at_desc rows).
Proof.
  induction rows as [|x rows IH]; intros Hf; [reflexivity|].
  change (order_by_created_at_desc (map f (x :: rows)))
    with (insert_desc (f x) (order_by_created_at_desc (map f rows))).
  change (order_by_created_at_desc (x :: rows))
    with (insert_desc x (order_by_created_at_desc rows)).
  rewrite IH by (intros y Hy; apply Hf; now right).
  apply insert_desc_map. intros y [<-|Hy]; apply Hf; [now left|].
  right. now apply (Permutation_in _ (order_by_perm rows)).
Qed.

Lemma filter_map_same {A : Type} (p : A -> bool) (f : A -> A) (l : list A) :
  (forall x, In x l -> p (f x) = p x) -> filter p (map f l) = map f (filter p l).
Proof.
  induction l as [|x l IH]; intros Hp; simpl; [reflexivity|].
  rewrite (Hp x) by now left. rewrite IH by (intros y Hy; apply Hp; now right).
  now destruct (p x).
Qed.

Lemma listing_after_store (s : db) (uid : Z) (w w' : Workout.t) :
  NoDup (map Workout.id (workouts s)) -> In w (workouts s) ->
  Workout.id w' = Workout.id w -> Workout.user_id w' = Workout.user_id w ->
  Workout.created_at w' = Workout.created_at w ->
  workouts_query uid None
    {| users := users s; workouts := store_workout w' (workouts s) |} =
    store_workout w' (workouts_query uid None s).
Proof.
  intros Hnd Hin Hid Hown Hat.
  assert (Hsame : forall x, In x (workouts s) ->
                    (if Workout.id x =? Workout.id w' then w' else x) = x \/
                    x = w /\ (if Workout.id x =? Workout.id w' then w' else x) = w').
  { intros x Hx. destruct (Workout.id x =? Workout.id w') eqn:E; [|now left].
    right. split; [|reflexivity]. apply Z.eqb_eq in E. rewrite Hid in E.
    now apply (key_injective Workout.id (workouts s)). }
  unfold workouts_query. cbn [nonempty workouts]. unfold store_workout.
  rewrite filter_map_same, order_by_map; [reflexivity| |].
  - intros x Hx. apply filter_In in Hx. destruct Hx as [Hx _].
    destruct (Hsame x Hx) as [->|[-> ->]]; [reflexivity | exact Hat].
  - intros x Hx. destruct (Hsame x Hx) as [->|[-> ->]]; [reflexivity|].
    now rewrite Hown.
Qed.

(** X13.  An update does not move a workout in the listing.  After an
    update of the caller's workout [w] with values the store can hold, which
    is answered 200 with the updated row, the caller's unfiltered listing
    is the listing before with the row of [w] replaced in place by the
    updated row (the body's values, the weight as the REAL column holds
    it): every other row is where and what it was, and the number of rows,
    hence of pages, is the same.  An update with a value the store cannot
    hold raises and leaves the listing as it was. *)
Theorem update_keeps_the_listing_order
    (s : db) (u : User.t) (workout_id : Z) (data : workout_fields) (w : Workout.t) :
  db_ok s -> workout_owned s workout_id (User.id u) = Some w ->
  exists before after,
    workouts_query (User.id u) None s = before ++ w :: after /\
    (storable data ->
     snd (update_workout (Some u) workout_id data s) =
       Response 200 (Workout.to_dict (updated data w)) /\
     workouts_query (User.id u) None
       (fst (update_workout (Some u) workout_id data s)) =
       before ++ updated data w :: after) /\
    (~ storable data ->
     (exists e, snd (update_workout (Some u) workout_id data s) = Unhandled e) /\
     workouts_query (User.id u) None
       (fst (update_workout (Some u) workout_id data s)) =
       before ++ w :: after).
Proof.
  intros Hok Hf. pose proof (workout_ids_unique s Hok) as Hnd.
  destruct (workout_owned_some _ _ _ _ Hf) as (Hin & Hid & Hown).
  destruct (workouts_query_rows (User.id u) None s) as [_ Hperm].
  assert (Hlisted : In w (workouts_query (User.id u) None s)).
  { apply (Permutation_in _ (Permutation_sym Hperm)), filter_In.
    split; [exact Hin|]. unfold owned_by. rewrite Hown, Z.eqb_refl. reflexivity. }
  destruct (in_split _ _ Hlisted) as (before & after & Hsplit).
  exists before, after. split; [exact Hsplit|]. split.
  - intros Hst.
    rewrite (update_workout_found _ _ _ _ w (updated data w) Hf
               (storable_update data w Hst)).
    cbn [fst snd]. split; [reflexivity|].
    rewrite (listing_after_store s (User.id u) w (updated data w))
      by (auto; reflexivity).
    rewrite Hsplit. apply store_workout_split; [reflexivity|].
    rewrite <- Hsplit.
    apply (Permutation_NoDup (Permutation_map Workout.id (Permutation_sym Hperm))).
    now apply NoDup_keys_filter.
  - intros Hbad.
    destruct (update_workout_refused s u workout_id data w Hf Hbad) as [e ->].
    cbn [fst snd]. split; [now exists e | exact Hsplit].
Qed.

Lemma update_keeps_the_listing_order_witness :
  db_ok gym /\ workout_owned gym 1 (User.id alice) = Some bench /\
  storable (only_weight_kg 50) /\
  exists before after,
    workouts_query (User.id alice) None gym = before ++ bench :: after /\
    workouts_query (User.id alice) None
      (fst (update_workout (Some alice) 1 (only_weight_kg 50) gym)) =
      before ++ updated (only_weight_kg 50) bench :: after.
Proof.
  assert (Hf : workout_owned gym 1 (User.id alice) = Some bench)
    by (vm_compute; reflexivity).
  assert (Hst : storable (only_weight_kg 50))
    by (apply storable_only_weight_kg; reflexivity).
  split; [exact gym_ok|]. split; [exact Hf|]. split; [exact Hst|].
  destruct (update_keeps_the_listing_order gym alice 1 (only_weight_kg 50) bench
              gym_ok Hf) as (before & after & Hbefore & Hgood & _).
  exists before, after. split; [exact Hbefore|]. exact (proj2 (Hgood Hst)).
Defined.

(** ** An advancing clock *)

Lemma served_until_reachable (t : Z) (s : db) : served_until t s -> reachable s.
Proof. induction 1; now constructor. Qed.

Lemma StronglySorted_snoc {A : Type} (R : A -> A -> Prop) (l : list A) (a : A) :
  StronglySorted R l -> (forall x, In x l -> R x a) -> StronglySorted R (l ++ [a]).
Proof.
  induction 1 as [|x l Hl IH Hall]; intros Ha; simpl.
  - repeat constructor.
  - constructor; [apply IH; intros y Hy; apply Ha; now right|].
    apply Forall_app. split; [exact Hall|]. constructor; [|constructor].
    apply Ha. now left.
Qed.

Lemma StronglySorted_filter {A : Type} (R : A -> A -> Prop) (p : A -> bool)
    (l : list A) :
  StronglySorted R l -> StronglySorted R (filter p l).
Proof.
  induction 1 as [|x l Hl IH Hall]; simpl; [constructor|].
  destruct (p x); [|exact IH]. constructor; [exact IH|].
  rewrite Forall_forall in *. intros y Hy. apply filter_In in Hy. now apply Hall.
Qed.

Lemma older_map (f : Workout.t -> Workout.t) (rows : list Workout.t) :
  (forall x, In x rows -> Workout.id (f x) = Workout.id x /\
                          Workout.created_at (f x) = Workout.created_at x) ->
  StronglySorted older rows -> StronglySorted older (map f rows).
Proof.
  intros Hf Hs. induction Hs as [|x l Hl IH Hall]; simpl; [constructor|].
  constructor; [apply IH; intros y Hy; apply Hf; now right|].
  rewrite Forall_forall in *. intros y Hy. apply in_map_iff in Hy.
  destruct Hy as (z & <- & Hz). specialize (Hall z Hz). unfold older in *.
  destruct (Hf x (or_introl eq_refl)) as [-> ->].
  destruct (Hf z (or_intror Hz)) as [-> ->]. exact Hall.
Qed.

Lemma serve_keeps_table_order (r : request) (now : Z) (s : db) :
  db_ok s -> StronglySorted older (workouts s) ->
  (forall w, In w (workouts s) -> Workout.created_at w < now) ->
  StronglySorted older (workouts (fst (serve r now s))).
Proof.
  intros Hok Hsorted Hclock. pose proof (workout_ids_unique s Hok) as Hnd.
  destruct (serve_workouts r now s)
    as [->|(user & _ & _ &
            [(x & Hid & _ & Hat & ->)|
             [(x & x' & Hx & _ & Hid & _ & Hat & ->)|
              (x & _ & _ & ->)]])].
  - exact Hsorted.
  - apply StronglySorted_snoc; [exact Hsorted|].
    intros y Hy. split; [|rewrite Hat; now apply Hclock].
    rewrite Hid. unfold next_id.
    pose proof (max_id_bound _ _ (in_map Workout.id _ _ Hy)). lia.
  - unfold store_workout. apply older_map; [|exact Hsorted].
    intros y Hy.
    destruct (Workout.id y =? Workout.id x') eqn:E; [|now split].
    apply Z.eqb_eq in E. rewrite Hid in E.
    rewrite (key_injective Workout.id (workouts s) y x Hnd Hy Hx E).
    now split.
  - now apply StronglySorted_filter.
Qed.

Lemma insert_desc_oldest (w : Workout.t) (rows : list Workout.t) :
  (forall x, In x rows -> Workout.created_at w < Workout.created_at x) ->
  insert_desc w rows = rows ++ [w].
Proof.
  induction rows as [|x rows IH]; intros Hlt; simpl; [reflexivity|].
  assert (Workout.created_at w < Workout.created_at x) by (apply Hlt; now left).
  destruct (Workout.created_at x <=? Workout.created_at w) eqn:E;
    [apply Z.leb_le in E; lia|].
  rewrite IH; [reflexivity|]. intros y Hy. apply Hlt. now right.
Qed.

Lemma order_by_table_order (rows : list Workout.t) :
  StronglySorted older rows -> order_by_created_at_desc rows = rev rows.
Proof.
  induction 1 as [|x rows Hs IH Hall]; [reflexivity|].
  change (order_by_created_at_desc (x :: rows))
    with (insert_desc x (order_by_created_at_desc rows)).
  rewrite IH. simpl. apply insert_desc_oldest.
  intros y Hy. apply in_rev in Hy. rewrite Forall_forall in Hall.
  now apply Hall.
Qed.

(** X14.  When requests are served at strictly increasing clock readings,
    no stored workout is later than the last request, the workouts table is
    in creation order (a later row has the larger id and the later creation
    time), and the unfiltered listing of every user is that user's rows from
    the last created to the first. *)
Theorem advancing_clock_lists_newest_first (t : Z) (s : db) :
  served_until t s ->
  (forall w, In w (workouts s) -> Workout.created_at w <= t) /\
  StronglySorted older (workouts s) /\
  (forall uid,
      workouts_query uid None s = rev (filter (owned_by uid) (workouts s))).
Proof.
  intros Hserved.
  assert (Hinv : (forall w, In w (workouts s) -> Workout.created_at w <= t) /\
                 StronglySorted older (workouts s)).
  { induction Hserved as [t|r now t s Hserved [Hclock Hsorted] Hlt].
    - split; [intros w []|constructor].
    - split.
      + intros w Hin. apply serve_created_at in Hin.
        destruct Hin as [->|(w0 & Hin0 & <-)]; [lia|].
        specialize (Hclock w0 Hin0). lia.
      + apply serve_keeps_table_order; auto.
        * apply reachable_db_ok. now apply (served_until_reachable t).
        * intros w Hw. specialize (Hclock w Hw). lia. }
  destruct Hinv as [Hclock Hsorted]. split; [exact Hclock|].
  split; [exact Hsorted|]. intros uid. unfold workouts_query. cbn [nonempty].
  apply order_by_table_order. now apply StronglySorted_filter.
Qed.

Lemma advancing_clock_lists_newest_first_witness :
  served_until 2000 gym /\
  workouts_query 1 None gym = rev (filter (owned_by 1) (workouts gym)).
Proof.
  assert (Hserved : served_until 2000 gym).
  { unfold gym, run. cbn [fold_left fst snd].
    apply (served_next _ 2000 1000); [|lia].
    apply (served_next _ 1000 20); [|lia].
    apply (served_next _ 20 10); [|lia].
    apply (served_next _ 10 0); [|lia].
    constructor. }
  split; [exact Hserved|].
  apply (proj2 (proj2 (advancing_clock_lists_newest_first 2000 gym Hserved))).
Defined.

(** ** A listing without rows *)

(** X16.  A user without workouts (or with none that matches the filter)
    gets an empty page, not an error: on every page and page size whose
    limit and offset fit 64 bits, the listing answers 200 with no items, 0
    pages and no next page, the current page being the page asked for (1
    when it is below 1).  The rows play no part in the other case: a page
    or page size beyond 64 bits raises here too. *)
Theorem listing_without_rows_is_empty
    (s : db) (u : User.t) (args : list_args) :
  workouts_query (User.id u) (arg_muscle_group args) s = [] ->
  (bindable (arg_page args) (arg_per_page args) ->
   get_workouts (Some u) args s =
     (s, list_response [] 0 (page_asked (arg_page args)) false
                       (1 <? page_asked (arg_page args)))) /\
  (~ bindable (arg_page args) (arg_per_page args) ->
   get_workouts (Some u) args s = (s, Unhandled OverflowError)).
Proof.
  intros Hnone. split; [|apply get_workouts_overflow].
  intros Hb. rewrite (get_workouts_answer s u args Hb), Hnone.
  unfold page_built, slice, Pagination.pages, Pagination.has_next,
    Pagination.has_prev.
  cbn [Pagination.items Pagination.page Pagination.per_page Pagination.total
       List.length Z.of_nat Z.eqb].
  rewrite skipn_nil, firstn_nil.
  pose proof (page_asked_pos (arg_page args)) as Hpos.
  assert (Hnext : (page_asked (arg_page args) <? 0) = false)
    by (apply Z.ltb_ge; lia).
  unfold Pagination.pages. cbn [Pagination.total Z.eqb]. now rewrite Hnext.
Qed.

Lemma listing_without_rows_is_empty_witness :
  workouts_query (User.id alice) (Some "Back") gym = [] /\
  bindable (Some 4) None /\
  get_workouts (Some alice)
    {| arg_page := Some 4; arg_per_page := None; arg_muscle_group := Some "Back" |}
    gym = (gym, list_response [] 0 4 false true).
Proof.
  assert (Hnone : workouts_query (User.id alice) (Some "Back") gym = [])
    by (rewrite gym_contents; vm_compute; reflexivity).
  assert (Hb : bindable (Some 4) None)
    by (unfold bindable; vm_compute; split; discriminate).
  split; [exact Hnone|]. split; [exact Hb|].
  exact (proj1 (listing_without_rows_is_empty gym alice
                  {| arg_page := Some 4; arg_per_page := None;
                     arg_muscle_group := Some "Back" |} Hnone) Hb).
Defined.
